(** * porto: the container state machine and the container registry

    A shallow embedding of [container.cpp]: the data readback table
    ([DataSpec], [TData]), the container ([TContainer]) with its lifecycle
    operations, and the registry ([TContainerHolder]).

    The collaborators whose sources are outside [container.cpp] (cgroups,
    subsystems, tasks, the property store, the key-value storage) are not
    simulated.  Every call to one of them that may change the host is
    appended to a [Trace], and the answer of every call is read from a
    [Host] record as a function of the trace so far, so that a theorem
    quantified over [Host] covers every behaviour of the collaborators. *)

From stdpp Require Import gmap strings list fin_maps sorting.
From Stdlib Require Import ZArith String Ascii DecimalString.

Local Open Scope string_scope.
Local Open Scope list_scope.
Local Open Scope Z_scope.

(** ** Errors *)

Inductive EError :=
  | Unknown | InvalidValue | InvalidState | InvalidProperty | InvalidData
  | NoSpace | Busy | Permission.

(** [TError]: [TError::Success()] or a kind with its detail string;
    [if (error)] is [is_error]. *)
Inductive TError :=
  | Success
  | Failure (kind : EError) (msg : string).

Definition is_error (e : TError) : bool :=
  match e with Success => false | Failure _ _ => true end.

Definition error_kind (e : TError) : option EError :=
  match e with Success => None | Failure k _ => Some k end.

#[export] Instance EError_eq_dec : EqDecision EError.
Proof. solve_decision. Defined.

#[export] Instance TError_eq_dec : EqDecision TError.
Proof. solve_decision. Defined.

(** ** Container states *)

Inductive EContainerState := Stopped | Dead | Running | Paused.

#[export] Instance EContainerState_eq_dec : EqDecision EContainerState.
Proof. solve_decision. Defined.

Definition state_eqb (a b : EContainerState) : bool := bool_decide (a = b).

(** ** Subsystems and cgroup handles *)

Inductive TSubsystem := CpuacctSubsystem | MemorySubsystem | FreezerSubsystem.

#[export] Instance TSubsystem_eq_dec : EqDecision TSubsystem.
Proof. solve_decision. Defined.

#[export] Instance TSubsystem_countable : Countable TSubsystem.
Proof.
  refine (inj_countable'
            (fun s => match s with
                      | CpuacctSubsystem => 0%nat
                      | MemorySubsystem => 1%nat
                      | FreezerSubsystem => 2%nat
                      end)
            (fun n => match n with
                      | O => CpuacctSubsystem
                      | S O => MemorySubsystem
                      | _ => FreezerSubsystem
                      end) _).
  intros []; reflexivity.
Defined.

(** A cgroup handle: the subsystem and the path below the subsystem's root
    cgroup ([GetRootCgroup()] is the empty path, [GetChild] appends). *)
Record TCgroup := { CgSubsystem : TSubsystem; CgPath : list string }.

#[export] Instance TCgroup_eq_dec : EqDecision TCgroup.
Proof. solve_decision. Defined.

Definition GetRootCgroup (s : TSubsystem) : TCgroup :=
  {| CgSubsystem := s; CgPath := [] |}.

Definition GetChild (cg : TCgroup) (name : string) : TCgroup :=
  {| CgSubsystem := CgSubsystem cg; CgPath := CgPath cg ++ [name] |}.

(** Modelled from the spec: the constants [ROOT_CONTAINER] and
    [PORTO_ROOT_CGROUP] are declared in a header outside the sources; the
    spec names the reserved container [ROOT] and the path component
    [porto]. *)
Definition ROOT_CONTAINER : string := "ROOT".
Definition PORTO_ROOT_CGROUP : string := "porto".

(** ** Tasks *)

Record TTaskEnv := {
  Command : string; Cwd : string; Root : string;
  User : string; Group : string; Environ : string }.

Record TExitStatus := { Error : Z; Status : Z }.

(** Modelled from the spec: [TTask] is defined outside the sources.  A task
    carries its environment, the cgroups it is placed in, its pid (0 when
    not started), whether it is running, and its exit status. *)
Record TTask := {
  TaskEnv : TTaskEnv;
  Cgroups : list TCgroup;
  Pid : Z;
  IsRunning : bool;
  ExitStatus : TExitStatus }.

Definition new_TTask (env : TTaskEnv) (cgroups : list TCgroup) : TTask :=
  {| TaskEnv := env; Cgroups := cgroups; Pid := 0; IsRunning := false;
     ExitStatus := {| Error := 0; Status := 0 |} |}.

(** Modelled from the spec: [TTask::DeliverExitStatus] "transitions the Task
    from running to exited" and populates the exit status. *)
Definition Task_DeliverExitStatus (t : TTask) (status : Z) : TTask :=
  {| TaskEnv := TaskEnv t; Cgroups := Cgroups t; Pid := Pid t;
     IsRunning := false;
     ExitStatus := {| Error := Error (ExitStatus t); Status := status |} |}.

(** ** The property store *)

(** Modelled from the spec: [TContainerSpec] is defined outside the sources.
    A property bag from names to values plus the internal slots. *)
Record TContainerSpec := {
  Data : gmap string string;
  Internal : gmap string string }.

Definition new_TContainerSpec : TContainerSpec := {| Data := ∅; Internal := ∅ |}.

(** A persisted record ([kv::TNode]): string keys to string values. *)
Definition TNode : Type := list (string * string).

(** ** The host: calls and answers *)

Definition SIGKILL : Z := 9.
Definition SIGTERM : Z := 15.

Inductive Event :=
  | EvCgCreate (cg : TCgroup)
  | EvUseHierarchy (cg : TCgroup)
  | EvSetKnobValue (cg : TCgroup) (knob value : string)
  | EvTaskStart (t : TTask)
  | EvTaskRestore (pid : Z)
  | EvTaskRotate (pid : Z)
  | EvKill (cg : TCgroup) (sig : Z)
  | EvSleepWhile (cg : TCgroup)
  | EvFreeze (cg : TCgroup)
  | EvUnfreeze (cg : TCgroup)
  | EvAckExitStatus (pid : Z)
  | EvSpecCreate (name : string)
  | EvSpecSet (name property value : string)
  | EvSpecSetInternal (name key value : string).

Definition Trace : Type := list Event.

Record Host := {
  (* the order in which [LeafCgroups] is iterated: the map is keyed by
     subsystem pointers, so the source does not fix it; on a real host it
     lists the three subsystems *)
  leaf_order : list TSubsystem;
  (* TCgroup *)
  cg_Create : Trace -> TCgroup -> TError;
  cg_GetTasks : Trace -> TCgroup -> TError * list Z;
  cg_GetProcesses : Trace -> TCgroup -> list Z;
  cg_HasKnob : Trace -> TCgroup -> string -> bool;
  cg_SetKnobValue : Trace -> TCgroup -> string -> string -> TError;
  (* TSubsystem *)
  ss_UseHierarchy : Trace -> TCgroup -> TError;
  ss_Freeze : Trace -> TCgroup -> TError;
  ss_Unfreeze : Trace -> TCgroup -> TError;
  ss_Usage : Trace -> TCgroup -> TError * Z;
  (* TTaskEnv, TTask *)
  taskenv_Prepare : Trace -> TTaskEnv -> TError;
  task_Start : Trace -> TTask -> TError * TTask;
  task_Restore : Trace -> TTask -> Z -> TError * TTask;
  task_GetStdout : Trace -> TTask -> string;
  task_GetStderr : Trace -> TTask -> string;
  (* TContainerSpec and the storage behind it *)
  spec_Default : string -> string;
  spec_IsDynamic : string -> bool;
  spec_Set : Trace -> TContainerSpec -> string -> string -> TError * TContainerSpec;
  spec_Create : Trace -> string -> TError;
  spec_Restore : Trace -> string -> TNode -> TError * TContainerSpec;
  (* util/string *)
  StringToInt : string -> option Z }.

(** A call that may change the host: the answer depends on the calls made
    so far, and the call is appended to them. *)
Definition external {A : Type} (ev : Event) (answer : Trace -> A) (tr : Trace)
  : A * Trace :=
  (answer tr, tr ++ [ev]).

(** [std::to_string] on an integer. *)
Definition to_string (z : Z) : string := NilZero.string_of_int (Z.to_int z).

(** ** TContainer *)

Record TContainer := {
  Name : string;
  State : EContainerState;
  Spec : TContainerSpec;
  MaybeReturnedOk : bool;
  LeafCgroups : gmap TSubsystem TCgroup;
  Task : option TTask }.

(** Modelled from the spec: the constructor is declared in a header outside
    the sources; "initial state after creation is Stopped", no task, no
    leaves, the flag cleared. *)
Definition new_TContainer (name : string) : TContainer :=
  {| Name := name; State := Stopped; Spec := new_TContainerSpec;
     MaybeReturnedOk := false; LeafCgroups := ∅; Task := None |}.

Definition set_State (c : TContainer) (s : EContainerState) : TContainer :=
  {| Name := Name c; State := s; Spec := Spec c;
     MaybeReturnedOk := MaybeReturnedOk c; LeafCgroups := LeafCgroups c;
     Task := Task c |}.

Definition set_Spec (c : TContainer) (s : TContainerSpec) : TContainer :=
  {| Name := Name c; State := State c; Spec := s;
     MaybeReturnedOk := MaybeReturnedOk c; LeafCgroups := LeafCgroups c;
     Task := Task c |}.

Definition set_MaybeReturnedOk (c : TContainer) (b : bool) : TContainer :=
  {| Name := Name c; State := State c; Spec := Spec c;
     MaybeReturnedOk := b; LeafCgroups := LeafCgroups c; Task := Task c |}.

Definition set_LeafCgroups (c : TContainer) (l : gmap TSubsystem TCgroup)
  : TContainer :=
  {| Name := Name c; State := State c; Spec := Spec c;
     MaybeReturnedOk := MaybeReturnedOk c; LeafCgroups := l; Task := Task c |}.

Definition set_Task (c : TContainer) (t : option TTask) : TContainer :=
  {| Name := Name c; State := State c; Spec := Spec c;
     MaybeReturnedOk := MaybeReturnedOk c; LeafCgroups := LeafCgroups c;
     Task := t |}.

(** [TContainerSpec::Get], [GetInternal], [SetInternal]: modelled from the
    spec (the property store is outside the sources). *)
Definition Spec_Get (h : Host) (s : TContainerSpec) (property : string) : string :=
  match Data s !! property with
  | Some v => v
  | None => spec_Default h property
  end.

Definition Spec_GetInternal (s : TContainerSpec) (key : string)
  : TError * string :=
  match Internal s !! key with
  | Some v => (Success, v)
  | None => (Failure InvalidValue ("Invalid internal key " +:+ key), "")
  end.

Definition Spec_SetInternal (s : TContainerSpec) (key value : string)
  : TContainerSpec :=
  {| Data := Data s; Internal := <[key := value]> (Internal s) |}.

Definition ContainerStateName (state : EContainerState) : string :=
  match state with
  | Stopped => "stopped"
  | Dead => "dead"
  | Running => "running"
  | Paused => "paused"
  end.

Module Container.

Definition task_running (c : TContainer) : bool :=
  match Task c with
  | Some t => IsRunning t
  | None => false
  end.

(** The mutation of [CheckState]: a [Running] state whose task is missing
    or not running becomes [Stopped]. *)
Definition reconcile (c : TContainer) : TContainer :=
  if state_eqb (State c) Running && negb (task_running c)
  then set_State c Stopped
  else c.

Definition CheckState (c : TContainer) (expected : EContainerState)
  : bool * TContainer :=
  let c' := reconcile c in
  (state_eqb (State c') expected, c').

Definition GetName (c : TContainer) : string := Name c.

Definition IsRoot (c : TContainer) : bool :=
  String.eqb (Name c) ROOT_CONTAINER.

Definition GetLeafCgroup (c : TContainer) (subsys : TSubsystem) : TCgroup :=
  match LeafCgroups c !! subsys with
  | Some cg => cg
  | None =>
      if String.eqb (Name c) ROOT_CONTAINER
      then GetChild (GetRootCgroup subsys) PORTO_ROOT_CGROUP
      else GetChild (GetChild (GetRootCgroup subsys) PORTO_ROOT_CGROUP) (Name c)
  end.

Definition Processes (h : Host) (c : TContainer) (tr : Trace) : list Z :=
  cg_GetProcesses h tr (GetLeafCgroup c FreezerSubsystem).

Definition IsAlive (h : Host) (c : TContainer) (tr : Trace) : bool :=
  IsRoot c || negb (bool_decide (Processes h c tr = [])).

(** The values of [LeafCgroups] in the map's iteration order. *)
Definition leaves (h : Host) (c : TContainer) : list TCgroup :=
  omap (fun s => LeafCgroups c !! s) (leaf_order h).

(** The loop of [PrepareCgroups]: create each leaf, stop at the first
    error. *)
Fixpoint CreateLeaves (h : Host) (cgs : list TCgroup) (tr : Trace)
  : TError * Trace :=
  match cgs with
  | [] => (Success, tr)
  | cg :: rest =>
      let '(ret, tr1) := external (EvCgCreate cg) (fun t => cg_Create h t cg) tr in
      if is_error ret then (ret, tr1) else CreateLeaves h rest tr1
  end.

(** In [LeafCgroups[s] = GetLeafCgroup(s)] the right-hand side is
    evaluated first. *)
Definition bind_leaf (c : TContainer) (s : TSubsystem) : TContainer :=
  set_LeafCgroups c (<[s := GetLeafCgroup c s]> (LeafCgroups c)).

Definition PrepareCgroups (h : Host) (c : TContainer) (tr : Trace)
  : TError * TContainer * Trace :=
  let c := bind_leaf c CpuacctSubsystem in
  let c := bind_leaf c MemorySubsystem in
  let c := bind_leaf c FreezerSubsystem in
  let '(ret, tr) := CreateLeaves h (leaves h c) tr in
  if is_error ret then (ret, set_LeafCgroups c ∅, tr) else
  let memroot := GetRootCgroup MemorySubsystem in
  let memcg := GetLeafCgroup c MemorySubsystem in
  let '(error, tr) :=
    external (EvUseHierarchy memcg) (fun t => ss_UseHierarchy h t memcg) tr in
  if is_error error then (error, c, tr) else
  let '(error, tr) :=
    if cg_HasKnob h tr memroot "memory.low_limit_in_bytes"
    then
      let v := Spec_Get h (Spec c) "memory_guarantee" in
      external (EvSetKnobValue memcg "memory.low_limit_in_bytes" v)
               (fun t => cg_SetKnobValue h t memcg "memory.low_limit_in_bytes" v) tr
    else (Success, tr) in
  if is_error error then (error, c, tr) else
  let v := Spec_Get h (Spec c) "memory_limit" in
  let '(error, tr) :=
    external (EvSetKnobValue memcg "memory.limit_in_bytes" v)
             (fun t => cg_SetKnobValue h t memcg "memory.limit_in_bytes" v) tr in
  if is_error error then (error, c, tr) else
  (Success, c, tr).

Definition PrepareTask (h : Host) (c : TContainer) (tr : Trace)
  : TError * TContainer :=
  let taskEnv :=
    {| Command := Spec_Get h (Spec c) "command";
       Cwd := Spec_Get h (Spec c) "cwd";
       Root := Spec_Get h (Spec c) "root";
       User := Spec_Get h (Spec c) "user";
       Group := Spec_Get h (Spec c) "group";
       Environ := Spec_Get h (Spec c) "env" |} in
  let error := taskenv_Prepare h tr taskEnv in
  if is_error error then (error, c) else
  (Success, set_Task c (Some (new_TTask taskEnv (leaves h c)))).

Definition Create (h : Host) (c : TContainer) (tr : Trace) : TError * Trace :=
  external (EvSpecCreate (Name c)) (fun t => spec_Create h t (Name c)) tr.

(** [Start] after the [MaybeReturnedOk] test: the flag is already
    cleared.  The result is [None] when a null [Task] is dereferenced. *)
Definition Start_gated (h : Host) (c : TContainer) (tr : Trace)
  : option (TError * TContainer * Trace) :=
  let '(ok, c) := CheckState c Stopped in
  if negb ok then
    Some (Failure InvalidValue
            ("invalid container state " +:+ ContainerStateName (State c)), c, tr)
  else
  let '(error, c, tr) := PrepareCgroups h c tr in
  if is_error error then Some (error, c, tr) else
  if IsRoot c then Some (Success, set_State c Running, tr) else
  if (String.length (Spec_Get h (Spec c) "command") =? 0)%nat then
    Some (Failure InvalidValue "container command is empty", c, tr)
  else
  let '(error, c) := PrepareTask h c tr in
  if is_error error then Some (error, c, tr) else
  match Task c with
  | None => None
  | Some t =>
      let '((error, t'), tr) :=
        external (EvTaskStart t) (fun tr0 => task_Start h tr0 t) tr in
      let c := set_Task c (Some t') in
      if is_error error then Some (error, set_LeafCgroups c ∅, tr) else
      let pid := to_string (Pid t') in
      let c := set_Spec c (Spec_SetInternal (Spec c) "root_pid" pid) in
      let tr := tr ++ [EvSpecSetInternal (Name c) "root_pid" pid] in
      Some (Success, set_State c Running, tr)
  end.

Definition Start (h : Host) (c : TContainer) (tr : Trace)
  : option (TError * TContainer * Trace) :=
  if (state_eqb (State c) Running || state_eqb (State c) Dead)
     && MaybeReturnedOk c
  then Some (Success, set_MaybeReturnedOk c false, tr)
  else Start_gated h (set_MaybeReturnedOk c false) tr.

Definition KillAll (h : Host) (c : TContainer) (tr : Trace) : TError * Trace :=
  let cg := GetLeafCgroup c FreezerSubsystem in
  let '(error, _) := cg_GetTasks h tr cg in
  if is_error error then (error, tr) else
  (* try to stop all tasks gracefully *)
  let tr := tr ++ [EvKill cg SIGTERM] in
  let tr := tr ++ [EvSleepWhile cg] in
  (* then kill any task that didn't want to stop via SIGTERM *)
  let '(_, tr) := external (EvFreeze cg) (fun t => ss_Freeze h t cg) tr in
  let '(error, _) := cg_GetTasks h tr cg in
  if is_error error then (error, tr) else
  let tr := tr ++ [EvKill cg SIGKILL] in
  let '(_, tr) := external (EvUnfreeze cg) (fun t => ss_Unfreeze h t cg) tr in
  (Success, tr).

Definition invalid_state (c : TContainer) : TError :=
  Failure InvalidValue
    ("invalid container state " +:+ ContainerStateName (State c)).

Definition Stop (h : Host) (c : TContainer) (tr : Trace)
  : option (TError * TContainer * Trace) :=
  if IsRoot c then Some (invalid_state c, c, tr) else
  let '(running, c) := CheckState c Running in
  let '(ok, c) := if running then (true, c) else CheckState c Dead in
  if negb ok then Some (invalid_state c, c, tr) else
  match Task c with
  | None => None
  | Some t =>
      let pid := Pid t in
      let '(_, tr) := KillAll h c tr in
      let c := set_LeafCgroups c ∅ in
      let tr := tr ++ [EvAckExitStatus pid] in
      Some (Success, set_State c Stopped, tr)
  end.

Definition Pause (h : Host) (c : TContainer) (tr : Trace)
  : TError * TContainer * Trace :=
  if IsRoot c then (invalid_state c, c, tr) else
  let '(ok, c) := CheckState c Running in
  if negb ok then (invalid_state c, c, tr) else
  let cg := GetLeafCgroup c FreezerSubsystem in
  let '(error, tr) := external (EvFreeze cg) (fun t => ss_Freeze h t cg) tr in
  if is_error error then (error, c, tr) else
  (Success, set_State c Paused, tr).

Definition Resume (h : Host) (c : TContainer) (tr : Trace)
  : TError * TContainer * Trace :=
  let '(ok, c) := CheckState c Paused in
  if negb ok then (invalid_state c, c, tr) else
  let cg := GetLeafCgroup c FreezerSubsystem in
  let '(error, tr) := external (EvUnfreeze cg) (fun t => ss_Unfreeze h t cg) tr in
  if is_error error then (error, c, tr) else
  (Success, set_State c Running, tr).

(** The handlers of the data keys. *)
Module TData.

Definition State (h : Host) (tr : Trace) (c : TContainer) : string :=
  ContainerStateName (State c).

Definition RootPid (h : Host) (tr : Trace) (c : TContainer) : string :=
  match Task c with
  | Some t => to_string (Pid t)
  | None => "-1"
  end.

Definition StartErrno (h : Host) (tr : Trace) (c : TContainer) : string :=
  match Task c with
  | Some t =>
      if negb (IsRunning t) then to_string (Error (ExitStatus t)) else "-1"
  | None => "-1"
  end.

Definition ExitStatus (h : Host) (tr : Trace) (c : TContainer) : string :=
  match Task c with
  | Some t =>
      if negb (IsRunning t) then to_string (Status (ExitStatus t)) else "-1"
  | None => "-1"
  end.

Definition Stdout (h : Host) (tr : Trace) (c : TContainer) : string :=
  match Task c with
  | Some t => task_GetStdout h tr t
  | None => ""
  end.

Definition Stderr (h : Host) (tr : Trace) (c : TContainer) : string :=
  match Task c with
  | Some t => task_GetStderr h tr t
  | None => ""
  end.

(** [GetLeafCgroup] always yields a handle, so the "cgroup not found"
    branch of the two usage handlers has no counterpart here. *)
Definition CpuUsage (h : Host) (tr : Trace) (c : TContainer) : string :=
  let cg := GetLeafCgroup c CpuacctSubsystem in
  let '(error, val) := ss_Usage h tr cg in
  if is_error error then "-1" else to_string val.

Definition MemUsage (h : Host) (tr : Trace) (c : TContainer) : string :=
  let cg := GetLeafCgroup c MemorySubsystem in
  let '(error, val) := ss_Usage h tr cg in
  if is_error error then "-1" else to_string val.

End TData.

Record TDataSpec := {
  Description : string;
  RootValid : bool;
  Handler : Host -> Trace -> TContainer -> string;
  Valid : list EContainerState }.

Definition DataSpec : gmap string TDataSpec :=
  list_to_map
    [ ("state",
       {| Description := "container state"; RootValid := true;
          Handler := TData.State;
          Valid := [Stopped; Dead; Running; Paused] |});
      ("exit_status",
       {| Description := "container exit status"; RootValid := false;
          Handler := TData.ExitStatus; Valid := [Dead] |});
      ("start_errno",
       {| Description := "container start error"; RootValid := false;
          Handler := TData.StartErrno; Valid := [Stopped] |});
      ("root_pid",
       {| Description := "root process id"; RootValid := false;
          Handler := TData.RootPid; Valid := [Running; Paused] |});
      ("stdout",
       {| Description := "return task stdout"; RootValid := false;
          Handler := TData.Stdout; Valid := [Running; Paused; Dead] |});
      ("stderr",
       {| Description := "return task stderr"; RootValid := false;
          Handler := TData.Stderr; Valid := [Running; Paused; Dead] |});
      ("cpu_usage",
       {| Description := "return consumed CPU time in nanoseconds";
          RootValid := true; Handler := TData.CpuUsage;
          Valid := [Running; Paused; Dead] |});
      ("memory_usage",
       {| Description := "return consumed memory in bytes";
          RootValid := true; Handler := TData.MemUsage;
          Valid := [Running; Paused; Dead] |}) ].

(** [GetData]: the value is [None] when the out-parameter is not written.
    The container is returned as the method is not [const]. *)
Definition GetData (h : Host) (c : TContainer) (tr : Trace) (name : string)
  : TError * option string * TContainer :=
  match DataSpec !! name with
  | None => (Failure InvalidValue "invalid container data", None, c)
  | Some spec =>
      if IsRoot c && negb (RootValid spec) then
        (Failure InvalidData "invalid data for root container", None, c)
      else if negb (bool_decide (State c ∈ Valid spec)) then
        (Failure InvalidState
           ("invalid container state " +:+ ContainerStateName (State c)),
         None, c)
      else (Success, Some (Handler spec h tr c), c)
  end.

Definition GetProperty (h : Host) (c : TContainer) (property : string)
  : TError * option string :=
  if IsRoot c then
    (Failure InvalidProperty "no properties for root container", None)
  else (Success, Some (Spec_Get h (Spec c) property)).

Definition SetProperty (h : Host) (c : TContainer) (tr : Trace)
    (property value : string) : TError * TContainer * Trace :=
  if IsRoot c then
    (Failure InvalidValue "Can't set property for root", c, tr)
  else if negb (state_eqb (State c) Stopped) && negb (spec_IsDynamic h property)
  then
    (Failure InvalidValue
       ("Can't set dynamic property " +:+ property +:+ " for running container"),
     c, tr)
  else
    let '((error, spec), tr) :=
      external (EvSpecSet (Name c) property value)
               (fun t => spec_Set h t (Spec c) property value) tr in
    (error, set_Spec c spec, tr).

Definition DeliverExitStatus (c : TContainer) (pid status : Z)
  : bool * TContainer :=
  match state_eqb (State c) Running, Task c with
  | true, Some t =>
      if negb (Pid t =? pid) then (false, c)
      else
        (true, set_State (set_Task c (Some (Task_DeliverExitStatus t status))) Dead)
  | _, _ => (false, c)
  end.

Definition Heartbeat (c : TContainer) (tr : Trace) : Trace :=
  match Task c with
  | Some t => tr ++ [EvTaskRotate (Pid t)]
  | None => tr
  end.

Definition Restore (h : Host) (c : TContainer) (tr : Trace) (node : TNode)
  : option (TError * TContainer * Trace) :=
  let '(error, spec) := spec_Restore h tr (Name c) node in
  let c := set_Spec c spec in
  if is_error error then Some (error, c, tr) else
  let started : option Z :=
    let '(error, pidStr) := Spec_GetInternal (Spec c) "root_pid" in
    if is_error error then None else StringToInt h pidStr in
  let c := set_State c Stopped in
  match started with
  | Some pid =>
      let '(error, c, tr) := PrepareCgroups h c tr in
      if is_error error then Some (error, c, tr) else
      let '(error, c) := PrepareTask h c tr in
      if is_error error then Some (error, c, tr) else
      match Task c with
      | None => None
      | Some t =>
          let '((error, t'), tr) :=
            external (EvTaskRestore pid) (fun tr0 => task_Restore h tr0 t pid) tr in
          if is_error error then
            let c := set_Task c None in
            let '(_, tr) := KillAll h c tr in
            Some (error, c, tr)
          else
            let c := set_Task c (Some t') in
            let c := set_State c (if IsRunning t' then Running else Stopped) in
            let c :=
              if state_eqb (State c) Running then set_MaybeReturnedOk c true
              else c in
            Some (Success, c, tr)
      end
  | None =>
      if IsAlive h c tr then
        (* we started container but died before saving root_pid,
           state may be inconsistent so restart task *)
        let '(_, tr) := KillAll h c tr in
        Start h c tr
      else
        (* if we didn't start container, make sure nobody is running *)
        let '(_, tr) := KillAll h c tr in
        Some (Success, c, tr)
  end.

(** [~TContainer]: resume a paused container, then stop it; the results
    are dropped.  The trace holds the calls of the destructor's body; the
    destructors of the members (the Spec, the task) are not part of the
    sources and are not followed. *)
Definition Destroy (h : Host) (c : TContainer) (tr : Trace) : option Trace :=
  let '(c, tr) :=
    if state_eqb (State c) Paused
    then let '(_, c, tr) := Resume h c tr in (c, tr)
    else (c, tr) in
  match Stop h c tr with
  | Some (_, _, tr) => Some tr
  | None => None
  end.

End Container.

(** ** TContainerHolder *)

(** [Containers] maps a name to a container handle; [None] is a null
    handle. *)
Record TContainerHolder := {
  Containers : gmap string (option TContainer) }.

Definition isalnum (c : ascii) : bool :=
  let n := N_of_ascii c in
  ((48 <=? n) && (n <=? 57) || (65 <=? n) && (n <=? 90)
   || (97 <=? n) && (n <=? 122))%N.

Definition name_char (c : ascii) : bool :=
  isalnum c || Ascii.eqb c "_"%char.

(** [std::map] iterates in the order of its keys. *)
Fixpoint insert_entry {V : Type} (e : string * V) (l : list (string * V))
  : list (string * V) :=
  match l with
  | [] => [e]
  | x :: r => if String.leb (fst e) (fst x) then e :: l else x :: insert_entry e r
  end.

Definition entries {V : Type} (m : gmap string V) : list (string * V) :=
  foldr insert_entry [] (map_to_list m).

Module Holder.

Definition ValidName (name : string) : bool :=
  if String.eqb name ROOT_CONTAINER then true
  else if ((String.length name =? 0) || (128 <? String.length name))%nat then false
  else forallb name_char (list_ascii_of_string name).

(** [Containers[name]]: a missing key is inserted with a null handle. *)
Definition index (m : gmap string (option TContainer)) (name : string)
  : option TContainer * gmap string (option TContainer) :=
  match m !! name with
  | Some p => (p, m)
  | None => (None, <[name := None]> m)
  end.

Definition Create (h : Host) (H : TContainerHolder) (tr : Trace) (name : string)
  : TError * TContainerHolder * Trace :=
  if negb (ValidName name) then
    (Failure InvalidValue ("invalid container name " +:+ name), H, tr)
  else
    let '(p, m) := index (Containers H) name in
    match p with
    | None =>
        let c := new_TContainer name in
        let '(error, tr) := Container.Create h c tr in
        if is_error error then (error, {| Containers := m |}, tr) else
        (Success, {| Containers := <[name := Some c]> m |}, tr)
    | Some _ =>
        (Failure InvalidValue ("container " +:+ name +:+ " already exists"),
         {| Containers := m |}, tr)
    end.

Definition Get (H : TContainerHolder) (name : string) : option TContainer :=
  match Containers H !! name with
  | None => None
  | Some p => p
  end.

(** [Destroy]: erasing the entry drops the handle, which runs the
    container's destructor. *)
Definition Destroy (h : Host) (H : TContainerHolder) (tr : Trace) (name : string)
  : option (TContainerHolder * Trace) :=
  if negb (String.eqb name ROOT_CONTAINER) then
    let H' := {| Containers := delete name (Containers H) |} in
    match Containers H !! name with
    | Some (Some c) =>
        match Container.Destroy h c tr with
        | Some tr => Some (H', tr)
        | None => None
        end
    | _ => Some (H', tr)
    end
  else Some (H, tr).

Fixpoint names (l : list (string * option TContainer)) : option (list string) :=
  match l with
  | [] => Some []
  | (_, None) :: _ => None
  | (_, Some c) :: r =>
      match names r with
      | Some ret => Some (Container.GetName c :: ret)
      | None => None
      end
  end.

(** [List]: [None] when a null handle is dereferenced. *)
Definition List (H : TContainerHolder) : option (list string) :=
  names (entries (Containers H)).

(** [Restore]: when the container cannot be restored its only handle goes
    out of scope, which runs its destructor; storing the restored container
    under a name that already holds one drops the old handle, which runs
    the old container's destructor. *)
Definition Restore (h : Host) (H : TContainerHolder) (tr : Trace)
    (name : string) (node : TNode)
  : option (TError * TContainerHolder * Trace) :=
  let c := new_TContainer name in
  match Container.Restore h c tr node with
  | None => None
  | Some (e, c, tr) =>
      if is_error e then
        match Container.Destroy h c tr with
        | Some tr => Some (e, H, tr)
        | None => None
        end
      else
      let H' := {| Containers := <[name := Some c]> (Containers H) |} in
      match Containers H !! name with
      | Some (Some old) =>
          match Container.Destroy h old tr with
          | Some tr => Some (Success, H', tr)
          | None => None
          end
      | _ => Some (Success, H', tr)
      end
  end.

(** The loop of [DeliverExitStatus] over the entries still to visit. *)
Fixpoint deliver (l : list (string * option TContainer))
    (m : gmap string (option TContainer)) (pid status : Z)
  : option (bool * gmap string (option TContainer)) :=
  match l with
  | [] => Some (false, m)
  | (_, None) :: _ => None
  | (name, Some c) :: r =>
      let '(claimed, c') := Container.DeliverExitStatus c pid status in
      if claimed then Some (true, <[name := Some c']> m)
      else deliver r (<[name := Some c']> m) pid status
  end.

Definition DeliverExitStatus (H : TContainerHolder) (pid status : Z)
  : option (bool * TContainerHolder) :=
  match deliver (entries (Containers H)) (Containers H) pid status with
  | Some (b, m) => Some (b, {| Containers := m |})
  | None => None
  end.

Fixpoint beat (l : list (string * option TContainer)) (tr : Trace)
  : option Trace :=
  match l with
  | [] => Some tr
  | (_, None) :: _ => None
  | (_, Some c) :: r => beat r (Container.Heartbeat c tr)
  end.

Definition Heartbeat (H : TContainerHolder) (tr : Trace) : option Trace :=
  beat (entries (Containers H)) tr.

Definition CreateRoot (h : Host) (H : TContainerHolder) (tr : Trace)
  : option (TError * TContainerHolder * Trace) :=
  let '(error, H, tr) := Create h H tr ROOT_CONTAINER in
  if is_error error then Some (error, H, tr) else
  match Get H ROOT_CONTAINER with
  | None => None
  | Some root =>
      match Container.Start h root tr with
      | None => None
      | Some (_, root, tr) =>
          Some (Success,
                {| Containers := <[ROOT_CONTAINER := Some root]> (Containers H) |},
                tr)
      end
  end.

End Holder.

(** ** The lifecycle table of the specification *)

Inductive LifecycleOp := OpStart | OpStop | OpPause | OpResume.

(** The (state, operation) pairs of the transition table: Stopped/Start,
    Running/Stop, Dead/Stop, Running/Pause, Paused/Resume. *)
Definition listed (s : EContainerState) (op : LifecycleOp) : bool :=
  match s, op with
  | Stopped, OpStart => true
  | Running, OpStop => true
  | Dead, OpStop => true
  | Running, OpPause => true
  | Paused, OpResume => true
  | _, _ => false
  end.

Definition lifecycle (h : Host) (op : LifecycleOp) (c : TContainer) (tr : Trace)
  : option (TError * TContainer * Trace) :=
  match op with
  | OpStart => Container.Start h c tr
  | OpStop => Container.Stop h c tr
  | OpPause => Some (Container.Pause h c tr)
  | OpResume => Some (Container.Resume h c tr)
  end.

(** ** Concrete hosts *)

(** A host on which every call succeeds: tasks start as pid 42 and are
    restored as running, the freezer leaf holds the processes [procs]. *)
Definition host_ok (procs : list Z) : Host :=
  {| leaf_order := [CpuacctSubsystem; MemorySubsystem; FreezerSubsystem];
     cg_Create := fun _ _ => Success;
     cg_GetTasks := fun _ _ => (Success, procs);
     cg_GetProcesses := fun _ _ => procs;
     cg_HasKnob := fun _ _ _ => true;
     cg_SetKnobValue := fun _ _ _ _ => Success;
     ss_UseHierarchy := fun _ _ => Success;
     ss_Freeze := fun _ _ => Success;
     ss_Unfreeze := fun _ _ => Success;
     ss_Usage := fun _ _ => (Success, 7);
     taskenv_Prepare := fun _ _ => Success;
     task_Start := fun _ t =>
       (Success,
        {| TaskEnv := TaskEnv t; Cgroups := Cgroups t; Pid := 42;
           IsRunning := true; ExitStatus := ExitStatus t |});
     task_Restore := fun _ t pid =>
       (Success,
        {| TaskEnv := TaskEnv t; Cgroups := Cgroups t; Pid := pid;
           IsRunning := true; ExitStatus := ExitStatus t |});
     task_GetStdout := fun _ _ => "out";
     task_GetStderr := fun _ _ => "err";
     spec_Default := fun _ => "";
     spec_IsDynamic := fun _ => false;
     spec_Set := fun _ s p v =>
       (Success, {| Data := <[p := v]> (Data s); Internal := Internal s |});
     spec_Create := fun _ _ => Success;
     spec_Restore := fun _ _ node =>
       (Success,
        {| Data := ∅;
           Internal := list_to_map (filter (fun e => e.1 = "root_pid") node) |});
     StringToInt := fun s => if String.eqb s "42" then Some 42 else None |}.

(** The same host with a storage that refuses to create records. *)
Definition host_storage_down : Host :=
  {| leaf_order := leaf_order (host_ok []);
     cg_Create := cg_Create (host_ok []);
     cg_GetTasks := cg_GetTasks (host_ok []);
     cg_GetProcesses := cg_GetProcesses (host_ok []);
     cg_HasKnob := cg_HasKnob (host_ok []);
     cg_SetKnobValue := cg_SetKnobValue (host_ok []);
     ss_UseHierarchy := ss_UseHierarchy (host_ok []);
     ss_Freeze := ss_Freeze (host_ok []);
     ss_Unfreeze := ss_Unfreeze (host_ok []);
     ss_Usage := ss_Usage (host_ok []);
     taskenv_Prepare := taskenv_Prepare (host_ok []);
     task_Start := task_Start (host_ok []);
     task_Restore := task_Restore (host_ok []);
     task_GetStdout := task_GetStdout (host_ok []);
     task_GetStderr := task_GetStderr (host_ok []);
     spec_Default := spec_Default (host_ok []);
     spec_IsDynamic := spec_IsDynamic (host_ok []);
     spec_Set := spec_Set (host_ok []);
     spec_Create := fun _ _ => Failure Unknown "can't create record";
     spec_Restore := spec_Restore (host_ok []);
     StringToInt := StringToInt (host_ok []) |}.

(** A container as [Start] leaves it on [host_ok]: running task 42. *)
Definition task42 : TTask :=
  {| TaskEnv := {| Command := "/bin/sleep 60"; Cwd := ""; Root := "";
                   User := ""; Group := ""; Environ := "" |};
     Cgroups := []; Pid := 42; IsRunning := true;
     ExitStatus := {| Error := 0; Status := 0 |} |}.

Definition running42 (name : string) : TContainer :=
  {| Name := name; State := Running; Spec := new_TContainerSpec;
     MaybeReturnedOk := false; LeafCgroups := ∅; Task := Some task42 |}.

(** A container whose [Running] state is stale: it has no task. *)
Definition stale (name : string) : TContainer :=
  set_State (new_TContainer name) Running.

(** ** Notions used to state the properties *)

Definition root : TContainer := new_TContainer ROOT_CONTAINER.

(** The container claims the pid: it is Running and the pid is its task's. *)
Definition claims (c : TContainer) (pid : Z) : bool :=
  state_eqb (State c) Running &&
  match Task c with
  | Some t => Pid t =? pid
  | None => false
  end.

(** The container after its task's exit status was recorded. *)
Definition exited (c : TContainer) (status : Z) : TContainer :=
  match Task c with
  | Some t => set_State (set_Task c (Some (Task_DeliverExitStatus t status))) Dead
  | None => c
  end.

(** An entry that holds a container which does not claim the pid. *)
Definition passes (pid : Z) (e : string * option TContainer) : Prop :=
  exists c, e.2 = Some c /\ claims c pid = false.

(** Everything that can be asked of a container. *)
Inductive Request :=
  | ReqLifecycle (op : LifecycleOp)
  | ReqGetData (name : string)
  | ReqGetProperty (property : string)
  | ReqSetProperty (property value : string)
  | ReqRestore (node : TNode)
  | ReqDeliverExitStatus (pid status : Z)
  | ReqHeartbeat.

(** The container and the host after a request; [None] when a null pointer
    is dereferenced. *)
Definition handle (h : Host) (r : Request) (c : TContainer) (tr : Trace)
  : option (TContainer * Trace) :=
  match r with
  | ReqLifecycle op =>
      match lifecycle h op c tr with
      | Some (_, c', tr') => Some (c', tr')
      | None => None
      end
  | ReqGetData name => Some ((Container.GetData h c tr name).2, tr)
  | ReqGetProperty _ => Some (c, tr)
  | ReqSetProperty property value =>
      let '(_, c', tr') := Container.SetProperty h c tr property value in
      Some (c', tr')
  | ReqRestore node =>
      match Container.Restore h c tr node with
      | Some (_, c', tr') => Some (c', tr')
      | None => None
      end
  | ReqDeliverExitStatus pid status =>
      Some ((Container.DeliverExitStatus c pid status).2, tr)
  | ReqHeartbeat => Some (c, Container.Heartbeat c tr)
  end.

(** The containers visited by a sequence of requests, the first one
    included. *)
Fixpoint run (h : Host) (rs : list Request) (c : TContainer) (tr : Trace)
  : option (list TContainer) :=
  match rs with
  | [] => Some [c]
  | r :: rs' =>
      match handle h r c tr with
      | Some (c', tr') =>
          match run h rs' c' tr' with
          | Some hist => Some (c :: hist)
          | None => None
          end
      | None => None
      end
  end.

(** A registry with a stopped container [a] and a running container [b]. *)
Definition registry_ab : TContainerHolder :=
  {| Containers :=
       <["b" := Some (running42 "b")]> (<["a" := Some (new_TContainer "a")]> ∅) |}.

(** The table of the specification: the states in which each key may be
    read, and the keys that are valid on ROOT. *)
Definition table_gate (name : string) : option (list EContainerState) :=
  if String.eqb name "state" then Some [Stopped; Running; Paused; Dead]
  else if String.eqb name "exit_status" then Some [Dead]
  else if String.eqb name "start_errno" then Some [Stopped]
  else if String.eqb name "root_pid" then Some [Running; Paused]
  else if String.eqb name "stdout" then Some [Running; Paused; Dead]
  else if String.eqb name "stderr" then Some [Running; Paused; Dead]
  else if String.eqb name "cpu_usage" then Some [Running; Paused; Dead]
  else if String.eqb name "memory_usage" then Some [Running; Paused; Dead]
  else None.

Definition table_root_valid (name : string) : bool :=
  String.eqb name "state" || String.eqb name "cpu_usage"
  || String.eqb name "memory_usage".

(** The value of each key: the name of the state; the exit status and the
    launch error of a task that is no longer running; the pid of the task;
    what the task wrote to its standard output and its standard error; the
    usage that the cpuacct and the memory subsystem report for the
    container's leaf.  A number that is not available reads as -1, and the
    output of a missing task as the empty text. *)
Definition key_value (h : Host) (tr : Trace) (c : TContainer) (name : string)
  : string :=
  if String.eqb name "state" then
    match State c with
    | Stopped => "stopped"
    | Running => "running"
    | Paused => "paused"
    | Dead => "dead"
    end
  else if String.eqb name "exit_status" then
    match Task c with
    | Some t => if IsRunning t then "-1" else to_string (Status (ExitStatus t))
    | None => "-1"
    end
  else if String.eqb name "start_errno" then
    match Task c with
    | Some t => if IsRunning t then "-1" else to_string (Error (ExitStatus t))
    | None => "-1"
    end
  else if String.eqb name "root_pid" then
    match Task c with
    | Some t => to_string (Pid t)
    | None => "-1"
    end
  else if String.eqb name "stdout" then
    match Task c with
    | Some t => task_GetStdout h tr t
    | None => ""
    end
  else if String.eqb name "stderr" then
    match Task c with
    | Some t => task_GetStderr h tr t
    | None => ""
    end
  else if String.eqb name "cpu_usage" then
    let r := ss_Usage h tr (Container.GetLeafCgroup c CpuacctSubsystem) in
    if is_error r.1 then "-1" else to_string r.2
  else if String.eqb name "memory_usage" then
    let r := ss_Usage h tr (Container.GetLeafCgroup c MemorySubsystem) in
    if is_error r.1 then "-1" else to_string r.2
  else "".

(** The pid that [Restore] reads back: the internal [root_pid], parsed. *)
Definition persisted_pid (h : Host) (spec : TContainerSpec) : option Z :=
  match Internal spec !! "root_pid" with
  | Some s => StringToInt h s
  | None => None
  end.

(** The persisted record of a container started as pid 42. *)
Definition node42 : TNode := [("root_pid", "42")].

(** The characters allowed in a name. *)
Definition name_alphabet : string :=
  "ABCDEFGHIJKLMNOPQRSTUVWXYZabcdefghijklmnopqrstuvwxyz0123456789_".

(** A name as the specification allows it: the reserved ROOT name, or a
    non-empty name of at most 128 characters, all from the alphabet. *)
Definition well_formed (name : string) : Prop :=
  name = ROOT_CONTAINER \/
  (name <> "" /\ (String.length name <= 128)%nat /\
   forall ch, ch ∈ list_ascii_of_string name ->
              ch ∈ list_ascii_of_string name_alphabet).

(** ** Notions used for the further properties *)

(** A stopped container with a command to run. *)
Definition with_command (name command : string) : TContainer :=
  set_Spec (new_TContainer name)
    {| Data := <["command" := command]> ∅; Internal := ∅ |}.

(** A container paused while running task 42. *)
Definition paused42 (name : string) : TContainer :=
  set_State (running42 name) Paused.


(** Every entry of the registry holds a container that carries the name it
    is registered under. *)
Definition well_named (H : TContainerHolder) : Prop :=
  forall k p, Containers H !! k = Some p ->
              exists c, p = Some c /\ Name c = k.

(** A Dead container has a task. *)
Definition Dead_has_task (c : TContainer) : Prop :=
  State c = Dead -> Task c <> None.


Definition with_cg_GetTasks (h : Host) (f : Trace -> TCgroup -> TError * list Z) : Host :=
  {| leaf_order := leaf_order h;
     cg_Create := cg_Create h;
     cg_GetTasks := f;
     cg_GetProcesses := cg_GetProcesses h;
     cg_HasKnob := cg_HasKnob h;
     cg_SetKnobValue := cg_SetKnobValue h;
     ss_UseHierarchy := ss_UseHierarchy h;
     ss_Freeze := ss_Freeze h;
     ss_Unfreeze := ss_Unfreeze h;
     ss_Usage := ss_Usage h;
     taskenv_Prepare := taskenv_Prepare h;
     task_Start := task_Start h;
     task_Restore := task_Restore h;
     task_GetStdout := task_GetStdout h;
     task_GetStderr := task_GetStderr h;
     spec_Default := spec_Default h;
     spec_IsDynamic := spec_IsDynamic h;
     spec_Set := spec_Set h;
     spec_Create := spec_Create h;
     spec_Restore := spec_Restore h;
     StringToInt := StringToInt h |}.

Definition with_ss_Freeze (h : Host) (f : Trace -> TCgroup -> TError) : Host :=
  {| leaf_order := leaf_order h;
     cg_Create := cg_Create h;
     cg_GetTasks := cg_GetTasks h;
     cg_GetProcesses := cg_GetProcesses h;
     cg_HasKnob := cg_HasKnob h;
     cg_SetKnobValue := cg_SetKnobValue h;
     ss_UseHierarchy := ss_UseHierarchy h;
     ss_Freeze := f;
     ss_Unfreeze := ss_Unfreeze h;
     ss_Usage := ss_Usage h;
     taskenv_Prepare := taskenv_Prepare h;
     task_Start := task_Start h;
     task_Restore := task_Restore h;
     task_GetStdout := task_GetStdout h;
     task_GetStderr := task_GetStderr h;
     spec_Default := spec_Default h;
     spec_IsDynamic := spec_IsDynamic h;
     spec_Set := spec_Set h;
     spec_Create := spec_Create h;
     spec_Restore := spec_Restore h;
     StringToInt := StringToInt h |}.

Definition with_ss_Usage (h : Host) (f : Trace -> TCgroup -> TError * Z) : Host :=
  {| leaf_order := leaf_order h;
     cg_Create := cg_Create h;
     cg_GetTasks := cg_GetTasks h;
     cg_GetProcesses := cg_GetProcesses h;
     cg_HasKnob := cg_HasKnob h;
     cg_SetKnobValue := cg_SetKnobValue h;
     ss_UseHierarchy := ss_UseHierarchy h;
     ss_Freeze := ss_Freeze h;
     ss_Unfreeze := ss_Unfreeze h;
     ss_Usage := f;
     taskenv_Prepare := taskenv_Prepare h;
     task_Start := task_Start h;
     task_Restore := task_Restore h;
     task_GetStdout := task_GetStdout h;
     task_GetStderr := task_GetStderr h;
     spec_Default := spec_Default h;
     spec_IsDynamic := spec_IsDynamic h;
     spec_Set := spec_Set h;
     spec_Create := spec_Create h;
     spec_Restore := spec_Restore h;
     StringToInt := StringToInt h |}.

Definition with_task_Start (h : Host) (f : Trace -> TTask -> TError * TTask) : Host :=
  {| leaf_order := leaf_order h;
     cg_Create := cg_Create h;
     cg_GetTasks := cg_GetTasks h;
     cg_GetProcesses := cg_GetProcesses h;
     cg_HasKnob := cg_HasKnob h;
     cg_SetKnobValue := cg_SetKnobValue h;
     ss_UseHierarchy := ss_UseHierarchy h;
     ss_Freeze := ss_Freeze h;
     ss_Unfreeze := ss_Unfreeze h;
     ss_Usage := ss_Usage h;
     taskenv_Prepare := taskenv_Prepare h;
     task_Start := f;
     task_Restore := task_Restore h;
     task_GetStdout := task_GetStdout h;
     task_GetStderr := task_GetStderr h;
     spec_Default := spec_Default h;
     spec_IsDynamic := spec_IsDynamic h;
     spec_Set := spec_Set h;
     spec_Create := spec_Create h;
     spec_Restore := spec_Restore h;
     StringToInt := StringToInt h |}.

Definition with_taskenv_Prepare (h : Host) (f : Trace -> TTaskEnv -> TError) : Host :=
  {| leaf_order := leaf_order h;
     cg_Create := cg_Create h;
     cg_GetTasks := cg_GetTasks h;
     cg_GetProcesses := cg_GetProcesses h;
     cg_HasKnob := cg_HasKnob h;
     cg_SetKnobValue := cg_SetKnobValue h;
     ss_UseHierarchy := ss_UseHierarchy h;
     ss_Freeze := ss_Freeze h;
     ss_Unfreeze := ss_Unfreeze h;
     ss_Usage := ss_Usage h;
     taskenv_Prepare := f;
     task_Start := task_Start h;
     task_Restore := task_Restore h;
     task_GetStdout := task_GetStdout h;
     task_GetStderr := task_GetStderr h;
     spec_Default := spec_Default h;
     spec_IsDynamic := spec_IsDynamic h;
     spec_Set := spec_Set h;
     spec_Create := spec_Create h;
     spec_Restore := spec_Restore h;
     StringToInt := StringToInt h |}.

Definition with_spec_IsDynamic (h : Host) (f : string -> bool) : Host :=
  {| leaf_order := leaf_order h;
     cg_Create := cg_Create h;
     cg_GetTasks := cg_GetTasks h;
     cg_GetProcesses := cg_GetProcesses h;
     cg_HasKnob := cg_HasKnob h;
     cg_SetKnobValue := cg_SetKnobValue h;
     ss_UseHierarchy := ss_UseHierarchy h;
     ss_Freeze := ss_Freeze h;
     ss_Unfreeze := ss_Unfreeze h;
     ss_Usage := ss_Usage h;
     taskenv_Prepare := taskenv_Prepare h;
     task_Start := task_Start h;
     task_Restore := task_Restore h;
     task_GetStdout := task_GetStdout h;
     task_GetStderr := task_GetStderr h;
     spec_Default := spec_Default h;
     spec_IsDynamic := f;
     spec_Set := spec_Set h;
     spec_Create := spec_Create h;
     spec_Restore := spec_Restore h;
     StringToInt := StringToInt h |}.

(** The order of the registry's keys. *)
Definition key_le (a b : string) : Prop := String.leb a b = true.

(** ** Paths and mount records ([util/path.cpp]) *)

(** A [char] as the integer it is promoted to. *)
Definition char_code (c : ascii) : Z :=
  let n := Z.of_N (N_of_ascii c) in
  if n <? 128 then n else n - 256.

(** An integer stored into a [char]. *)
Definition char_of_int (z : Z) : ascii := ascii_of_N (Z.to_N (z mod 256)).

(** A length stored into an [unsigned]. *)
Definition to_unsigned (n : nat) : nat := N.to_nat (N.of_nat n mod 2 ^ 32).

(** [std::string::substr(pos)]: the string from [pos] on. *)
Definition substr_from (s : string) (pos : nat) : string :=
  substring pos (String.length s - pos) s.

(** [std::string::rfind(ch)]: the last position of [ch]. *)
Fixpoint rfind (ch : ascii) (s : string) : option nat :=
  match s with
  | EmptyString => None
  | String c rest =>
      match rfind ch rest with
      | Some i => Some (S i)
      | None => if Ascii.eqb c ch then Some 0%nat else None
      end
  end.

Module TPath.

Definition DirNameNormal (Path : string) : string :=
  match rfind "/" Path with
  | None => if (String.length Path =? 0)%nat then "" else "."
  | Some 0%nat => "/"
  | Some sep => substring 0 sep Path
  end.

Definition BaseNameNormal (Path : string) : string :=
  match rfind "/" Path with
  | None => Path
  | Some sep =>
      if (String.length Path =? 1)%nat then Path else substr_from Path (sep + 1)
  end.

(** [this->InnerPath(path, absolute)]: the empty path is [TPath()]. *)
Definition InnerPath (Path path : string) (absolute : bool) : string :=
  let len := to_unsigned (String.length Path) in
  (* check prefix *)
  if (len =? 0)%nat || negb (String.eqb (substring 0 len path) Path) then ""
  (* exact match *)
  else if (String.length path =? len)%nat then
    (if absolute then "/" else ".")
  else
    (* prefix "/" act as "" *)
    let len :=
      if (len =? 1)%nat
         && match get 0 Path with Some c => Ascii.eqb c "/" | None => false end
      then 0%nat else len in
    (* '/' must follow prefix *)
    if negb (match get len path with Some c => Ascii.eqb c "/" | None => false end)
    then ""
    (* cut prefix *)
    else if absolute then substr_from path len
    else substr_from path (to_unsigned (len + 1)).

End TPath.

Module TMount.

(** [(c & ~7) == '0']: an octal digit. *)
Definition octal (c : ascii) : bool := Z.land (char_code c) (Z.lnot 7) =? 48.

(** The character of an escape with the digits [a], [b], [c]. *)
Definition escaped (a b c : ascii) : ascii :=
  char_of_int (64 * Z.land (char_code a) 7 + 8 * Z.land (char_code b) 7
               + Z.land (char_code c) 7).

Fixpoint Demangle (s : string) : string :=
  match s with
  | EmptyString => EmptyString
  | String c0 rest =>
      match rest with
      | String a (String b (String c rest')) =>
          if Ascii.eqb c0 "\" && octal a && octal b && octal c
          then String (escaped a b c) (Demangle rest')
          else String c0 (Demangle rest)
      | _ => String c0 (Demangle rest)
      end
  end.

End TMount.

(** The escaping that mountinfo applies to a field: space, tab, newline and
    backslash are written as a backslash and three octal digits. *)
Definition mangle_char (c : ascii) : string :=
  if Ascii.eqb c " " then "\040"
  else if Ascii.eqb c "009" then "\011"
  else if Ascii.eqb c "010" then "\012"
  else if Ascii.eqb c "\" then "\134"
  else String c EmptyString.

Fixpoint mangle (s : string) : string :=
  match s with
  | EmptyString => EmptyString
  | String c rest => mangle_char c +:+ mangle rest
  end.

(** ** Deadlines ([util/unix.cpp]) *)

(** A value stored into a [uint64_t], an [int64_t] and a [useconds_t]. *)
Definition uint64 (z : Z) : Z := z mod 2 ^ 64.

Definition int64 (z : Z) : Z :=
  let u := z mod 2 ^ 64 in if u <? 2 ^ 63 then u else u - 2 ^ 64.

Definition useconds (z : Z) : Z := z mod 2 ^ 32.

(** [WaitDeadline(deadline, wait)] at the time [now] read from the monotonic
    clock: the result, and the argument of [usleep] when it is called. *)
Definition WaitDeadline (now deadline wait : Z) : bool * option Z :=
  if (deadline =? 0) || (int64 (uint64 (deadline - now)) <? 0) then (true, None)
  else
    let wait :=
      if uint64 (deadline - now) <? wait then uint64 (deadline - now) else wait in
    if negb (wait =? 0) then (false, Some (useconds (uint64 (wait * 1000))))
    else (false, None).

(** * Properties *)

(** ** Generic facts *)

Lemma state_eqb_eq (a b : EContainerState) : state_eqb a b = true <-> a = b.
Proof. unfold state_eqb. apply bool_decide_eq_true. Qed.

Lemma state_eqb_neq (a b : EContainerState) : state_eqb a b = false <-> a <> b.
Proof. unfold state_eqb. apply bool_decide_eq_false. Qed.

Lemma set_State_id (c : TContainer) : set_State c (State c) = c.
Proof. destruct c; reflexivity. Qed.

Lemma set_MaybeReturnedOk_id (c : TContainer) :
  set_MaybeReturnedOk c (MaybeReturnedOk c) = c.
Proof. destruct c; reflexivity. Qed.

(** A state that is not stale is left alone by the reconciliation. *)
Lemma reconcile_fresh (c : TContainer) :
  (State c = Running -> Container.task_running c = true) ->
  Container.reconcile c = c.
Proof.
  intros Hfresh. unfold Container.reconcile.
  destruct (state_eqb (State c) Running) eqn:E; simpl; [|reflexivity].
  apply state_eqb_eq in E. rewrite (Hfresh E). reflexivity.
Qed.

Lemma reconcile_state (c : TContainer) :
  State (Container.reconcile c) =
  if state_eqb (State c) Running && negb (Container.task_running c)
  then Stopped else State c.
Proof.
  unfold Container.reconcile.
  destruct (state_eqb (State c) Running && negb (Container.task_running c));
    reflexivity.
Qed.

Lemma reconcile_idem (c : TContainer) :
  Container.reconcile (Container.reconcile c) = Container.reconcile c.
Proof.
  apply reconcile_fresh. rewrite reconcile_state.
  unfold Container.reconcile.
  destruct (state_eqb (State c) Running) eqn:E; simpl.
  - destruct (Container.task_running c) eqn:R; simpl; [auto | discriminate].
  - intros Hr. apply state_eqb_neq in E. contradiction.
Qed.

(** ** C1: operations outside the lifecycle table *)

(** C1, as stated, fails: [Pause] on a freshly created (Stopped) container
    is outside the table and is rejected with the kind [InvalidValue], not
    [InvalidState]. *)
Lemma C1_pause_stopped_kind :
  listed (State (new_TContainer "e")) OpPause = false /\
  lifecycle (host_ok []) OpPause (new_TContainer "e") [] =
    Some (Failure InvalidValue "invalid container state stopped",
          new_TContainer "e", []) /\
  InvalidValue <> InvalidState.
Proof. split; [reflexivity | split; [reflexivity | discriminate]]. Qed.

(** C1 (amended): for a container whose [Running] state is not stale, every
    lifecycle operation outside the table, other than the [Start] that is
    acknowledged through [MaybeReturnedOk], is rejected with the kind
    [InvalidValue], makes no call to the host and leaves State, Spec, Task
    and LeafCgroups as they were. *)
Theorem unlisted_operation_rejected (h : Host) (op : LifecycleOp)
    (c : TContainer) (tr : Trace) :
  listed (State c) op = false ->
  (State c = Running -> Container.task_running c = true) ->
  ~ (op = OpStart /\ MaybeReturnedOk c = true /\
     (State c = Running \/ State c = Dead)) ->
  exists msg c',
    lifecycle h op c tr = Some (Failure InvalidValue msg, c', tr) /\
    State c' = State c /\ Spec c' = Spec c /\ Task c' = Task c /\
    LeafCgroups c' = LeafCgroups c.
Proof.
  intros Hout Hfresh Hack.
  destruct op; simpl.
  - (* Start *)
    unfold Container.Start.
    destruct ((state_eqb (State c) Running || state_eqb (State c) Dead)
              && MaybeReturnedOk c) eqn:Eack.
    + exfalso. apply Hack. apply andb_prop in Eack as [Es Ef].
      apply orb_prop in Es. rewrite !state_eqb_eq in Es. auto.
    + unfold Container.Start_gated, Container.CheckState.
      rewrite reconcile_fresh by exact Hfresh. simpl.
      destruct (state_eqb (State c) Stopped) eqn:Es.
      * apply state_eqb_eq in Es. rewrite Es in Hout. discriminate.
      * simpl. eexists _, _. split; [reflexivity | auto].
  - (* Stop *)
    unfold Container.Stop.
    destruct (Container.IsRoot c).
    + eexists _, _. split; [reflexivity | auto].
    + unfold Container.CheckState. rewrite !reconcile_fresh by exact Hfresh.
      destruct (state_eqb (State c) Running) eqn:Er.
      * apply state_eqb_eq in Er. rewrite Er in Hout. discriminate.
      * destruct (state_eqb (State c) Dead) eqn:Ed.
        -- apply state_eqb_eq in Ed. rewrite Ed in Hout. discriminate.
        -- simpl. eexists _, _. split; [reflexivity | auto].
  - (* Pause *)
    unfold Container.Pause.
    destruct (Container.IsRoot c).
    + eexists _, _. split; [reflexivity | auto].
    + unfold Container.CheckState. rewrite reconcile_fresh by exact Hfresh.
      destruct (state_eqb (State c) Running) eqn:Er.
      * apply state_eqb_eq in Er. rewrite Er in Hout. discriminate.
      * simpl. eexists _, _. split; [reflexivity | auto].
  - (* Resume *)
    unfold Container.Resume, Container.CheckState.
    rewrite reconcile_fresh by exact Hfresh.
    destruct (state_eqb (State c) Paused) eqn:Ep.
    + apply state_eqb_eq in Ep. rewrite Ep in Hout. discriminate.
    + simpl. eexists _, _. split; [reflexivity | auto].
Qed.

Lemma unlisted_operation_rejected_witness :
  exists msg c',
    lifecycle (host_ok []) OpResume (running42 "e") [] =
      Some (Failure InvalidValue msg, c', []) /\
    State c' = State (running42 "e") /\ Spec c' = Spec (running42 "e") /\
    Task c' = Task (running42 "e") /\
    LeafCgroups c' = LeafCgroups (running42 "e").
Proof.
  apply (unlisted_operation_rejected (host_ok []) OpResume (running42 "e") []).
  - reflexivity.
  - intros _. reflexivity.
  - intros [Hop _]. discriminate Hop.
Defined.

(** ** C3: the ROOT container *)

(** C3, as stated, fails: [GetProperty] on ROOT is rejected with the kind
    [InvalidProperty], not [InvalidValue]. *)
Lemma C3_root_GetProperty_kind :
  Container.IsRoot root = true /\
  Container.GetProperty (host_ok []) root "command" =
    (Failure InvalidProperty "no properties for root container", None) /\
  InvalidProperty <> InvalidValue.
Proof. split; [reflexivity | split; [reflexivity | discriminate]]. Qed.

(** [Resume] has no ROOT guard: on a Running ROOT, which never has a task,
    it is rejected but the reconciliation of [CheckState] stops ROOT. *)
Remark Resume_running_root_stops_it :
  Container.Resume (host_ok []) (set_State root Running) [] =
    (Failure InvalidValue "invalid container state stopped", root, []).
Proof. reflexivity. Qed.

(** C3 (amended): on the ROOT container, in every state, [Stop], [Pause] and
    [SetProperty] are rejected with the kind [InvalidValue] and [GetProperty]
    with the kind [InvalidProperty]; the container and the host are left as
    they were. *)
Theorem root_operations_rejected (h : Host) (c : TContainer) (tr : Trace) :
  Container.IsRoot c = true ->
  (exists msg, Container.Stop h c tr = Some (Failure InvalidValue msg, c, tr)) /\
  (exists msg, Container.Pause h c tr = (Failure InvalidValue msg, c, tr)) /\
  (forall property value, exists msg,
      Container.SetProperty h c tr property value =
        (Failure InvalidValue msg, c, tr)) /\
  (forall property, exists msg,
      Container.GetProperty h c property = (Failure InvalidProperty msg, None)).
Proof.
  intros Hroot.
  unfold Container.Stop, Container.Pause, Container.SetProperty,
    Container.GetProperty.
  rewrite Hroot. repeat split; intros; eexists; reflexivity.
Qed.

Lemma root_operations_rejected_witness :
  (exists msg, Container.Stop (host_ok []) (set_State root Running) [] =
                 Some (Failure InvalidValue msg, set_State root Running, [])) /\
  (exists msg, Container.Pause (host_ok []) (set_State root Running) [] =
                 (Failure InvalidValue msg, set_State root Running, [])) /\
  (forall property value, exists msg,
      Container.SetProperty (host_ok []) (set_State root Running) [] property value =
        (Failure InvalidValue msg, set_State root Running, [])) /\
  (forall property, exists msg,
      Container.GetProperty (host_ok []) (set_State root Running) property =
        (Failure InvalidProperty msg, None)).
Proof.
  apply (root_operations_rejected (host_ok []) (set_State root Running) []).
  reflexivity.
Defined.

(** ** C2: a failing Start *)

Lemma GetLeafCgroup_bind_leaf (c : TContainer) (s' s : TSubsystem) :
  Container.GetLeafCgroup (Container.bind_leaf c s') s =
  Container.GetLeafCgroup c s.
Proof.
  unfold Container.GetLeafCgroup at 1. unfold Container.bind_leaf. simpl.
  destruct (decide (s' = s)) as [->|Hne].
  - rewrite lookup_insert_eq. reflexivity.
  - rewrite lookup_insert_ne by exact Hne. reflexivity.
Qed.

Lemma bind_leaf_lookup (c : TContainer) (s' s : TSubsystem) :
  LeafCgroups (Container.bind_leaf c s') !! s =
  if decide (s' = s) then Some (Container.GetLeafCgroup c s)
  else LeafCgroups c !! s.
Proof.
  unfold Container.bind_leaf. simpl. rewrite lookup_insert.
  destruct (decide (s' = s)) as [->|Hne]; reflexivity.
Qed.

(** After the three assignments of [PrepareCgroups] every subsystem is
    bound to the leaf [GetLeafCgroup] computed for it. *)
Lemma bound_leaves (c : TContainer) (s : TSubsystem) :
  LeafCgroups
    (Container.bind_leaf
       (Container.bind_leaf (Container.bind_leaf c CpuacctSubsystem)
          MemorySubsystem) FreezerSubsystem) !! s =
  Some (Container.GetLeafCgroup c s).
Proof.
  rewrite !bind_leaf_lookup, !GetLeafCgroup_bind_leaf.
  destruct s; reflexivity.
Qed.

(** What [PrepareCgroups] may change: only [LeafCgroups], which is either
    emptied (a leaf could not be created) or holds all three leaves; it holds
    them whenever the method succeeds. *)
Lemma PrepareCgroups_inv (h : Host) (c c1 : TContainer) (tr tr1 : Trace)
    (e : TError) :
  Container.PrepareCgroups h c tr = (e, c1, tr1) ->
  Name c1 = Name c /\ State c1 = State c /\ Spec c1 = Spec c /\
  Task c1 = Task c /\ MaybeReturnedOk c1 = MaybeReturnedOk c /\
  ((is_error e = true /\ LeafCgroups c1 = ∅) \/
   (forall s, LeafCgroups c1 !! s = Some (Container.GetLeafCgroup c s))).
Proof.
  unfold Container.PrepareCgroups.
  set (c3 := Container.bind_leaf _ FreezerSubsystem).
  assert (Hb : forall s, LeafCgroups c3 !! s = Some (Container.GetLeafCgroup c s))
    by (intros s; apply bound_leaves).
  destruct (Container.CreateLeaves h (Container.leaves h c3) tr) as [ret tr0].
  destruct (is_error ret) eqn:Eret.
  { intros [= <- <- <-]. simpl. repeat split; auto. }
  unfold external.
  destruct (is_error (ss_UseHierarchy h tr0 _)) eqn:E1.
  { intros [= <- <- <-]. simpl. repeat split; auto. }
  destruct (cg_HasKnob h _ _ _).
  - destruct (is_error (cg_SetKnobValue h _ _ "memory.low_limit_in_bytes" _)) eqn:E2.
    { intros [= <- <- <-]. simpl. repeat split; auto. }
    destruct (is_error (cg_SetKnobValue h _ _ "memory.limit_in_bytes" _)) eqn:E3;
      intros [= <- <- <-]; simpl; repeat split; auto.
  - simpl.
    destruct (is_error (cg_SetKnobValue h _ _ "memory.limit_in_bytes" _)) eqn:E3;
      intros [= <- <- <-]; simpl; repeat split; auto.
Qed.

Lemma PrepareCgroups_success_leaves (h : Host) (c c1 : TContainer)
    (tr tr1 : Trace) :
  Container.PrepareCgroups h c tr = (Success, c1, tr1) ->
  forall s, LeafCgroups c1 !! s = Some (Container.GetLeafCgroup c s).
Proof.
  intros H. apply PrepareCgroups_inv in H as (_ & _ & _ & _ & _ & [[He _]|Hl]).
  - discriminate He.
  - exact Hl.
Qed.

Lemma Start_from_Stopped (h : Host) (c : TContainer) (tr : Trace) :
  State c = Stopped ->
  Container.Start h c tr =
  Container.Start_gated h (set_MaybeReturnedOk c false) tr.
Proof.
  intros Hs. unfold Container.Start. rewrite Hs. reflexivity.
Qed.

Lemma CheckState_Stopped (c : TContainer) :
  State c = Stopped -> Container.CheckState c Stopped = (true, c).
Proof.
  intros Hs. unfold Container.CheckState.
  rewrite reconcile_fresh by (rewrite Hs; discriminate).
  rewrite Hs. reflexivity.
Qed.

(** The part of C2 that the code meets: whatever step of [Start] fails on a
    Stopped container, the container is still Stopped. *)
Remark failed_Start_stays_Stopped (h : Host) (c c' : TContainer)
    (tr tr' : Trace) (e : TError) :
  State c = Stopped ->
  Container.Start h c tr = Some (e, c', tr') ->
  is_error e = true ->
  State c' = Stopped.
Proof.
  intros Hs. rewrite Start_from_Stopped by exact Hs.
  unfold Container.Start_gated.
  rewrite CheckState_Stopped by exact Hs. simpl.
  destruct (Container.PrepareCgroups h _ tr) as [[e1 c1] tr1] eqn:Hp.
  apply PrepareCgroups_inv in Hp as (_ & Hs1 & _ & _ & _ & _). simpl in Hs1.
  destruct (is_error e1). { intros [= <- <- <-] _. congruence. }
  destruct (Container.IsRoot c1). { intros [= <- <- <-] He. discriminate He. }
  destruct (_ =? _)%nat. { intros [= <- <- <-] _. congruence. }
  unfold Container.PrepareTask.
  destruct (is_error (taskenv_Prepare h tr1 _)) eqn:Et; rewrite ?Et.
  { intros [= <- <- <-] _. congruence. }
  simpl. unfold external. destruct (task_Start h tr1 _) as [e2 t2].
  destruct (is_error e2) eqn:E2.
  - intros [= <- <- <-] _. simpl. congruence.
  - intros [= <- <- <-] He. discriminate He.
Qed.

(** C2 (the code misses it): when [Start] on a Stopped container other than
    ROOT has prepared the cgroups and then finds the command empty, it
    returns [InvalidValue] with the container Stopped, but [LeafCgroups]
    still holds the three leaves that were created. *)
Theorem Start_empty_command_keeps_leaves (h : Host) (c : TContainer)
    (tr : Trace) :
  State c = Stopped ->
  Container.IsRoot c = false ->
  (Container.PrepareCgroups h (set_MaybeReturnedOk c false) tr).1.1 = Success ->
  Spec_Get h (Spec c) "command" = "" ->
  exists c',
    Container.Start h c tr =
      Some (Failure InvalidValue "container command is empty", c',
            (Container.PrepareCgroups h (set_MaybeReturnedOk c false) tr).2) /\
    State c' = Stopped /\
    (forall s, LeafCgroups c' !! s = Some (Container.GetLeafCgroup c s)) /\
    LeafCgroups c' <> ∅.
Proof.
  intros Hs Hroot Hprep Hcmd.
  rewrite Start_from_Stopped by exact Hs.
  unfold Container.Start_gated.
  rewrite CheckState_Stopped by exact Hs. simpl.
  destruct (Container.PrepareCgroups h _ tr) as [[e1 c1] tr1] eqn:Hp.
  simpl in Hprep. subst e1. simpl.
  pose proof (PrepareCgroups_success_leaves _ _ _ _ _ Hp) as Hl.
  apply PrepareCgroups_inv in Hp as (Hn & Hs1 & Hsp & _ & _ & _).
  simpl in Hn, Hs1, Hsp.
  unfold Container.IsRoot in *. rewrite Hn, Hroot, Hsp, Hcmd. simpl.
  exists c1. repeat split.
  - congruence.
  - exact Hl.
  - intros Hempty. specialize (Hl FreezerSubsystem).
    rewrite Hempty, lookup_empty in Hl. discriminate Hl.
Qed.

Lemma Start_empty_command_keeps_leaves_witness :
  exists c',
    Container.Start (host_ok []) (new_TContainer "a") [] =
      Some (Failure InvalidValue "container command is empty", c',
            [EvCgCreate (GetChild (GetChild (GetRootCgroup CpuacctSubsystem) "porto") "a");
             EvCgCreate (GetChild (GetChild (GetRootCgroup MemorySubsystem) "porto") "a");
             EvCgCreate (GetChild (GetChild (GetRootCgroup FreezerSubsystem) "porto") "a");
             EvUseHierarchy (GetChild (GetChild (GetRootCgroup MemorySubsystem) "porto") "a");
             EvSetKnobValue (GetChild (GetChild (GetRootCgroup MemorySubsystem) "porto") "a")
               "memory.low_limit_in_bytes" "";
             EvSetKnobValue (GetChild (GetChild (GetRootCgroup MemorySubsystem) "porto") "a")
               "memory.limit_in_bytes" ""]) /\
    State c' = Stopped /\
    (forall s, LeafCgroups c' !! s =
               Some (Container.GetLeafCgroup (new_TContainer "a") s)) /\
    LeafCgroups c' <> ∅.
Proof.
  apply (Start_empty_command_keeps_leaves (host_ok []) (new_TContainer "a") []);
    reflexivity.
Defined.

(** ** The registry in key order *)

Lemma insert_entry_perm {V : Type} (e : string * V) (l : list (string * V)) :
  insert_entry e l ≡ₚ e :: l.
Proof.
  induction l as [|x r IH]; simpl; [reflexivity|].
  destruct (String.leb e.1 x.1); [reflexivity|].
  rewrite IH. apply Permutation_swap.
Qed.

Lemma entries_perm {V : Type} (m : gmap string V) :
  entries m ≡ₚ map_to_list m.
Proof.
  unfold entries. induction (map_to_list m) as [|x r IH]; simpl; [reflexivity|].
  rewrite insert_entry_perm, IH. reflexivity.
Qed.

Lemma elem_of_entries {V : Type} (m : gmap string V) (k : string) (v : V) :
  (k, v) ∈ entries m <-> m !! k = Some v.
Proof. rewrite entries_perm. apply elem_of_map_to_list. Qed.

(** ** C4: exit delivery *)

Lemma claims_true (c : TContainer) (pid : Z) :
  claims c pid = true <->
  State c = Running /\ exists t, Task c = Some t /\ Pid t = pid.
Proof.
  unfold claims. rewrite andb_true_iff, state_eqb_eq.
  destruct (Task c) as [t|].
  - rewrite Z.eqb_eq. split.
    + intros [Hs Hp]. eauto.
    + intros [Hs (t' & [= <-] & Hp)]. auto.
  - split; [intros [_ Hf]; discriminate | intros [_ (t & Ht & _)]; discriminate].
Qed.

Lemma Container_DeliverExitStatus_claims (c : TContainer) (pid status : Z) :
  Container.DeliverExitStatus c pid status =
  if claims c pid then (true, exited c status) else (false, c).
Proof.
  unfold Container.DeliverExitStatus, claims, exited.
  destruct (state_eqb (State c) Running); simpl; [|reflexivity].
  destruct (Task c) as [t|]; [|reflexivity].
  destruct (Pid t =? pid); reflexivity.
Qed.

Lemma exited_fields (c : TContainer) (t : TTask) (status : Z) :
  Task c = Some t ->
  State (exited c status) = Dead /\
  Task (exited c status) = Some (Task_DeliverExitStatus t status) /\
  Name (exited c status) = Name c /\ Spec (exited c status) = Spec c /\
  LeafCgroups (exited c status) = LeafCgroups c.
Proof. intros Ht. unfold exited. rewrite Ht. simpl. auto. Qed.

Lemma deliver_passes (l : list (string * option TContainer))
    (m : gmap string (option TContainer)) (pid status : Z) :
  (forall k p, (k, p) ∈ l -> m !! k = Some p) ->
  Forall (passes pid) l ->
  Holder.deliver l m pid status = Some (false, m).
Proof.
  induction l as [|[k p] r IH]; intros Hin Hall; simpl; [reflexivity|].
  apply Forall_cons in Hall as [(c & Hp & Hc) Hall]. simpl in Hp. subst p.
  rewrite Container_DeliverExitStatus_claims, Hc.
  rewrite insert_id by (apply Hin; left).
  apply IH; [|exact Hall].
  intros k' p' Hk. apply Hin. right. exact Hk.
Qed.

Lemma deliver_first_claim (l1 l2 : list (string * option TContainer))
    (k : string) (c : TContainer)
    (m : gmap string (option TContainer)) (pid status : Z) :
  (forall k' p, (k', p) ∈ l1 -> m !! k' = Some p) ->
  Forall (passes pid) l1 ->
  claims c pid = true ->
  Holder.deliver (l1 ++ (k, Some c) :: l2) m pid status =
    Some (true, <[k := Some (exited c status)]> m).
Proof.
  induction l1 as [|[k1 p1] r IH]; intros Hin Hall Hc; simpl.
  - rewrite Container_DeliverExitStatus_claims, Hc. reflexivity.
  - apply Forall_cons in Hall as [(c1 & Hp & Hc1) Hall]. simpl in Hp. subst p1.
    rewrite Container_DeliverExitStatus_claims, Hc1.
    rewrite insert_id by (apply Hin; left).
    apply IH; [|exact Hall|exact Hc].
    intros k' p' Hk. apply Hin. right. exact Hk.
Qed.

(** *** Runs of one container *)

Lemma reconcile_Dead (c : TContainer) :
  State (Container.reconcile c) = Dead -> State c = Dead.
Proof.
  rewrite reconcile_state.
  destruct (state_eqb (State c) Running && negb (Container.task_running c));
    [discriminate | auto].
Qed.

Lemma Start_gated_Dead (h : Host) (c c' : TContainer) (tr tr' : Trace)
    (e : TError) :
  Container.Start_gated h c tr = Some (e, c', tr') ->
  State c' = Dead -> State c = Dead.
Proof.
  unfold Container.Start_gated, Container.CheckState.
  destruct (state_eqb (State (Container.reconcile c)) Stopped) eqn:Es; simpl.
  2:{ intros [= <- <- <-]. apply reconcile_Dead. }
  apply state_eqb_eq in Es.
  destruct (Container.PrepareCgroups h _ tr) as [[e1 c1] tr1] eqn:Hp.
  apply PrepareCgroups_inv in Hp as (_ & Hs1 & _ & _ & _ & _).
  rewrite Es in Hs1.
  destruct (is_error e1). { intros [= <- <- <-]. congruence. }
  destruct (Container.IsRoot c1). { intros [= <- <- <-]. discriminate. }
  destruct (_ =? _)%nat. { intros [= <- <- <-]. congruence. }
  unfold Container.PrepareTask.
  destruct (is_error (taskenv_Prepare h tr1 _)) eqn:Et; rewrite ?Et.
  { intros [= <- <- <-]. congruence. }
  simpl. unfold external. destruct (task_Start h tr1 _) as [e2 t2].
  destruct (is_error e2); intros [= <- <- <-]; simpl; congruence.
Qed.

Lemma Start_Dead (h : Host) (c c' : TContainer) (tr tr' : Trace) (e : TError) :
  Container.Start h c tr = Some (e, c', tr') ->
  State c' = Dead -> State c = Dead.
Proof.
  unfold Container.Start.
  destruct (_ && MaybeReturnedOk c).
  - intros [= <- <- <-]. auto.
  - intros H Hd. apply (Start_gated_Dead _ _ _ _ _ _ H Hd).
Qed.

Lemma Stop_Dead (h : Host) (c c' : TContainer) (tr tr' : Trace) (e : TError) :
  Container.Stop h c tr = Some (e, c', tr') ->
  State c' = Dead -> State c = Dead.
Proof.
  unfold Container.Stop, Container.CheckState.
  destruct (Container.IsRoot c). { intros [= <- <- <-]. auto. }
  rewrite reconcile_idem.
  destruct (state_eqb (State (Container.reconcile c)) Running) eqn:Er.
  - simpl. destruct (Task (Container.reconcile c)); [|discriminate].
    destruct (Container.KillAll h _ tr). intros [= <- <- <-]. discriminate.
  - destruct (state_eqb (State (Container.reconcile c)) Dead) eqn:Ed; simpl.
    + destruct (Task (Container.reconcile c)); [|discriminate].
      destruct (Container.KillAll h _ tr). intros [= <- <- <-]. discriminate.
    + intros [= <- <- <-]. apply reconcile_Dead.
Qed.

Lemma Pause_Dead (h : Host) (c c' : TContainer) (tr tr' : Trace) (e : TError) :
  Container.Pause h c tr = (e, c', tr') ->
  State c' = Dead -> State c = Dead.
Proof.
  unfold Container.Pause, Container.CheckState, external.
  destruct (Container.IsRoot c). { intros [= <- <- <-]. auto. }
  destruct (state_eqb (State (Container.reconcile c)) Running) eqn:Er; simpl.
  - apply state_eqb_eq in Er.
    destruct (is_error _); intros [= <- <- <-]; simpl; congruence.
  - intros [= <- <- <-]. apply reconcile_Dead.
Qed.

Lemma Resume_Dead (h : Host) (c c' : TContainer) (tr tr' : Trace) (e : TError) :
  Container.Resume h c tr = (e, c', tr') ->
  State c' = Dead -> State c = Dead.
Proof.
  unfold Container.Resume, Container.CheckState, external.
  destruct (state_eqb (State (Container.reconcile c)) Paused) eqn:Er; simpl.
  - apply state_eqb_eq in Er.
    destruct (is_error _); intros [= <- <- <-]; simpl; congruence.
  - intros [= <- <- <-]. apply reconcile_Dead.
Qed.

Lemma GetData_container (h : Host) (c : TContainer) (tr : Trace) (name : string) :
  (Container.GetData h c tr name).2 = c.
Proof.
  unfold Container.GetData.
  destruct (Container.DataSpec !! name) as [spec|]; [|reflexivity].
  destruct (Container.IsRoot c && negb (Container.RootValid spec)); [reflexivity|].
  destruct (negb _); reflexivity.
Qed.

Lemma SetProperty_State (h : Host) (c c' : TContainer) (tr tr' : Trace)
    (e : TError) (property value : string) :
  Container.SetProperty h c tr property value = (e, c', tr') ->
  State c' = State c.
Proof.
  unfold Container.SetProperty, external.
  destruct (Container.IsRoot c). { intros [= <- <- <-]. auto. }
  destruct (_ && _). { intros [= <- <- <-]. auto. }
  destruct (spec_Set h tr _ _ _). intros [= <- <- <-]. auto.
Qed.

Lemma Restore_not_Dead (h : Host) (c c' : TContainer) (tr tr' : Trace)
    (e : TError) (node : TNode) :
  Container.Restore h c tr node = Some (e, c', tr') ->
  State c' = Dead -> State c = Dead.
Proof.
  unfold Container.Restore.
  destruct (spec_Restore h tr (Name c) node) as [e0 spec].
  destruct (is_error e0). { intros [= <- <- <-]. auto. }
  destruct (let '(error, pidStr) := Spec_GetInternal _ _ in _) as [pid|].
  - destruct (Container.PrepareCgroups h _ tr) as [[e1 c1] tr1] eqn:Hp.
    apply PrepareCgroups_inv in Hp as (_ & Hs1 & _ & _ & _ & _). simpl in Hs1.
    destruct (is_error e1). { intros [= <- <- <-]. congruence. }
    unfold Container.PrepareTask.
    destruct (is_error (taskenv_Prepare h tr1 _)) eqn:Et; rewrite ?Et.
    { intros [= <- <- <-]. congruence. }
    simpl. unfold external. destruct (task_Restore h tr1 _ _) as [e2 t2].
    destruct (is_error e2).
    + destruct (Container.KillAll h _ _). intros [= <- <- <-]. simpl. congruence.
    + destruct (IsRunning t2); simpl; intros [= <- <- <-]; discriminate.
  - destruct (Container.IsAlive h _ tr).
    + destruct (Container.KillAll h _ tr) as [e1 tr1].
      intros H Hd. apply Start_Dead in H; [|exact Hd]. discriminate H.
    + destruct (Container.KillAll h _ tr). intros [= <- <- <-]. discriminate.
Qed.

(** A request leaves a container Dead only if it was Dead already, or if it
    was Running and the request delivered the exit status of its task. *)
Lemma handle_Dead (h : Host) (r : Request) (c c' : TContainer)
    (tr tr' : Trace) :
  handle h r c tr = Some (c', tr') ->
  State c' = Dead ->
  State c = Dead \/
  (State c = Running /\
   exists pid status, r = ReqDeliverExitStatus pid status /\ claims c pid = true).
Proof.
  destruct r as [op| | | | |pid status|]; simpl.
  - destruct op; simpl.
    + destruct (Container.Start h c tr) as [[[e c1] tr1]|] eqn:H; [|discriminate].
      intros [= <- <-] Hd. left. eapply Start_Dead; eauto.
    + destruct (Container.Stop h c tr) as [[[e c1] tr1]|] eqn:H; [|discriminate].
      intros [= <- <-] Hd. left. eapply Stop_Dead; eauto.
    + destruct (Container.Pause h c tr) as [[e c1] tr1] eqn:H.
      intros [= <- <-] Hd. left. eapply Pause_Dead; eauto.
    + destruct (Container.Resume h c tr) as [[e c1] tr1] eqn:H.
      intros [= <- <-] Hd. left. eapply Resume_Dead; eauto.
  - rewrite GetData_container. intros [= <- <-]. auto.
  - intros [= <- <-]. auto.
  - destruct (Container.SetProperty h c tr property value) as [[e c1] tr1] eqn:H.
    intros [= <- <-] Hd. left. apply SetProperty_State in H. congruence.
  - destruct (Container.Restore h c tr node) as [[[e c1] tr1]|] eqn:H; [|discriminate].
    intros [= <- <-] Hd. left. eapply Restore_not_Dead; eauto.
  - rewrite Container_DeliverExitStatus_claims.
    destruct (claims c pid) eqn:Hc; simpl; intros [= <- <-] Hd; [|auto].
    right. split; [apply claims_true in Hc; tauto | eauto].
  - intros [= <- <-]. auto.
Qed.

(** Along a run that does not start Dead, every Dead container is preceded
    by a Running one. *)
Lemma Dead_after_Running (h : Host) (rs : list Request) :
  forall (c : TContainer) (tr : Trace) (hist : list TContainer),
    run h rs c tr = Some hist ->
    State c <> Dead ->
    forall (i : nat) (ci : TContainer),
      hist !! i = Some ci -> State ci = Dead ->
      exists (j : nat) (cj : TContainer),
        (j < i)%nat /\ hist !! j = Some cj /\ State cj = Running.
Proof.
  induction rs as [|r rs IH]; intros c tr hist Hrun Hc i ci Hi Hd; simpl in Hrun.
  - injection Hrun as <-. destruct i; simpl in Hi; [|discriminate].
    injection Hi as <-. contradiction.
  - destruct (handle h r c tr) as [[c' tr']|] eqn:Hh; [|discriminate].
    destruct (run h rs c' tr') as [hist'|] eqn:Hr; [|discriminate].
    injection Hrun as <-.
    destruct i as [|i]; simpl in Hi.
    { injection Hi as <-. contradiction. }
    destruct (decide (State c' = Dead)) as [Hd'|Hnd'].
    + destruct (handle_Dead _ _ _ _ _ _ Hh Hd') as [Hc'|[Hrunning _]];
        [contradiction|].
      exists 0%nat, c. split; [lia | auto].
    + destruct (IH c' tr' hist' Hr Hnd' i ci Hi Hd) as (j & cj & Hj & Hl & Hs).
      exists (S j), cj. split; [lia | auto].
Qed.

(** C4: [DeliverExitStatus] claims a pid exactly when the container is
    Running, has a task and the pid is the task's; it then records the
    status and makes the container Dead, and otherwise returns false and
    changes nothing.  The registry forwards the pid in key order up to the
    first container that claims it.  No request but this delivery makes a
    container Dead, so along any run a Dead container was Running before. *)
Theorem exit_status_delivery (h : Host) (c : TContainer)
    (H : TContainerHolder) (pid status : Z) :
  (forall t, State c = Running -> Task c = Some t -> Pid t = pid ->
     exists c',
       Container.DeliverExitStatus c pid status = (true, c') /\
       State c' = Dead /\
       Task c' = Some (Task_DeliverExitStatus t status) /\
       Status (ExitStatus (Task_DeliverExitStatus t status)) = status /\
       Name c' = Name c /\ Spec c' = Spec c /\
       LeafCgroups c' = LeafCgroups c) /\
  (~ (State c = Running /\ exists t, Task c = Some t /\ Pid t = pid) ->
     Container.DeliverExitStatus c pid status = (false, c)) /\
  (forall l1 k c1 l2,
     entries (Containers H) = l1 ++ (k, Some c1) :: l2 ->
     Forall (passes pid) l1 ->
     claims c1 pid = true ->
     Holder.DeliverExitStatus H pid status =
       Some (true,
             {| Containers := <[k := Some (exited c1 status)]> (Containers H) |})) /\
  (Forall (passes pid) (entries (Containers H)) ->
     Holder.DeliverExitStatus H pid status = Some (false, H)) /\
  (forall rs tr hist,
     run h rs c tr = Some hist ->
     State c <> Dead ->
     forall i ci, hist !! i = Some ci -> State ci = Dead ->
       exists j cj, (j < i)%nat /\ hist !! j = Some cj /\ State cj = Running).
Proof.
  split; [|split; [|split; [|split]]].
  - intros t Hs Ht Hp. exists (exited c status).
    rewrite Container_DeliverExitStatus_claims.
    assert (Hc : claims c pid = true) by (apply claims_true; eauto).
    rewrite Hc. destruct (exited_fields c t status Ht) as (? & ? & ? & ? & ?).
    repeat split; auto.
  - intros Hn. rewrite Container_DeliverExitStatus_claims.
    destruct (claims c pid) eqn:Hc; [|reflexivity].
    apply claims_true in Hc. contradiction.
  - intros l1 k c1 l2 Hl Hall Hc. unfold Holder.DeliverExitStatus.
    rewrite Hl, (deliver_first_claim l1 l2 k c1 _ pid status); auto.
    intros k' p Hk. apply elem_of_entries. rewrite Hl.
    apply elem_of_app. left. exact Hk.
  - intros Hall. unfold Holder.DeliverExitStatus.
    rewrite deliver_passes; auto.
    + destruct H; reflexivity.
    + intros k p Hk. apply elem_of_entries. exact Hk.
  - intros rs tr hist. apply Dead_after_Running.
Qed.

Lemma exit_status_delivery_witness :
  (exists c',
     Container.DeliverExitStatus (running42 "b") 42 3 = (true, c') /\
     State c' = Dead /\
     Task c' = Some (Task_DeliverExitStatus task42 3) /\
     Status (ExitStatus (Task_DeliverExitStatus task42 3)) = 3 /\
     Name c' = "b" /\ Spec c' = Spec (running42 "b") /\
     LeafCgroups c' = LeafCgroups (running42 "b")) /\
  Holder.DeliverExitStatus registry_ab 42 3 =
    Some (true,
          {| Containers :=
               <["b" := Some (exited (running42 "b") 3)]> (Containers registry_ab) |}).
Proof.
  destruct (exit_status_delivery (host_ok []) (running42 "b") registry_ab 42 3)
    as (Hclaim & _ & Hfirst & _ & _).
  split.
  - apply (Hclaim task42); reflexivity.
  - apply (Hfirst [("a", Some (new_TContainer "a"))] "b" (running42 "b") []).
    + reflexivity.
    + constructor; [|constructor].
      exists (new_TContainer "a"). split; reflexivity.
    + reflexivity.
Defined.

(** ** C6: the data readback table *)

(** [DataSpec] is the table. *)
Lemma DataSpec_table (name : string) :
  match table_gate name with
  | None => Container.DataSpec !! name = None
  | Some allowed =>
      exists spec,
        Container.DataSpec !! name = Some spec /\
        Container.RootValid spec = table_root_valid name /\
        forall s, bool_decide (s ∈ Container.Valid spec) = bool_decide (s ∈ allowed)
  end.
Proof.
  unfold table_gate, table_root_valid.
  repeat
    (match goal with
     | |- context [String.eqb name ?k] =>
         destruct (String.eqb_spec name k) as [->|?];
         [eexists; split; [reflexivity | split; [reflexivity|]];
          intros []; reflexivity |]
     end).
  unfold Container.DataSpec. simpl.
  rewrite !lookup_insert_ne by congruence. apply lookup_empty.
Qed.

(** Each key of [DataSpec] is served by the handler that computes the key's
    value. *)
Lemma DataSpec_handler (h : Host) (tr : Trace) (c : TContainer)
    (name : string) (spec : Container.TDataSpec) :
  Container.DataSpec !! name = Some spec ->
  Container.Handler spec h tr c = key_value h tr c name.
Proof.
  intros Hl. unfold key_value.
  repeat
    (match goal with
     | |- context [String.eqb name ?k] =>
         destruct (String.eqb_spec name k) as [->|?];
         [let Hk := fresh "Hk" in
          eassert (Hk : Container.DataSpec !! k = Some _) by reflexivity;
          rewrite Hk in Hl; injection Hl as <-; cbn [Container.Handler]|]
     end).
  - unfold Container.TData.State, ContainerStateName. destruct (State c); reflexivity.
  - unfold Container.TData.ExitStatus.
    destruct (Task c) as [t|]; [destruct (IsRunning t)|]; reflexivity.
  - unfold Container.TData.StartErrno.
    destruct (Task c) as [t|]; [destruct (IsRunning t)|]; reflexivity.
  - reflexivity.
  - reflexivity.
  - reflexivity.
  - unfold Container.TData.CpuUsage.
    destruct (ss_Usage h tr _) as [error val]. reflexivity.
  - unfold Container.TData.MemUsage.
    destruct (ss_Usage h tr _) as [error val]. reflexivity.
  - exfalso. revert Hl. unfold Container.DataSpec. simpl.
    rewrite !lookup_insert_ne by congruence. rewrite lookup_empty. discriminate.
Qed.

(** C6: [GetData] fails with [InvalidValue] for a name outside the eight
    keys, with [InvalidData] for a key that is not root-valid on ROOT, with
    [InvalidState] when the container's state is not in the key's set of
    the table, and otherwise succeeds with the value of the key; the
    container is never changed. *)
Theorem GetData_follows_table (h : Host) (c : TContainer) (tr : Trace)
    (name : string) :
  (table_gate name = None ->
     exists msg,
       Container.GetData h c tr name = (Failure InvalidValue msg, None, c)) /\
  (forall allowed, table_gate name = Some allowed ->
     Container.IsRoot c = true -> table_root_valid name = false ->
     exists msg,
       Container.GetData h c tr name = (Failure InvalidData msg, None, c)) /\
  (forall allowed, table_gate name = Some allowed ->
     (Container.IsRoot c = true -> table_root_valid name = true) ->
     State c ∉ allowed ->
     exists msg,
       Container.GetData h c tr name = (Failure InvalidState msg, None, c)) /\
  (forall allowed, table_gate name = Some allowed ->
     (Container.IsRoot c = true -> table_root_valid name = true) ->
     State c ∈ allowed ->
     Container.GetData h c tr name =
       (Success, Some (key_value h tr c name), c)).
Proof.
  pose proof (DataSpec_table name) as Ht.
  pose proof (DataSpec_handler h tr c name) as Hh.
  unfold Container.GetData.
  destruct (table_gate name) as [allowed|].
  - destruct Ht as (spec & Hl & Hrv & Hvalid).
    rewrite Hl in Hh |- *. rewrite Hrv, Hvalid.
    repeat split.
    + discriminate.
    + intros ? [= <-] Hroot Hnv. rewrite Hroot, Hnv. eexists. reflexivity.
    + intros ? [= <-] Hroot Hout.
      destruct (Container.IsRoot c); [rewrite Hroot by reflexivity|]; simpl;
        rewrite bool_decide_eq_false_2 by exact Hout; eexists; reflexivity.
    + intros ? [= <-] Hroot Hin. rewrite <- (Hh spec eq_refl).
      destruct (Container.IsRoot c); [rewrite Hroot by reflexivity|]; simpl;
        rewrite bool_decide_eq_true_2 by exact Hin; reflexivity.
  - rewrite Ht. repeat split; try discriminate.
    intros _. eexists. reflexivity.
Qed.

Lemma GetData_follows_table_witness :
  (exists msg,
     Container.GetData (host_ok []) (new_TContainer "e") [] "uptime" =
       (Failure InvalidValue msg, None, new_TContainer "e")) /\
  (exists msg,
     Container.GetData (host_ok []) root [] "root_pid" =
       (Failure InvalidData msg, None, root)) /\
  (exists msg,
     Container.GetData (host_ok []) (new_TContainer "e") [] "exit_status" =
       (Failure InvalidState msg, None, new_TContainer "e")) /\
  Container.GetData (host_ok []) (exited (running42 "b") 3) [] "exit_status" =
    (Success, Some "3", exited (running42 "b") 3) /\
  Container.GetData (host_ok []) (running42 "b") [] "root_pid" =
    (Success, Some "42", running42 "b").
Proof.
  split; [|split; [|split; [|split]]].
  - apply (GetData_follows_table (host_ok []) (new_TContainer "e") [] "uptime").
    reflexivity.
  - apply (proj1 (proj2 (GetData_follows_table (host_ok []) root [] "root_pid"))
             [Running; Paused]); reflexivity.
  - apply (proj1 (proj2 (proj2
             (GetData_follows_table (host_ok []) (new_TContainer "e") []
                "exit_status"))) [Dead]).
    + reflexivity.
    + intros Hroot. discriminate Hroot.
    + intros Hin. apply list_elem_of_singleton in Hin. discriminate Hin.
  - apply (proj2 (proj2 (proj2
             (GetData_follows_table (host_ok []) (exited (running42 "b") 3) []
                "exit_status"))) [Dead]).
    + reflexivity.
    + intros Hroot. discriminate Hroot.
    + left.
  - apply (proj2 (proj2 (proj2
             (GetData_follows_table (host_ok []) (running42 "b") []
                "root_pid"))) [Running; Paused]).
    + reflexivity.
    + intros Hroot. discriminate Hroot.
    + left.
Defined.

(** The value read for [state] on a stopped container. *)
Example GetData_state_stopped :
  Container.GetData (host_ok []) (new_TContainer "e") [] "state" =
    (Success, Some "stopped", new_TContainer "e").
Proof. reflexivity. Qed.

(** ** C5: GetData and a stale Running state *)

(** C5, as stated, fails: on a container that is Running without a task,
    [GetData] refuses [start_errno], which is gated on Stopped, and returns
    the container still Running; on the reconciled container the same key
    is readable. *)
Lemma C5_stale_not_reconciled :
  State (stale "a") = Running /\ Task (stale "a") = None /\
  Container.GetData (host_ok []) (stale "a") [] "start_errno" =
    (Failure InvalidState "invalid container state running", None, stale "a") /\
  State (Container.reconcile (stale "a")) = Stopped /\
  Container.GetData (host_ok []) (Container.reconcile (stale "a")) [] "start_errno" =
    (Success, Some "-1", Container.reconcile (stale "a")).
Proof. repeat split; reflexivity. Qed.

(** C5 (amended): [GetData] evaluates the key's state gate against the
    stored State and returns the container as it was, stale or not.  The
    reconciliation belongs to [CheckState], used by Start, Stop, Pause and
    Resume: it forces Stopped exactly when the State is Running and the task
    is missing or not running. *)
Theorem GetData_gate_reads_stored_State (h : Host) (c : TContainer)
    (tr : Trace) (name : string) (spec : Container.TDataSpec) :
  Container.DataSpec !! name = Some spec ->
  Container.IsRoot c && negb (Container.RootValid spec) = false ->
  (Container.GetData h c tr name).2 = c /\
  ((Container.GetData h c tr name).1.1 = Success <->
     State c ∈ Container.Valid spec) /\
  (error_kind (Container.GetData h c tr name).1.1 = Some InvalidState <->
     State c ∉ Container.Valid spec) /\
  (forall expected,
     State (Container.CheckState c expected).2 =
       if state_eqb (State c) Running && negb (Container.task_running c)
       then Stopped else State c).
Proof.
  intros Hspec Hroot. split; [apply GetData_container|].
  unfold Container.GetData. rewrite Hspec, Hroot.
  destruct (decide (State c ∈ Container.Valid spec)) as [Hin|Hout].
  - rewrite bool_decide_eq_true_2 by exact Hin. simpl.
    repeat split; auto; try discriminate.
    + intros Hn. contradiction.
    + intros expected. apply reconcile_state.
  - rewrite bool_decide_eq_false_2 by exact Hout. simpl.
    repeat split; auto; try discriminate.
    + intros Hn. contradiction.
    + intros expected. apply reconcile_state.
Qed.

Lemma GetData_gate_reads_stored_State_witness :
  exists spec,
    Container.DataSpec !! "root_pid" = Some spec /\
    (Container.GetData (host_ok []) (stale "a") [] "root_pid").2 = stale "a" /\
    ((Container.GetData (host_ok []) (stale "a") [] "root_pid").1.1 = Success <->
       State (stale "a") ∈ Container.Valid spec) /\
    (error_kind (Container.GetData (host_ok []) (stale "a") [] "root_pid").1.1 =
       Some InvalidState <-> State (stale "a") ∉ Container.Valid spec) /\
    (forall expected,
       State (Container.CheckState (stale "a") expected).2 =
         if state_eqb (State (stale "a")) Running
            && negb (Container.task_running (stale "a"))
         then Stopped else State (stale "a")).
Proof.
  eexists. split; [reflexivity|].
  apply (GetData_gate_reads_stored_State (host_ok []) (stale "a") [] "root_pid");
    reflexivity.
Defined.

(** ** C7: the acknowledged Start *)

Lemma persisted_pid_GetInternal (h : Host) (spec : TContainerSpec) :
  (let '(error, pidStr) := Spec_GetInternal spec "root_pid" in
   if is_error error then None else StringToInt h pidStr) =
  persisted_pid h spec.
Proof.
  unfold Spec_GetInternal, persisted_pid.
  destruct (Internal spec !! "root_pid"); reflexivity.
Qed.





Lemma Start_flag_clear (h : Host) (c : TContainer) (tr : Trace) :
  MaybeReturnedOk c = false ->
  Container.Start h c tr = Container.Start_gated h c tr.
Proof.
  intros Hf. unfold Container.Start. rewrite Hf, andb_false_r.
  rewrite <- Hf at 1. rewrite set_MaybeReturnedOk_id. reflexivity.
Qed.




(** ** C8: Restore without a persisted pid *)

(** C8, as stated, fails for ROOT: with no persisted pid and no process in
    its leaf, ROOT is not left Stopped; [IsAlive] holds for ROOT whatever the
    leaf contains, so [Restore] re-issues [Start] and ROOT ends Running. *)
Lemma C8_root_is_restarted :
  Container.Processes (host_ok []) (set_State root Stopped) [] = [] /\
  persisted_pid (host_ok [])
    (spec_Restore (host_ok []) [] ROOT_CONTAINER []).2 = None /\
  exists c tr,
    Container.Restore (host_ok []) root [] [] = Some (Success, c, tr) /\
    State c = Running.
Proof.
  split; [reflexivity | split; [reflexivity|]].
  eexists _, _. split; reflexivity.
Qed.

(** The calls of [KillAll] when the task list can be read both times. *)
Lemma KillAll_trace (h : Host) (c : TContainer) (tr : Trace) :
  let cg := Container.GetLeafCgroup c FreezerSubsystem in
  is_error (cg_GetTasks h tr cg).1 = false ->
  is_error
    (cg_GetTasks h (tr ++ [EvKill cg SIGTERM; EvSleepWhile cg; EvFreeze cg]) cg).1
    = false ->
  Container.KillAll h c tr =
    (Success,
     tr ++ [EvKill cg SIGTERM; EvSleepWhile cg; EvFreeze cg;
            EvKill cg SIGKILL; EvUnfreeze cg]).
Proof.
  intros cg H1 H2. unfold Container.KillAll, external. fold cg.
  destruct (cg_GetTasks h tr cg) as [e1 r1]. simpl in H1. rewrite H1.
  replace (((tr ++ [EvKill cg SIGTERM]) ++ [EvSleepWhile cg]) ++ [EvFreeze cg])
    with (tr ++ [EvKill cg SIGTERM; EvSleepWhile cg; EvFreeze cg])
    by (rewrite <- !app_assoc; reflexivity).
  destruct (cg_GetTasks h _ cg) as [e2 r2]. simpl in H2. rewrite H2.
  rewrite <- !app_assoc. reflexivity.
Qed.

(** C8 (amended): when the Spec is restored and the internal [root_pid] is
    absent or unparseable, [Restore] stops the container and runs [KillAll]
    on its freezer leaf; if the container is ROOT or a process is alive in
    the leaf it then re-issues [Start] and returns its result, and otherwise
    (not ROOT, no process) it returns success with the container Stopped.
    [KillAll] sends SIGTERM, waits, freezes, sends SIGKILL and unfreezes,
    provided the task list can be read. *)
Theorem Restore_without_root_pid (h : Host) (c : TContainer) (tr : Trace)
    (node : TNode) (spec : TContainerSpec) :
  spec_Restore h tr (Name c) node = (Success, spec) ->
  (Internal spec !! "root_pid" = None \/
   exists s, Internal spec !! "root_pid" = Some s /\ StringToInt h s = None) ->
  let c0 := set_State (set_Spec c spec) Stopped in
  let cg := Container.GetLeafCgroup c0 FreezerSubsystem in
  let killed := (Container.KillAll h c0 tr).2 in
  (Container.IsRoot c = true \/ Container.Processes h c0 tr <> [] ->
   Container.Restore h c tr node = Container.Start h c0 killed) /\
  (Container.IsRoot c = false -> Container.Processes h c0 tr = [] ->
   Container.Restore h c tr node = Some (Success, c0, killed) /\
   State c0 = Stopped) /\
  (is_error (cg_GetTasks h tr cg).1 = false ->
   is_error
     (cg_GetTasks h (tr ++ [EvKill cg SIGTERM; EvSleepWhile cg; EvFreeze cg]) cg).1
     = false ->
   killed = tr ++ [EvKill cg SIGTERM; EvSleepWhile cg; EvFreeze cg;
                   EvKill cg SIGKILL; EvUnfreeze cg]).
Proof.
  intros Hspec Hpid c0 cg killed.
  assert (Hnone : persisted_pid h spec = None).
  { unfold persisted_pid. destruct Hpid as [-> | (s & -> & Hs)]; auto. }
  assert (Hrestore :
    Container.Restore h c tr node =
    if Container.IsAlive h c0 tr then Container.Start h c0 killed
    else Some (Success, c0, killed)).
  { unfold Container.Restore. rewrite Hspec. simpl.
    rewrite persisted_pid_GetInternal, Hnone. fold c0.
    unfold killed. destruct (Container.IsAlive h c0 tr);
      destruct (Container.KillAll h c0 tr); reflexivity. }
  split; [|split].
  - intros Halive. rewrite Hrestore. unfold Container.IsAlive.
    change (Container.IsRoot c0) with (Container.IsRoot c).
    destruct Halive as [-> | Hp]; [reflexivity|].
    rewrite bool_decide_eq_false_2 by exact Hp. rewrite orb_true_r. reflexivity.
  - intros Hroot Hp. rewrite Hrestore. unfold Container.IsAlive.
    change (Container.IsRoot c0) with (Container.IsRoot c).
    rewrite Hroot, Hp. simpl. split; reflexivity.
  - intros H1 H2. unfold killed. fold cg.
    rewrite (KillAll_trace h c0 tr H1 H2). reflexivity.
Qed.

Lemma Restore_without_root_pid_witness :
  Container.Restore (host_ok [7]) (new_TContainer "g") [] [] =
    Container.Start (host_ok [7]) (new_TContainer "g")
      (let cg := GetChild (GetChild (GetRootCgroup FreezerSubsystem) "porto") "g" in
       [EvKill cg SIGTERM; EvSleepWhile cg; EvFreeze cg;
        EvKill cg SIGKILL; EvUnfreeze cg]) /\
  Container.Restore (host_ok []) (new_TContainer "g") [] [] =
    Some (Success, new_TContainer "g",
          let cg := GetChild (GetChild (GetRootCgroup FreezerSubsystem) "porto") "g" in
          [EvKill cg SIGTERM; EvSleepWhile cg; EvFreeze cg;
           EvKill cg SIGKILL; EvUnfreeze cg]).
Proof.
  split.
  - apply (Restore_without_root_pid (host_ok [7]) (new_TContainer "g") [] []
             new_TContainerSpec).
    + reflexivity.
    + left. reflexivity.
    + right. discriminate.
  - apply (proj1 (proj2
             (Restore_without_root_pid (host_ok []) (new_TContainer "g") [] []
                new_TContainerSpec eq_refl (or_introl eq_refl)))).
    + reflexivity.
    + reflexivity.
Defined.

(** ** C9: creating a container *)

Lemma name_char_alphabet (ch : ascii) :
  name_char ch = bool_decide (ch ∈ list_ascii_of_string name_alphabet).
Proof.
  destruct ch as [[] [] [] [] [] [] [] []]; vm_compute; reflexivity.
Qed.

Lemma ValidName_well_formed (name : string) :
  Holder.ValidName name = true <-> well_formed name.
Proof.
  unfold Holder.ValidName, well_formed.
  destruct (String.eqb_spec name ROOT_CONTAINER) as [Hr|Hr]; [tauto|].
  destruct (String.length name =? 0)%nat eqn:E0; simpl.
  { apply Nat.eqb_eq in E0. destruct name; [|discriminate E0].
    split; [discriminate | intros [? | [Hne _]]; congruence]. }
  apply Nat.eqb_neq in E0.
  destruct (128 <? String.length name)%nat eqn:E1.
  { apply Nat.ltb_lt in E1.
    split; [discriminate | intros [? | (_ & Hle & _)]; [congruence | lia]]. }
  apply Nat.ltb_ge in E1. rewrite forallb_forall. split.
  - intros Hall. right. split; [|split; [exact E1|]].
    + intros ->. apply E0. reflexivity.
    + intros ch Hin. apply list_elem_of_In in Hin. specialize (Hall ch Hin).
      rewrite name_char_alphabet in Hall.
      apply bool_decide_eq_true in Hall. exact Hall.
  - intros [? | (_ & _ & Hall)]; [congruence|].
    intros ch Hin. rewrite name_char_alphabet. apply bool_decide_eq_true.
    apply Hall, list_elem_of_In, Hin.
Qed.

(** C9, as stated, fails: a well-formed name that is not registered is
    still refused when the storage cannot create the container's record. *)
Lemma C9_storage_refuses :
  well_formed "a" /\
  Holder.Get {| Containers := ∅ |} "a" = None /\
  (Holder.Create host_storage_down {| Containers := ∅ |} [] "a").1.1 =
    Failure Unknown "can't create record".
Proof.
  split; [|split; reflexivity].
  apply ValidName_well_formed. reflexivity.
Qed.

Lemma index_Get (H : TContainerHolder) (name : string) :
  (Holder.index (Containers H) name).1 = Holder.Get H name.
Proof.
  unfold Holder.index, Holder.Get.
  destruct (Containers H !! name); reflexivity.
Qed.

(** C9 (amended): [Create] succeeds exactly when the name is well formed, no
    container is registered under it and the storage creates the record.
    A malformed name and a collision are rejected with [InvalidValue],
    leaving the registry and the host as they were; a failure of the
    storage is returned as it is.  On success the new container is
    registered, Stopped. *)
Theorem Create_succeeds_exactly (h : Host) (H : TContainerHolder) (tr : Trace)
    (name : string) :
  ((Holder.Create h H tr name).1.1 = Success <->
   well_formed name /\ Holder.Get H name = None /\
   spec_Create h tr name = Success) /\
  (~ well_formed name \/ Holder.Get H name <> None ->
   exists msg, Holder.Create h H tr name = (Failure InvalidValue msg, H, tr)) /\
  (well_formed name -> Holder.Get H name = None ->
   (Holder.Create h H tr name).1.1 = spec_Create h tr name /\
   (Holder.Create h H tr name).2 = tr ++ [EvSpecCreate name]) /\
  ((Holder.Create h H tr name).1.1 = Success ->
   exists c,
     Holder.Get (Holder.Create h H tr name).1.2 name = Some c /\
     Name c = name /\ State c = Stopped /\ Task c = None /\
     LeafCgroups c = ∅).
Proof.
  pose proof (ValidName_well_formed name) as Hv.
  pose proof (index_Get H name) as Hi.
  unfold Holder.Create, Container.Create, external. simpl.
  destruct (Holder.ValidName name).
  2:{ simpl. assert (Hn : ~ well_formed name) by (rewrite <- Hv; discriminate).
      split; [|split; [|split]].
      - split; [discriminate | tauto].
      - intros _. eexists. reflexivity.
      - tauto.
      - discriminate. }
  assert (Hw : well_formed name) by (apply Hv; reflexivity). simpl.
  destruct (Holder.index (Containers H) name) as [p m] eqn:Hidx.
  simpl in Hi. subst p.
  destruct (Holder.Get H name) as [c0|] eqn:Hg.
  - assert (Hm : m = Containers H).
    { unfold Holder.index, Holder.Get in *.
      destruct (Containers H !! name); [congruence | discriminate]. }
    subst m. destruct H as [m0]. simpl.
    split; [|split; [|split]].
    + split; [discriminate | intros (_ & Hnone & _); discriminate Hnone].
    + intros _. eexists. reflexivity.
    + intros _ Hnone. discriminate Hnone.
    + discriminate.
  - destruct (spec_Create h tr name) as [|k msg] eqn:Hc; simpl.
    + split; [|split; [|split]].
      * tauto.
      * intros [Hn | Hn]; contradiction.
      * auto.
      * intros _. exists (new_TContainer name).
        unfold Holder.Get. simpl. rewrite lookup_insert_eq. auto.
    + split; [|split; [|split]].
      * split; [discriminate | intros (_ & _ & Hs); discriminate Hs].
      * intros [Hn | Hn]; contradiction.
      * auto.
      * discriminate.
Qed.

Lemma Create_succeeds_exactly_witness :
  (exists msg,
     Holder.Create (host_ok []) registry_ab [] "a" =
       (Failure InvalidValue msg, registry_ab, [])) /\
  (exists msg,
     Holder.Create (host_ok []) registry_ab [] "no-dash" =
       (Failure InvalidValue msg, registry_ab, [])) /\
  exists c,
    Holder.Get (Holder.Create (host_ok []) registry_ab [] "c_3").1.2 "c_3" = Some c /\
    Name c = "c_3" /\ State c = Stopped /\ Task c = None /\ LeafCgroups c = ∅.
Proof.
  split; [|split].
  - apply (Create_succeeds_exactly (host_ok []) registry_ab [] "a").
    right. discriminate.
  - apply (Create_succeeds_exactly (host_ok []) registry_ab [] "no-dash").
    left. rewrite <- ValidName_well_formed. discriminate.
  - apply (Create_succeeds_exactly (host_ok []) registry_ab [] "c_3").
    reflexivity.
Defined.

(** ** C10: null handles in the registry *)

Lemma names_null (l : list (string * option TContainer)) (k : string) :
  (k, None) ∈ l -> Holder.names l = None.
Proof.
  induction l as [|[k' [c|]] r IH]; intros Hin.
  - inversion Hin.
  - simpl. rewrite IH; [reflexivity|].
    apply elem_of_cons in Hin as [Heq | Hin]; [discriminate Heq | exact Hin].
  - reflexivity.
Qed.

Lemma beat_null (l : list (string * option TContainer)) (k : string) :
  (k, None) ∈ l -> forall tr, Holder.beat l tr = None.
Proof.
  induction l as [|[k' [c|]] r IH]; intros Hin tr.
  - inversion Hin.
  - simpl. apply IH.
    apply elem_of_cons in Hin as [Heq | Hin]; [discriminate Heq | exact Hin].
  - reflexivity.
Qed.

Lemma deliver_null (l : list (string * option TContainer)) (k : string)
    (pid status : Z) :
  (k, None) ∈ l ->
  (forall k' c, (k', Some c) ∈ l -> claims c pid = false) ->
  forall m, Holder.deliver l m pid status = None.
Proof.
  induction l as [|[k' [c|]] r IH]; intros Hin Hpass m.
  - inversion Hin.
  - simpl. rewrite Container_DeliverExitStatus_claims.
    rewrite (Hpass k' c) by left.
    apply IH.
    + apply elem_of_cons in Hin as [Heq | Hin]; [discriminate Heq | exact Hin].
    + intros k2 c2 Hk2. apply (Hpass k2 c2). right. exact Hk2.
  - reflexivity.
Qed.

(** C10 (the code misses it): when the name is valid and unknown and the
    storage fails to create the record, [Create] returns the error and
    leaves a null handle under the name; [List] and [Heartbeat] then
    dereference it, and so does [DeliverExitStatus] when no container claims
    the pid. *)
Theorem failed_Create_leaves_null_handle (h : Host) (H : TContainerHolder)
    (tr : Trace) (name : string) :
  Holder.ValidName name = true ->
  Containers H !! name = None ->
  is_error (spec_Create h tr name) = true ->
  let H' := (Holder.Create h H tr name).1.2 in
  (Holder.Create h H tr name).1.1 = spec_Create h tr name /\
  Containers H' !! name = Some None /\
  Holder.Get H' name = None /\
  Holder.List H' = None /\
  (forall tr', Holder.Heartbeat H' tr' = None) /\
  (forall pid status,
     (forall k c, Containers H !! k = Some (Some c) -> claims c pid = false) ->
     Holder.DeliverExitStatus H' pid status = None).
Proof.
  intros Hv Hnone Herr H'.
  assert (HH : Holder.Create h H tr name =
               (spec_Create h tr name,
                {| Containers := <[name := None]> (Containers H) |},
                tr ++ [EvSpecCreate name])).
  { unfold Holder.Create, Holder.index, Container.Create, external.
    rewrite Hv, Hnone. simpl. rewrite Herr. reflexivity. }
  unfold H'. rewrite HH. simpl.
  assert (Hin : (name, None) ∈ entries (<[name := None]> (Containers H))).
  { apply elem_of_entries. apply lookup_insert_eq. }
  split; [reflexivity|]. split; [apply lookup_insert_eq|].
  split; [unfold Holder.Get; simpl; rewrite lookup_insert_eq; reflexivity|].
  split; [apply (names_null _ name Hin)|].
  split; [intros tr'; apply (beat_null _ name Hin)|].
  intros pid status Hclaims. unfold Holder.DeliverExitStatus. simpl.
  rewrite (deliver_null _ name pid status Hin); [reflexivity|].
  intros k c Hk. apply elem_of_entries in Hk.
  destruct (decide (name = k)) as [->|Hne].
  - rewrite lookup_insert_eq in Hk. discriminate Hk.
  - rewrite lookup_insert_ne in Hk by exact Hne. eapply Hclaims; eauto.
Qed.

Lemma failed_Create_leaves_null_handle_witness :
  let H' := (Holder.Create host_storage_down registry_ab [] "c").1.2 in
  (Holder.Create host_storage_down registry_ab [] "c").1.1 =
    Failure Unknown "can't create record" /\
  Containers H' !! "c" = Some None /\
  Holder.Get H' "c" = None /\
  Holder.List H' = None /\
  (forall tr', Holder.Heartbeat H' tr' = None) /\
  (forall pid status,
     (forall k c, Containers registry_ab !! k = Some (Some c) -> claims c pid = false) ->
     Holder.DeliverExitStatus H' pid status = None).
Proof.
  apply (failed_Create_leaves_null_handle host_storage_down registry_ab [] "c");
    reflexivity.
Defined.

(** The registry lists its containers as long as it holds no null handle. *)
Example List_registry_ab : Holder.List registry_ab = Some ["a"; "b"].
Proof. reflexivity. Qed.

(** * Further properties of the container *)

(** ** Stop *)

(** [Stop] on a container that has what it needs. *)
Lemma Stop_always_stops (h : Host) (c : TContainer) (tr : Trace)
    (t : TTask) :
  Container.IsRoot c = false ->
  Task c = Some t ->
  (State c = Running /\ IsRunning t = true) \/ State c = Dead ->
  Container.Stop h c tr =
    Some (Success, set_State (set_LeafCgroups c ∅) Stopped,
          (Container.KillAll h c tr).2 ++ [EvAckExitStatus (Pid t)]).
Proof.
  intros Hroot Ht Hs. unfold Container.Stop. rewrite Hroot.
  unfold Container.CheckState.
  assert (Hrec : Container.reconcile c = c).
  { apply reconcile_fresh. intros Hr'. unfold Container.task_running.
    rewrite Ht. destruct Hs as [[_ Hr]|Hd]; [exact Hr | congruence]. }
  rewrite !Hrec.
  destruct Hs as [[Hs _]|Hs]; rewrite Hs; simpl; rewrite ?Hrec, ?Hs; simpl;
    rewrite Ht; destruct (Container.KillAll h c tr); reflexivity.
Qed.

(** X1: on a container other than ROOT that is Running with a running task,
    or Dead with a task, [Stop] always succeeds, whatever [KillAll] returns:
    it runs [KillAll], empties LeafCgroups, acknowledges the task's pid and
    leaves the container Stopped, with its task and Spec kept. *)
Theorem Stop_always_succeeds (h : Host) (c : TContainer) (tr : Trace)
    (t : TTask) :
  Container.IsRoot c = false ->
  Task c = Some t ->
  (State c = Running /\ IsRunning t = true) \/ State c = Dead ->
  Container.Stop h c tr =
    Some (Success, set_State (set_LeafCgroups c ∅) Stopped,
          (Container.KillAll h c tr).2 ++ [EvAckExitStatus (Pid t)]).
Proof.
  intros Hroot Ht Hs. exact (Stop_always_stops h c tr t Hroot Ht Hs).
Qed.

Lemma Stop_always_succeeds_witness :
  Container.Stop (host_ok [42]) (running42 "d") [] =
    Some (Success, set_State (set_LeafCgroups (running42 "d") ∅) Stopped,
          (Container.KillAll (host_ok [42]) (running42 "d") []).2
            ++ [EvAckExitStatus 42]).
Proof.
  apply (Stop_always_succeeds (host_ok [42]) (running42 "d") [] task42).
  - reflexivity.
  - reflexivity.
  - left. split; reflexivity.
Defined.

(** X2: a Running container whose task is missing or not running is stale.
    On a stale container other than ROOT, [Stop], [Pause] and [Resume] are
    rejected with [InvalidValue], call nothing, and leave the container
    Stopped with everything else (LeafCgroups included) as it was; [Start]
    with the flag clear behaves as on the Stopped container. *)
Theorem stale_Running_is_stopped_on_use (h : Host) (c : TContainer)
    (tr : Trace) :
  Container.IsRoot c = false ->
  State c = Running ->
  Container.task_running c = false ->
  (exists msg, Container.Stop h c tr =
                 Some (Failure InvalidValue msg, set_State c Stopped, tr)) /\
  (exists msg, Container.Pause h c tr =
                 (Failure InvalidValue msg, set_State c Stopped, tr)) /\
  (exists msg, Container.Resume h c tr =
                 (Failure InvalidValue msg, set_State c Stopped, tr)) /\
  (MaybeReturnedOk c = false ->
   Container.Start h c tr = Container.Start h (set_State c Stopped) tr).
Proof.
  intros Hroot Hs Hrun.
  assert (Hrec : Container.reconcile c = set_State c Stopped).
  { unfold Container.reconcile. rewrite Hs, Hrun. reflexivity. }
  assert (Hrec' : Container.reconcile (set_State c Stopped) = set_State c Stopped).
  { apply reconcile_fresh. discriminate. }
  split; [|split; [|split]].
  - unfold Container.Stop, Container.CheckState.
    rewrite Hroot, Hrec. simpl. rewrite Hrec'. simpl. eexists. reflexivity.
  - unfold Container.Pause, Container.CheckState.
    rewrite Hroot, Hrec. simpl. eexists. reflexivity.
  - unfold Container.Resume, Container.CheckState.
    rewrite Hrec. simpl. eexists. reflexivity.
  - intros Hf. rewrite !Start_flag_clear by exact Hf.
    unfold Container.Start_gated, Container.CheckState.
    rewrite Hrec, Hrec'. reflexivity.
Qed.

Lemma stale_Running_is_stopped_on_use_witness :
  (exists msg, Container.Stop (host_ok []) (stale "a") [] =
                 Some (Failure InvalidValue msg, set_State (stale "a") Stopped, [])) /\
  (exists msg, Container.Pause (host_ok []) (stale "a") [] =
                 (Failure InvalidValue msg, set_State (stale "a") Stopped, [])) /\
  (exists msg, Container.Resume (host_ok []) (stale "a") [] =
                 (Failure InvalidValue msg, set_State (stale "a") Stopped, [])) /\
  (MaybeReturnedOk (stale "a") = false ->
   Container.Start (host_ok []) (stale "a") [] =
   Container.Start (host_ok []) (set_State (stale "a") Stopped) []).
Proof.
  apply (stale_Running_is_stopped_on_use (host_ok []) (stale "a") []);
    reflexivity.
Defined.

(** ** Pause and Resume *)

(** X3: on a container other than ROOT that is Running with a running task,
    when the freezer obeys, [Pause] makes it Paused and [Resume] after it
    gives back the very same container; the host saw one freeze and one
    unfreeze of the freezer leaf. *)
Theorem Pause_then_Resume_is_identity (h : Host) (c : TContainer) (tr : Trace) :
  let cg := Container.GetLeafCgroup c FreezerSubsystem in
  Container.IsRoot c = false ->
  State c = Running ->
  Container.task_running c = true ->
  ss_Freeze h tr cg = Success ->
  ss_Unfreeze h (tr ++ [EvFreeze cg]) cg = Success ->
  Container.Pause h c tr = (Success, set_State c Paused, tr ++ [EvFreeze cg]) /\
  Container.Resume h (set_State c Paused) (tr ++ [EvFreeze cg]) =
    (Success, c, (tr ++ [EvFreeze cg]) ++ [EvUnfreeze cg]).
Proof.
  intros cg Hroot Hs Hrun Hfr Hun. split.
  - unfold Container.Pause, Container.CheckState, external.
    rewrite Hroot, reconcile_fresh by auto. rewrite Hs. simpl.
    fold cg. rewrite Hfr. reflexivity.
  - unfold Container.Resume, Container.CheckState, external.
    rewrite reconcile_fresh by discriminate. simpl.
    change (Container.GetLeafCgroup (set_State c Paused) FreezerSubsystem) with cg.
    rewrite Hun. simpl. rewrite <- Hs at 1. f_equal.
    destruct c; simpl in *; subst; reflexivity.
Qed.

Lemma Pause_then_Resume_is_identity_witness :
  let cg := Container.GetLeafCgroup (running42 "c") FreezerSubsystem in
  Container.Pause (host_ok [42]) (running42 "c") [] =
    (Success, set_State (running42 "c") Paused, [EvFreeze cg]) /\
  Container.Resume (host_ok [42]) (set_State (running42 "c") Paused) [EvFreeze cg] =
    (Success, running42 "c", [EvFreeze cg; EvUnfreeze cg]).
Proof.
  apply (Pause_then_Resume_is_identity (host_ok [42]) (running42 "c") []);
    reflexivity.
Defined.

(** X4: when the freezer call fails, [Pause] and [Resume] return the
    freezer's error and the State does not move: the container stays
    Running, respectively Paused. *)
Theorem freezer_failure_keeps_State (h : Host) (c : TContainer) (tr : Trace) :
  let cg := Container.GetLeafCgroup c FreezerSubsystem in
  (Container.IsRoot c = false -> State c = Running ->
   Container.task_running c = true ->
   is_error (ss_Freeze h tr cg) = true ->
   Container.Pause h c tr = (ss_Freeze h tr cg, c, tr ++ [EvFreeze cg])) /\
  (State c = Paused ->
   is_error (ss_Unfreeze h tr cg) = true ->
   Container.Resume h c tr = (ss_Unfreeze h tr cg, c, tr ++ [EvUnfreeze cg])).
Proof.
  intros cg. split.
  - intros Hroot Hs Hrun Herr.
    unfold Container.Pause, Container.CheckState, external.
    rewrite Hroot, reconcile_fresh by auto. rewrite Hs. simpl.
    fold cg. rewrite Herr. reflexivity.
  - intros Hs Herr.
    unfold Container.Resume, Container.CheckState, external.
    rewrite reconcile_fresh by (rewrite Hs; discriminate). rewrite Hs. simpl.
    fold cg. rewrite Herr. reflexivity.
Qed.

Lemma freezer_failure_keeps_State_witness :
  let h := with_ss_Freeze (host_ok [42]) (fun _ _ => Failure Busy "freezer") in
  Container.Pause h (running42 "c") [] =
    (Failure Busy "freezer", running42 "c",
     [EvFreeze (Container.GetLeafCgroup (running42 "c") FreezerSubsystem)]).
Proof.
  apply (freezer_failure_keeps_State
           (with_ss_Freeze (host_ok [42]) (fun _ _ => Failure Busy "freezer"))
           (running42 "c") []); reflexivity.
Defined.

(** ** KillAll and PrepareCgroups *)

(** X5: [KillAll] ends in one of three ways.  If the task list cannot be
    read it returns the error without sending any signal.  If the list
    cannot be read again after the freeze it returns the error having sent
    SIGTERM and frozen the leaf, without SIGKILL and without unfreezing.
    Otherwise it succeeds after SIGTERM, the wait, freeze, SIGKILL and
    unfreeze; errors of the freezer never make it fail. *)
Theorem KillAll_outcomes (h : Host) (c : TContainer) (tr : Trace) :
  let cg := Container.GetLeafCgroup c FreezerSubsystem in
  let frozen := tr ++ [EvKill cg SIGTERM; EvSleepWhile cg; EvFreeze cg] in
  (is_error (cg_GetTasks h tr cg).1 = true ->
   Container.KillAll h c tr = ((cg_GetTasks h tr cg).1, tr)) /\
  (is_error (cg_GetTasks h tr cg).1 = false ->
   is_error (cg_GetTasks h frozen cg).1 = true ->
   Container.KillAll h c tr = ((cg_GetTasks h frozen cg).1, frozen)) /\
  (is_error (cg_GetTasks h tr cg).1 = false ->
   is_error (cg_GetTasks h frozen cg).1 = false ->
   Container.KillAll h c tr =
     (Success, frozen ++ [EvKill cg SIGKILL; EvUnfreeze cg])).
Proof.
  intros cg frozen.
  assert (Hfrozen :
    ((tr ++ [EvKill cg SIGTERM]) ++ [EvSleepWhile cg]) ++ [EvFreeze cg] = frozen).
  { unfold frozen. rewrite <- !app_assoc. reflexivity. }
  unfold Container.KillAll, external. fold cg. rewrite Hfrozen.
  destruct (cg_GetTasks h tr cg) as [e1 r1]. simpl.
  destruct (is_error e1); (split; [|split]); try discriminate; try reflexivity.
  - intros _ H2. destruct (cg_GetTasks h frozen cg) as [e2 r2]. simpl in *.
    rewrite H2. reflexivity.
  - intros _ H2. destruct (cg_GetTasks h frozen cg) as [e2 r2]. simpl in *.
    rewrite H2. rewrite <- !app_assoc. reflexivity.
Qed.

Lemma KillAll_outcomes_witness :
  let h := with_cg_GetTasks (host_ok [42])
             (fun tr _ => match tr with
                          | [] => (Success, [42])
                          | _ => (Failure Unknown "tasks", [])
                          end) in
  let cg := Container.GetLeafCgroup (running42 "d") FreezerSubsystem in
  Container.KillAll h (running42 "d") [] =
    (Failure Unknown "tasks", [EvKill cg SIGTERM; EvSleepWhile cg; EvFreeze cg]).
Proof.
  apply (proj1 (proj2 (KillAll_outcomes
           (with_cg_GetTasks (host_ok [42])
              (fun tr _ => match tr with
                           | [] => (Success, [42])
                           | _ => (Failure Unknown "tasks", [])
                           end))
           (running42 "d") []))); reflexivity.
Defined.








(** ** Start *)

Lemma reconcile_Name (c : TContainer) : Name (Container.reconcile c) = Name c.
Proof. unfold Container.reconcile. destruct (_ && _); reflexivity. Qed.

Lemma Start_gated_Name (h : Host) (c c' : TContainer) (tr tr' : Trace)
    (e : TError) :
  Container.Start_gated h c tr = Some (e, c', tr') -> Name c' = Name c.
Proof.
  unfold Container.Start_gated, Container.CheckState.
  destruct (state_eqb (State (Container.reconcile c)) Stopped); simpl.
  2:{ intros [= <- <- <-]. apply reconcile_Name. }
  destruct (Container.PrepareCgroups h _ tr) as [[e1 c1] tr1] eqn:Hp.
  apply PrepareCgroups_inv in Hp as (Hn & _). rewrite reconcile_Name in Hn.
  destruct (is_error e1). { intros [= <- <- <-]. exact Hn. }
  destruct (Container.IsRoot c1). { intros [= <- <- <-]. exact Hn. }
  destruct (_ =? _)%nat. { intros [= <- <- <-]. exact Hn. }
  unfold Container.PrepareTask.
  destruct (is_error (taskenv_Prepare h tr1 _)) eqn:Et; rewrite ?Et.
  { intros [= <- <- <-]. exact Hn. }
  simpl. unfold external. destruct (task_Start h tr1 _) as [e2 t2].
  destruct (is_error e2); intros [= <- <- <-]; exact Hn.
Qed.

Lemma Start_Name (h : Host) (c c' : TContainer) (tr tr' : Trace) (e : TError) :
  Container.Start h c tr = Some (e, c', tr') -> Name c' = Name c.
Proof.
  unfold Container.Start. destruct (_ && MaybeReturnedOk c).
  - intros [= <- <- <-]. reflexivity.
  - intros H. apply Start_gated_Name in H. exact H.
Qed.

(** X7: when [Start] succeeds on a Stopped container other than ROOT, the
    command was not empty, the container is Running with the task the
    launch produced, all three leaves are bound, the pid written to the
    internal [root_pid] is the task's pid, and it is the value [GetData]
    then reports for [root_pid]. *)
Theorem successful_Start_persists_reported_pid (h : Host) (c c' : TContainer)
    (tr tr' : Trace) :
  State c = Stopped ->
  Container.IsRoot c = false ->
  Container.Start h c tr = Some (Success, c', tr') ->
  State c' = Running /\
  Spec_Get h (Spec c) "command" <> "" /\
  (forall s, LeafCgroups c' !! s = Some (Container.GetLeafCgroup c s)) /\
  exists t,
    Task c' = Some t /\
    Internal (Spec c') !! "root_pid" = Some (to_string (Pid t)) /\
    Data (Spec c') = Data (Spec c) /\
    last tr' = Some (EvSpecSetInternal (Name c) "root_pid" (to_string (Pid t))) /\
    forall tr2,
      Container.GetData h c' tr2 "root_pid" =
        (Success, Some (to_string (Pid t)), c').
Proof.
  intros Hs Hroot. rewrite Start_from_Stopped by exact Hs.
  unfold Container.Start_gated.
  rewrite CheckState_Stopped by exact Hs. simpl.
  destruct (Container.PrepareCgroups h _ tr) as [[e1 c1] tr1] eqn:Hp.
  destruct (is_error e1) eqn:E1.
  { intros [= -> <- <-]. discriminate E1. }
  assert (He1 : e1 = Success) by (destruct e1; [reflexivity | discriminate E1]).
  subst e1.
  pose proof (PrepareCgroups_success_leaves _ _ _ _ _ Hp) as Hl.
  apply PrepareCgroups_inv in Hp as (Hn & Hs1 & Hsp & _ & _ & _).
  simpl in Hn, Hs1, Hsp, Hl.
  unfold Container.IsRoot in *. rewrite Hn, Hroot, Hsp.
  destruct (_ =? _)%nat eqn:Ecmd. { intros [= ]. }
  unfold Container.PrepareTask.
  destruct (is_error (taskenv_Prepare h tr1 _)) eqn:Et; rewrite ?Et.
  { intros [= He <- <-]. rewrite He in Et. discriminate Et. }
  simpl. unfold external. destruct (task_Start h tr1 _) as [e2 t2].
  destruct (is_error e2) eqn:E2.
  { intros [= -> <- <-]. discriminate E2. }
  intros [= <- <-]. simpl.
  split; [reflexivity|]. split.
  { intros Hempty. rewrite Hempty in Ecmd. discriminate Ecmd. }
  split; [exact Hl|].
  exists t2. split; [reflexivity|].
  split; [apply lookup_insert_eq|]. split; [rewrite Hsp; reflexivity|].
  split; [rewrite last_snoc, Hn; reflexivity|].
  intros tr2. unfold Container.GetData, Container.IsRoot. simpl.
  rewrite Hn, Hroot. reflexivity.
Qed.

Lemma successful_Start_persists_reported_pid_witness :
  exists c' tr',
    Container.Start (host_ok []) (with_command "a" "/bin/sleep 60") [] =
      Some (Success, c', tr') /\
    State c' = Running /\
    Internal (Spec c') !! "root_pid" = Some "42" /\
    Container.GetData (host_ok []) c' tr' "root_pid" = (Success, Some "42", c').
Proof.
  destruct (Container.Start (host_ok []) (with_command "a" "/bin/sleep 60") [])
    as [[[e c'] tr']|] eqn:Hstart; [|discriminate Hstart].
  assert (He : e = Success) by (vm_compute in Hstart; congruence).
  subst e. exists c', tr'. split; [reflexivity|].
  destruct (successful_Start_persists_reported_pid (host_ok [])
              (with_command "a" "/bin/sleep 60") c' [] tr' eq_refl eq_refl Hstart)
    as (Hs & _ & _ & t & Ht & Hpid & _ & _ & Hget).
  assert (Hp : Pid t = 42).
  { vm_compute in Hstart. injection Hstart as <- <-.
    injection Ht as <-. reflexivity. }
  rewrite Hp in Hpid, Hget. split; [exact Hs|]. split; [exact Hpid|]. apply Hget.
Defined.



(** X9: after a [Start] that failed on a Stopped container other than ROOT,
    whichever step failed, the container is Stopped, so [GetData] serves
    [start_errno] (the launch error of the task, or -1 when there is no
    task or it is running) and refuses [exit_status] and [root_pid] with
    [InvalidState]. *)
Theorem failed_Start_leaves_start_errno_readable (h : Host) (c c' : TContainer)
    (tr tr' : Trace) (e : TError) :
  State c = Stopped ->
  Container.IsRoot c = false ->
  Container.Start h c tr = Some (e, c', tr') ->
  is_error e = true ->
  forall tr2,
    Container.GetData h c' tr2 "start_errno" =
      (Success,
       Some (match Task c' with
             | Some t => if negb (IsRunning t)
                         then to_string (Error (ExitStatus t)) else "-1"
             | None => "-1"
             end), c') /\
    (exists msg, Container.GetData h c' tr2 "exit_status" =
                   (Failure InvalidState msg, None, c')) /\
    (exists msg, Container.GetData h c' tr2 "root_pid" =
                   (Failure InvalidState msg, None, c')).
Proof.
  intros Hs Hroot Hstart He tr2.
  pose proof (failed_Start_stays_Stopped _ _ _ _ _ _ Hs Hstart He) as Hs'.
  pose proof (Start_Name _ _ _ _ _ _ Hstart) as Hn.
  assert (Hroot' : Container.IsRoot c' = false).
  { unfold Container.IsRoot in *. rewrite Hn. exact Hroot. }
  unfold Container.GetData.
  split; [|split].
  - change (Container.DataSpec !! "start_errno") with
      (Some {| Container.Description := "container start error";
               Container.RootValid := false;
               Container.Handler := Container.TData.StartErrno;
               Container.Valid := [Stopped] |}).
    simpl. rewrite Hroot', Hs'. reflexivity.
  - change (Container.DataSpec !! "exit_status") with
      (Some {| Container.Description := "container exit status";
               Container.RootValid := false;
               Container.Handler := Container.TData.ExitStatus;
               Container.Valid := [Dead] |}).
    simpl. rewrite Hroot', Hs'. eexists. reflexivity.
  - change (Container.DataSpec !! "root_pid") with
      (Some {| Container.Description := "root process id";
               Container.RootValid := false;
               Container.Handler := Container.TData.RootPid;
               Container.Valid := [Running; Paused] |}).
    simpl. rewrite Hroot', Hs'. eexists. reflexivity.
Qed.

Lemma failed_Start_leaves_start_errno_readable_witness :
  let h := with_task_Start (host_ok [])
             (fun _ t =>
                (Failure Unknown "execve",
                 {| TaskEnv := TaskEnv t; Cgroups := Cgroups t; Pid := 0;
                    IsRunning := false;
                    ExitStatus := {| Error := 2; Status := 0 |} |})) in
  exists c' tr',
    Container.Start h (with_command "a" "/bin/none") [] =
      Some (Failure Unknown "execve", c', tr') /\
    Container.GetData h c' tr' "start_errno" = (Success, Some "2", c').
Proof.
  intros h.
  destruct (Container.Start h (with_command "a" "/bin/none") [])
    as [[[e c'] tr']|] eqn:Hstart; [|discriminate Hstart].
  assert (He : e = Failure Unknown "execve")
    by (vm_compute in Hstart; congruence).
  subst e. exists c', tr'. split; [reflexivity|].
  destruct (failed_Start_leaves_start_errno_readable h
              (with_command "a" "/bin/none") c' [] tr' _ eq_refl eq_refl
              Hstart eq_refl tr') as (Hget & _).
  rewrite Hget. vm_compute in Hstart. injection Hstart as <- <-. reflexivity.
Defined.

(** ** SetProperty *)

Lemma SetProperty_Task (h : Host) (c c' : TContainer) (tr tr' : Trace)
    (e : TError) (property value : string) :
  Container.SetProperty h c tr property value = (e, c', tr') ->
  Task c' = Task c.
Proof.
  unfold Container.SetProperty, external.
  destruct (Container.IsRoot c). { intros [= <- <- <-]. reflexivity. }
  destruct (_ && _). { intros [= <- <- <-]. reflexivity. }
  destruct (spec_Set h tr _ _ _). intros [= <- <- <-]. reflexivity.
Qed.

(** X10: [SetProperty] never changes anything but the Spec.  On ROOT, and
    for a property that is not dynamic on a container that is not Stopped,
    it is rejected with [InvalidValue] before the property store is called;
    otherwise the store's [Set] decides and its error is returned. *)
Theorem SetProperty_static_rule (h : Host) (c c' : TContainer) (tr tr' : Trace)
    (e : TError) (property value : string) :
  Container.SetProperty h c tr property value = (e, c', tr') ->
  (Name c' = Name c /\ State c' = State c /\ Task c' = Task c /\
   LeafCgroups c' = LeafCgroups c /\ MaybeReturnedOk c' = MaybeReturnedOk c) /\
  (Container.IsRoot c = true \/
   (State c <> Stopped /\ spec_IsDynamic h property = false) ->
   error_kind e = Some InvalidValue /\ c' = c /\ tr' = tr) /\
  (Container.IsRoot c = false ->
   State c = Stopped \/ spec_IsDynamic h property = true ->
   tr' = tr ++ [EvSpecSet (Name c) property value] /\
   (e, Spec c') = spec_Set h tr (Spec c) property value).
Proof.
  unfold Container.SetProperty, external.
  destruct (Container.IsRoot c) eqn:Hroot.
  { intros [= <- <- <-]. split; [auto 6|]. split; [auto|]. discriminate. }
  destruct (state_eqb (State c) Stopped) eqn:Es; simpl.
  - apply state_eqb_eq in Es.
    destruct (spec_Set h tr (Spec c) property value) as [e0 spec0].
    intros [= <- <- <-]. simpl. split; [auto 6|]. split; [|auto].
    intros [Hr | [Hn _]]; [discriminate Hr | contradiction].
  - apply state_eqb_neq in Es.
    destruct (spec_IsDynamic h property) eqn:Ed; simpl.
    + destruct (spec_Set h tr (Spec c) property value) as [e0 spec0].
      intros [= <- <- <-]. simpl. split; [auto 6|]. split; [|auto].
      intros [Hr | [_ Hd]]; [discriminate Hr | discriminate Hd].
    + intros [= <- <- <-]. split; [auto 6|]. split; [auto|].
      intros _ [Hs | Hd]; [contradiction | discriminate Hd].
Qed.

Lemma SetProperty_static_rule_witness :
  exists msg,
    Container.SetProperty (host_ok [42]) (running42 "a") [] "command" "/bin/true" =
      (Failure InvalidValue msg, running42 "a", []).
Proof.
  destruct (Container.SetProperty (host_ok [42]) (running42 "a") [] "command"
              "/bin/true") as [[e c'] tr'] eqn:Hset.
  destruct (SetProperty_static_rule _ _ _ _ _ _ _ _ Hset) as (_ & Hstatic & _).
  destruct Hstatic as (Hk & -> & ->).
  { right. split; [discriminate | reflexivity]. }
  destruct e as [|k msg]; [discriminate Hk|].
  injection Hk as ->. exists msg. reflexivity.
Defined.

(** ** Exit delivery, once *)

(** X11: an exit status is claimed at most once.  After a container has
    claimed a pid it is Dead, it claims no further pid, whatever the pid
    and status, and [GetData] reports its state as "dead". *)
Theorem exit_status_claimed_once (c c' : TContainer) (pid status : Z) :
  Container.DeliverExitStatus c pid status = (true, c') ->
  State c = Running /\ State c' = Dead /\
  (forall pid2 status2,
     Container.DeliverExitStatus c' pid2 status2 = (false, c')) /\
  (forall h tr, Container.GetData h c' tr "state" = (Success, Some "dead", c')).
Proof.
  rewrite Container_DeliverExitStatus_claims.
  destruct (claims c pid) eqn:Hc; [|discriminate].
  intros [= <-]. apply claims_true in Hc as (Hs & t & Ht & _).
  destruct (exited_fields c t status Ht) as (Hd & _).
  split; [exact Hs|]. split; [exact Hd|]. split.
  - intros pid2 status2. rewrite Container_DeliverExitStatus_claims.
    unfold claims. rewrite Hd. reflexivity.
  - intros h tr. unfold Container.GetData.
    change (Container.DataSpec !! "state") with
      (Some {| Container.Description := "container state";
               Container.RootValid := true;
               Container.Handler := Container.TData.State;
               Container.Valid := [Stopped; Dead; Running; Paused] |}).
    simpl. rewrite andb_false_r. unfold Container.TData.State.
    rewrite Hd. reflexivity.
Qed.

Lemma exit_status_claimed_once_witness :
  exists c',
    Container.DeliverExitStatus (running42 "a") 42 256 = (true, c') /\
    Container.DeliverExitStatus c' 42 0 = (false, c') /\
    Container.GetData (host_ok []) c' [] "state" = (Success, Some "dead", c').
Proof.
  exists (exited (running42 "a") 256). split; [reflexivity|].
  destruct (exit_status_claimed_once (running42 "a") (exited (running42 "a") 256)
              42 256 eq_refl) as (_ & _ & Honce & Hstate).
  split; [apply Honce | apply Hstate].
Defined.

(** ** No null task is dereferenced *)

Lemma Start_gated_total (h : Host) (c : TContainer) (tr : Trace) :
  Container.Start_gated h c tr <> None.
Proof.
  unfold Container.Start_gated, Container.CheckState.
  destruct (negb _); [discriminate|].
  destruct (Container.PrepareCgroups h _ tr) as [[e1 c1] tr1].
  destruct (is_error e1); [discriminate|].
  destruct (Container.IsRoot c1); [discriminate|].
  destruct (_ =? _)%nat; [discriminate|].
  unfold Container.PrepareTask.
  destruct (is_error (taskenv_Prepare h tr1 _)) eqn:Et; rewrite ?Et;
    [discriminate|].
  simpl. unfold external. destruct (task_Start h tr1 _) as [e2 t2].
  destruct (is_error e2); discriminate.
Qed.

Lemma Start_total (h : Host) (c : TContainer) (tr : Trace) :
  Container.Start h c tr <> None.
Proof.
  unfold Container.Start. destruct (_ && MaybeReturnedOk c); [discriminate|].
  apply Start_gated_total.
Qed.

Lemma Restore_total (h : Host) (c : TContainer) (tr : Trace) (node : TNode) :
  Container.Restore h c tr node <> None.
Proof.
  unfold Container.Restore.
  destruct (spec_Restore h tr (Name c) node) as [e0 spec].
  destruct (is_error e0); [discriminate|].
  destruct (let '(error, pidStr) := Spec_GetInternal _ _ in _) as [pid|].
  - destruct (Container.PrepareCgroups h _ tr) as [[e1 c1] tr1].
    destruct (is_error e1); [discriminate|].
    unfold Container.PrepareTask.
    destruct (is_error (taskenv_Prepare h tr1 _)) eqn:Et; rewrite ?Et;
      [discriminate|].
    simpl. unfold external. destruct (task_Restore h tr1 _ _) as [e2 t2].
    destruct (is_error e2).
    + destruct (Container.KillAll h _ _). discriminate.
    + discriminate.
  - destruct (Container.IsAlive h _ tr).
    + destruct (Container.KillAll h _ tr). apply Start_total.
    + destruct (Container.KillAll h _ tr). discriminate.
Qed.

(** [Restore] leaves no container Dead unless it failed to read the Spec of
    a container that was Dead, whose task it did not touch. *)
Lemma Restore_Dead_task (h : Host) (c c' : TContainer) (tr tr' : Trace)
    (e : TError) (node : TNode) :
  Container.Restore h c tr node = Some (e, c', tr') ->
  State c' = Dead -> Task c' = Task c.
Proof.
  unfold Container.Restore.
  destruct (spec_Restore h tr (Name c) node) as [e0 spec].
  destruct (is_error e0). { intros [= <- <- <-]. reflexivity. }
  intros H Hd. exfalso. revert H Hd.
  destruct (let '(error, pidStr) := Spec_GetInternal _ _ in _) as [pid|].
  - destruct (Container.PrepareCgroups h _ tr) as [[e1 c1] tr1] eqn:Hp.
    apply PrepareCgroups_inv in Hp as (_ & Hs1 & _ & _ & _ & _). simpl in Hs1.
    destruct (is_error e1). { intros [= <- <- <-]. congruence. }
    unfold Container.PrepareTask.
    destruct (is_error (taskenv_Prepare h tr1 _)) eqn:Et; rewrite ?Et.
    { intros [= <- <- <-]. congruence. }
    simpl. unfold external. destruct (task_Restore h tr1 _ _) as [e2 t2].
    destruct (is_error e2).
    + destruct (Container.KillAll h _ _). intros [= <- <- <-]. simpl. congruence.
    + destruct (IsRunning t2); simpl; intros [= <- <- <-]; discriminate.
  - destruct (Container.IsAlive h _ tr).
    + destruct (Container.KillAll h _ tr) as [e1 tr1].
      intros H Hd. apply Start_Dead in H; [|exact Hd]. discriminate H.
    + destruct (Container.KillAll h _ tr). intros [= <- <- <-]. discriminate.
Qed.

Lemma reconcile_Task (c : TContainer) : Task (Container.reconcile c) = Task c.
Proof. unfold Container.reconcile. destruct (_ && _); reflexivity. Qed.

Lemma Start_Dead_task (h : Host) (c c' : TContainer) (tr tr' : Trace)
    (e : TError) :
  Container.Start h c tr = Some (e, c', tr') ->
  State c' = Dead -> Task c' = Task c.
Proof.
  intros H Hd. pose proof (Start_Dead _ _ _ _ _ _ H Hd) as Hc. revert H.
  unfold Container.Start, Container.Start_gated, Container.CheckState.
  destruct (_ && MaybeReturnedOk c); [intros [= <- <- <-]; reflexivity|].
  rewrite reconcile_fresh by (simpl; rewrite Hc; discriminate).
  simpl. rewrite Hc. simpl. intros [= <- <- <-]. reflexivity.
Qed.

Lemma Stop_Dead_task (h : Host) (c c' : TContainer) (tr tr' : Trace)
    (e : TError) :
  Container.Stop h c tr = Some (e, c', tr') ->
  State c' = Dead -> Task c' = Task c.
Proof.
  unfold Container.Stop, Container.CheckState.
  destruct (Container.IsRoot c). { intros [= <- <- <-]. reflexivity. }
  rewrite reconcile_idem.
  destruct (state_eqb (State (Container.reconcile c)) Running).
  - simpl. destruct (Task (Container.reconcile c)); [|discriminate].
    destruct (Container.KillAll h _ tr). intros [= <- <- <-]. discriminate.
  - destruct (state_eqb (State (Container.reconcile c)) Dead); simpl.
    + destruct (Task (Container.reconcile c)); [|discriminate].
      destruct (Container.KillAll h _ tr). intros [= <- <- <-]. discriminate.
    + intros [= <- <- <-] _. apply reconcile_Task.
Qed.

Lemma Pause_Dead_task (h : Host) (c c' : TContainer) (tr tr' : Trace)
    (e : TError) :
  Container.Pause h c tr = (e, c', tr') ->
  State c' = Dead -> Task c' = Task c.
Proof.
  unfold Container.Pause, Container.CheckState, external.
  destruct (Container.IsRoot c). { intros [= <- <- <-]. reflexivity. }
  destruct (state_eqb (State (Container.reconcile c)) Running) eqn:Er; simpl.
  - apply state_eqb_eq in Er.
    destruct (is_error _); intros [= <- <- <-]; simpl; intros Hd;
      [congruence | discriminate].
  - intros [= <- <- <-] _. apply reconcile_Task.
Qed.

Lemma Resume_Dead_task (h : Host) (c c' : TContainer) (tr tr' : Trace)
    (e : TError) :
  Container.Resume h c tr = (e, c', tr') ->
  State c' = Dead -> Task c' = Task c.
Proof.
  unfold Container.Resume, Container.CheckState, external.
  destruct (state_eqb (State (Container.reconcile c)) Paused) eqn:Er; simpl.
  - apply state_eqb_eq in Er.
    destruct (is_error _); intros [= <- <- <-]; simpl; intros Hd;
      [congruence | discriminate].
  - intros [= <- <- <-] _. apply reconcile_Task.
Qed.

(** [Stop] dereferences the task only of a container that has one. *)
Lemma Stop_total (h : Host) (c : TContainer) (tr : Trace) :
  Dead_has_task c -> Container.Stop h c tr <> None.
Proof.
  intros Hinv. unfold Container.Stop, Container.CheckState.
  destruct (Container.IsRoot c); [discriminate|]. rewrite reconcile_idem.
  assert (Htask : State (Container.reconcile c) = Running \/
                  State (Container.reconcile c) = Dead ->
                  Task (Container.reconcile c) <> None).
  { rewrite reconcile_Task, reconcile_state. unfold Container.task_running.
    destruct (state_eqb (State c) Running) eqn:E; simpl.
    - destruct (Task c) as [t|]; [discriminate|].
      simpl. intros [H|H]; discriminate H.
    - apply state_eqb_neq in E. intros [H|H]; [contradiction | auto]. }
  destruct (state_eqb (State (Container.reconcile c)) Running) eqn:Er; simpl.
  - apply state_eqb_eq in Er.
    destruct (Task (Container.reconcile c)); [|exfalso; apply Htask; auto].
    destruct (Container.KillAll h _ tr). discriminate.
  - destruct (state_eqb (State (Container.reconcile c)) Dead) eqn:Ed; simpl;
      [|discriminate].
    apply state_eqb_eq in Ed.
    destruct (Task (Container.reconcile c)); [|exfalso; apply Htask; auto].
    destruct (Container.KillAll h _ tr). discriminate.
Qed.

(** A request on a container that has a task whenever it is Dead is served,
    and the container it leaves is again such a container. *)
Lemma handle_serves (h : Host) (r : Request) (c : TContainer) (tr : Trace) :
  Dead_has_task c ->
  exists c' tr', handle h r c tr = Some (c', tr') /\ Dead_has_task c'.
Proof.
  intros Hinv.
  destruct r as [op| | | | |pid status|]; simpl.
  - destruct op; simpl.
    + destruct (Container.Start h c tr) as [[[e c1] tr1]|] eqn:H;
        [|exfalso; eapply Start_total; eauto].
      eexists _, _. split; [reflexivity|]. intros Hd.
      rewrite (Start_Dead_task _ _ _ _ _ _ H Hd).
      apply Hinv. eapply Start_Dead; eauto.
    + destruct (Container.Stop h c tr) as [[[e c1] tr1]|] eqn:H;
        [|exfalso; eapply Stop_total; eauto].
      eexists _, _. split; [reflexivity|]. intros Hd.
      rewrite (Stop_Dead_task _ _ _ _ _ _ H Hd).
      apply Hinv. eapply Stop_Dead; eauto.
    + destruct (Container.Pause h c tr) as [[e c1] tr1] eqn:H.
      eexists _, _. split; [reflexivity|]. intros Hd.
      rewrite (Pause_Dead_task _ _ _ _ _ _ H Hd).
      apply Hinv. eapply Pause_Dead; eauto.
    + destruct (Container.Resume h c tr) as [[e c1] tr1] eqn:H.
      eexists _, _. split; [reflexivity|]. intros Hd.
      rewrite (Resume_Dead_task _ _ _ _ _ _ H Hd).
      apply Hinv. eapply Resume_Dead; eauto.
  - rewrite GetData_container. eauto.
  - eauto.
  - destruct (Container.SetProperty h c tr property value) as [[e c1] tr1] eqn:H.
    eexists _, _. split; [reflexivity|].
    pose proof (SetProperty_State _ _ _ _ _ _ _ _ H) as Hs.
    pose proof (SetProperty_Task _ _ _ _ _ _ _ _ H) as Ht.
    intros Hd. rewrite Ht. apply Hinv. congruence.
  - destruct (Container.Restore h c tr node) as [[[e c1] tr1]|] eqn:H;
      [|exfalso; eapply Restore_total; eauto].
    eexists _, _. split; [reflexivity|]. intros Hd.
    rewrite (Restore_Dead_task _ _ _ _ _ _ _ H Hd).
    apply Hinv. eapply Restore_not_Dead; eauto.
  - rewrite Container_DeliverExitStatus_claims.
    destruct (claims c pid) eqn:Hc; simpl; eexists _, _;
      (split; [reflexivity|]); [|exact Hinv].
    apply claims_true in Hc as (_ & t & Ht & _).
    destruct (exited_fields c t status Ht) as (_ & Ht' & _).
    intros _. rewrite Ht'. discriminate.
  - eauto.
Qed.

(** X12: no sequence of requests makes a container dereference a null
    task.  Started from a container that has a task whenever it is Dead, as
    every new container does, each request is served, and every container
    visited on the way is again such a container. *)
Theorem requests_never_dereference_null (h : Host) (rs : list Request) :
  forall (c : TContainer) (tr : Trace),
    Dead_has_task c ->
    exists hist,
      run h rs c tr = Some hist /\
      List.length hist = S (List.length rs) /\
      Forall Dead_has_task hist.
Proof.
  induction rs as [|r rs IH]; intros c tr Hinv; simpl.
  - exists [c]. split; [reflexivity|]. split; [reflexivity|].
    constructor; [exact Hinv | constructor].
  - destruct (handle_serves h r c tr Hinv) as (c' & tr' & -> & Hinv').
    destruct (IH c' tr' Hinv') as (hist & -> & Hlen & Hall).
    exists (c :: hist). split; [reflexivity|]. split; [simpl; congruence|].
    constructor; assumption.
Qed.

Lemma requests_never_dereference_null_witness :
  exists hist,
    run (host_ok [])
        [ReqLifecycle OpStart; ReqDeliverExitStatus 42 0; ReqLifecycle OpStop;
         ReqLifecycle OpStop]
        (with_command "a" "/bin/true") [] = Some hist /\
    List.length hist = 5%nat /\
    Forall Dead_has_task hist.
Proof.
  apply (requests_never_dereference_null (host_ok [])
           [ReqLifecycle OpStart; ReqDeliverExitStatus 42 0; ReqLifecycle OpStop;
            ReqLifecycle OpStop]
           (with_command "a" "/bin/true") []).
  intros Hd. discriminate Hd.
Defined.

(** * Further properties of the registry *)

Lemma Restore_Name (h : Host) (c c' : TContainer) (tr tr' : Trace)
    (e : TError) (node : TNode) :
  Container.Restore h c tr node = Some (e, c', tr') -> Name c' = Name c.
Proof.
  unfold Container.Restore.
  destruct (spec_Restore h tr (Name c) node) as [e0 spec].
  destruct (is_error e0). { intros [= <- <- <-]. reflexivity. }
  destruct (let '(error, pidStr) := Spec_GetInternal _ _ in _) as [pid|].
  - destruct (Container.PrepareCgroups h _ tr) as [[e1 c1] tr1] eqn:Hp.
    apply PrepareCgroups_inv in Hp as (Hn & _). simpl in Hn.
    destruct (is_error e1). { intros [= <- <- <-]. exact Hn. }
    unfold Container.PrepareTask.
    destruct (is_error (taskenv_Prepare h tr1 _)) eqn:Et; rewrite ?Et.
    { intros [= <- <- <-]. exact Hn. }
    simpl. unfold external. destruct (task_Restore h tr1 _ _) as [e2 t2].
    destruct (is_error e2).
    + destruct (Container.KillAll h _ _). intros [= <- <- <-]. exact Hn.
    + destruct (IsRunning t2); simpl; intros [= <- <- <-]; exact Hn.
  - destruct (Container.IsAlive h _ tr).
    + destruct (Container.KillAll h _ tr) as [e1 tr1].
      intros H. apply Start_Name in H. exact H.
    + destruct (Container.KillAll h _ tr). intros [= <- <- <-]. reflexivity.
Qed.

(** The destructor of a container that is Stopped calls nothing. *)
Lemma Destroy_Stopped (h : Host) (c : TContainer) (tr : Trace) :
  State c = Stopped -> Container.Destroy h c tr = Some tr.
Proof.
  intros Hs. unfold Container.Destroy, Container.Stop, Container.CheckState.
  rewrite Hs. simpl.
  destruct (Container.IsRoot c); [reflexivity|].
  rewrite reconcile_fresh by (rewrite Hs; discriminate).
  rewrite Hs. simpl.
  rewrite reconcile_fresh by (rewrite Hs; discriminate).
  rewrite Hs. reflexivity.
Qed.

(** X13: [Create] followed by [Destroy] gives the registry back.  For a
    valid name other than ROOT that has no entry, when the storage creates
    the record, [Create] succeeds and registers a Stopped container under
    the name, and [Destroy] of the same name then returns the registry as
    it was before the [Create]. *)
Theorem Create_then_Destroy_is_identity (h : Host) (H : TContainerHolder)
    (tr : Trace) (name : string) :
  Holder.ValidName name = true ->
  name <> ROOT_CONTAINER ->
  Containers H !! name = None ->
  spec_Create h tr name = Success ->
  (Holder.Create h H tr name).1.1 = Success /\
  Holder.Get (Holder.Create h H tr name).1.2 name = Some (new_TContainer name) /\
  exists tr',
    Holder.Destroy h (Holder.Create h H tr name).1.2
      (Holder.Create h H tr name).2 name = Some (H, tr').
Proof.
  intros Hv Hnr Hnone Hc.
  assert (HH : Holder.Create h H tr name =
               (Success,
                {| Containers := <[name := Some (new_TContainer name)]>
                                   (<[name := None]> (Containers H)) |},
                tr ++ [EvSpecCreate name])).
  { unfold Holder.Create, Holder.index, Container.Create, external.
    rewrite Hv, Hnone. simpl. rewrite Hc. reflexivity. }
  rewrite HH. simpl. split; [reflexivity|]. split.
  { unfold Holder.Get. simpl. rewrite lookup_insert_eq. reflexivity. }
  exists (tr ++ [EvSpecCreate name]).
  unfold Holder.Destroy. simpl.
  destruct (String.eqb_spec name ROOT_CONTAINER) as [|_]; [contradiction|].
  simpl. rewrite lookup_insert_eq.
  rewrite Destroy_Stopped by reflexivity.
  rewrite !delete_insert_eq, delete_id by exact Hnone.
  destruct H; reflexivity.
Qed.

Lemma Create_then_Destroy_is_identity_witness :
  (Holder.Create (host_ok []) registry_ab [] "c").1.1 = Success /\
  Holder.Get (Holder.Create (host_ok []) registry_ab [] "c").1.2 "c" =
    Some (new_TContainer "c") /\
  exists tr',
    Holder.Destroy (host_ok []) (Holder.Create (host_ok []) registry_ab [] "c").1.2
      (Holder.Create (host_ok []) registry_ab [] "c").2 "c" =
      Some (registry_ab, tr').
Proof.
  apply (Create_then_Destroy_is_identity (host_ok []) registry_ab [] "c").
  - reflexivity.
  - discriminate.
  - reflexivity.
  - reflexivity.
Defined.

Lemma Destroy_registry (h : Host) (H H' : TContainerHolder) (tr tr' : Trace)
    (name : string) :
  Holder.Destroy h H tr name = Some (H', tr') ->
  H' = if String.eqb name ROOT_CONTAINER then H
       else {| Containers := delete name (Containers H) |}.
Proof.
  unfold Holder.Destroy.
  destruct (String.eqb name ROOT_CONTAINER); simpl.
  - intros [= <- <-]. reflexivity.
  - destruct (Containers H !! name) as [[c|]|].
    + destruct (Container.Destroy h c tr); [|discriminate].
      intros [= <- _]. reflexivity.
    + intros [= <- _]. reflexivity.
    + intros [= <- _]. reflexivity.
Qed.

(** X14: [Destroy] does nothing for ROOT; for any other name it leaves no
    entry under the name and touches no other entry, and [Get] then reports
    absence. *)
Theorem Destroy_removes_only_the_name (h : Host) (H H' : TContainerHolder)
    (tr tr' : Trace) (name : string) :
  Holder.Destroy h H tr name = Some (H', tr') ->
  (name = ROOT_CONTAINER -> H' = H /\ tr' = tr) /\
  (name <> ROOT_CONTAINER ->
   Containers H' !! name = None /\ Holder.Get H' name = None /\
   forall k, k <> name -> Containers H' !! k = Containers H !! k).
Proof.
  unfold Holder.Destroy.
  destruct (String.eqb_spec name ROOT_CONTAINER) as [Hr|Hr]; simpl.
  - intros [= <- <-]. split; [auto | contradiction].
  - intros Hd.
    assert (HH : H' = {| Containers := delete name (Containers H) |}).
    { destruct (Containers H !! name) as [[c|]|].
      - destruct (Container.Destroy h c tr); [|discriminate].
        injection Hd as <- _. reflexivity.
      - injection Hd as <- _. reflexivity.
      - injection Hd as <- _. reflexivity. }
    subst H'. split; [contradiction|]. intros _. unfold Holder.Get. simpl.
    rewrite lookup_delete_eq. split; [reflexivity|]. split; [reflexivity|].
    intros k Hk. apply lookup_delete_ne. congruence.
Qed.

Lemma Destroy_removes_only_the_name_witness :
  exists H' tr',
    Holder.Destroy (host_ok [42]) registry_ab [] "b" = Some (H', tr') /\
    Containers H' !! "b" = None /\ Holder.Get H' "b" = None /\
    forall k, k <> "b" -> Containers H' !! k = Containers registry_ab !! k.
Proof.
  destruct (Holder.Destroy (host_ok [42]) registry_ab [] "b") as [[H' tr']|] eqn:Hd;
    [|discriminate Hd].
  exists H', tr'. split; [reflexivity|].
  apply (Destroy_removes_only_the_name _ _ _ _ _ _ Hd). discriminate.
Defined.

(** X15: [CreateRoot] on a registry without ROOT, when the storage creates
    the record, returns success whether or not the start of ROOT worked:
    ROOT is registered without a task, Running when its cgroups could be
    prepared and Stopped otherwise. *)
Theorem CreateRoot_registers_ROOT (h : Host) (H : TContainerHolder) (tr : Trace) :
  Holder.Get H ROOT_CONTAINER = None ->
  spec_Create h tr ROOT_CONTAINER = Success ->
  exists c tr',
    Holder.CreateRoot h H tr =
      Some (Success, {| Containers := <[ROOT_CONTAINER := Some c]> (Containers H) |},
            tr') /\
    Name c = ROOT_CONTAINER /\ Task c = None /\
    State c =
      (if is_error (Container.PrepareCgroups h root
                      (tr ++ [EvSpecCreate ROOT_CONTAINER])).1.1
       then Stopped else Running).
Proof.
  intros Hget Hc.
  assert (HH : exists m,
             Holder.Create h H tr ROOT_CONTAINER =
               (Success, {| Containers := <[ROOT_CONTAINER := Some root]> m |},
                tr ++ [EvSpecCreate ROOT_CONTAINER]) /\
             <[ROOT_CONTAINER := Some root]> m =
               <[ROOT_CONTAINER := Some root]> (Containers H)).
  { unfold Holder.Create, Holder.index, Container.Create, external.
    unfold Holder.Get in Hget. simpl.
    destruct (Containers H !! ROOT_CONTAINER) as [p|] eqn:Hl.
    - subst p. simpl. rewrite Hc. simpl. eauto.
    - simpl. rewrite Hc. simpl. eexists. split; [reflexivity|].
      apply insert_insert_eq. }
  destruct HH as (m & HH & Hm).
  unfold Holder.CreateRoot. rewrite HH. simpl.
  unfold Holder.Get. simpl. rewrite lookup_insert_eq.
  set (tr1 := tr ++ [EvSpecCreate ROOT_CONTAINER]).
  destruct (Container.Start h root tr1) as [[[e c] tr2]|] eqn:Hs;
    [|exfalso; eapply Start_total; eauto].
  exists c, tr2. rewrite Hm, insert_insert_eq.
  split; [reflexivity|].
  pose proof (Start_Name _ _ _ _ _ _ Hs) as Hn.
  split; [exact Hn|].
  revert Hs. rewrite Start_from_Stopped by reflexivity.
  unfold Container.Start_gated.
  rewrite CheckState_Stopped by reflexivity. simpl.
  change (set_MaybeReturnedOk root false) with root.
  destruct (Container.PrepareCgroups h root tr1) as [[e1 c1] tr3] eqn:Hp.
  apply PrepareCgroups_inv in Hp as (Hn1 & Hs1 & _ & Ht1 & _). simpl.
  destruct (is_error e1). { intros [= <- <- <-]. split; [exact Ht1 | exact Hs1]. }
  assert (Hr : Container.IsRoot c1 = true).
  { unfold Container.IsRoot. rewrite Hn1. reflexivity. }
  rewrite Hr. intros [= <- <- <-]. split; [exact Ht1 | reflexivity].
Qed.

Lemma CreateRoot_registers_ROOT_witness :
  exists c tr',
    Holder.CreateRoot (host_ok []) registry_ab [] =
      Some (Success,
            {| Containers := <[ROOT_CONTAINER := Some c]> (Containers registry_ab) |},
            tr') /\
    Name c = ROOT_CONTAINER /\ Task c = None /\ State c = Running.
Proof.
  apply (CreateRoot_registers_ROOT (host_ok []) registry_ab []); reflexivity.
Defined.

(** ** The registry without null handles *)

Lemma HdRel_insert_entry {V : Type} (a e : string * V) (l : list (string * V)) :
  key_le a.1 e.1 ->
  HdRel (fun x y => key_le x.1 y.1) a l ->
  HdRel (fun x y => key_le x.1 y.1) a (insert_entry e l).
Proof.
  intros Hae Hl. destruct l as [|x r]; simpl.
  - constructor. exact Hae.
  - destruct (String.leb e.1 x.1); constructor; [exact Hae|].
    inversion Hl; assumption.
Qed.

Lemma insert_entry_sorted {V : Type} (e : string * V) (l : list (string * V)) :
  Sorted (fun x y => key_le x.1 y.1) l ->
  Sorted (fun x y => key_le x.1 y.1) (insert_entry e l).
Proof.
  induction l as [|x r IH]; intros Hs; simpl.
  - repeat constructor.
  - destruct (String.leb e.1 x.1) eqn:E.
    + constructor; [exact Hs|]. constructor. exact E.
    + inversion Hs as [|? ? Hr Hhd]; subst.
      constructor; [apply IH; exact Hr|].
      apply HdRel_insert_entry; [|exact Hhd].
      destruct (String.leb_total x.1 e.1) as [Hle|Hle]; [exact Hle|].
      rewrite Hle in E. discriminate E.
Qed.

(** The entries are visited in ascending key order. *)
Lemma entries_sorted {V : Type} (m : gmap string V) :
  Sorted (fun x y => key_le x.1 y.1) (entries m).
Proof.
  unfold entries. induction (map_to_list m) as [|x r IH]; simpl.
  - constructor.
  - apply insert_entry_sorted, IH.
Qed.

Lemma names_well_named (l : list (string * option TContainer)) :
  (forall k p, (k, p) ∈ l -> exists c, p = Some c /\ Name c = k) ->
  Holder.names l = Some (l.*1).
Proof.
  induction l as [|[k p] r IH]; intros Hl; simpl; [reflexivity|].
  destruct (Hl k p) as (c & -> & Hn); [left|].
  rewrite IH; [unfold Container.GetName; rewrite Hn; reflexivity|].
  intros k' p' Hin. apply Hl. right. exact Hin.
Qed.

Lemma beat_no_null (l : list (string * option TContainer)) :
  (forall k p, (k, p) ∈ l -> p <> None) ->
  forall tr, Holder.beat l tr <> None.
Proof.
  induction l as [|[k [c|]] r IH]; intros Hl tr; simpl.
  - discriminate.
  - apply IH. intros k' p' Hin. apply (Hl k'). right. exact Hin.
  - exfalso. apply (Hl k None); [left | reflexivity].
Qed.

Lemma deliver_no_null (l : list (string * option TContainer)) (pid status : Z) :
  (forall k p, (k, p) ∈ l -> p <> None) ->
  forall m, Holder.deliver l m pid status <> None.
Proof.
  induction l as [|[k [c|]] r IH]; intros Hl m; simpl.
  - discriminate.
  - destruct (Container.DeliverExitStatus c pid status) as [[] c'].
    + discriminate.
    + apply IH. intros k' p' Hin. apply (Hl k'). right. exact Hin.
  - exfalso. apply (Hl k None); [left | reflexivity].
Qed.

(** X16: on a registry in which every entry holds a container registered
    under its own name, [List] returns the registered names, each once, in
    ascending order of the keys, and neither [Heartbeat] nor
    [DeliverExitStatus] dereferences a null handle. *)
Theorem List_returns_the_sorted_names (H : TContainerHolder) :
  well_named H ->
  (exists l,
     Holder.List H = Some l /\
     Sorted key_le l /\ NoDup l /\
     forall k, k ∈ l <-> is_Some (Containers H !! k)) /\
  (forall tr, Holder.Heartbeat H tr <> None) /\
  (forall pid status, Holder.DeliverExitStatus H pid status <> None).
Proof.
  intros Hwn.
  assert (Hent : forall k p, (k, p) ∈ entries (Containers H) ->
                             exists c, p = Some c /\ Name c = k).
  { intros k p Hin. apply elem_of_entries in Hin. eapply Hwn; eauto. }
  assert (Hnn : forall k p, (k, p) ∈ entries (Containers H) -> p <> None).
  { intros k p Hin. destruct (Hent k p Hin) as (c & -> & _). discriminate. }
  split; [|split].
  - exists ((entries (Containers H)).*1). unfold Holder.List.
    split; [apply names_well_named, Hent|]. split; [|split].
    + apply (Sorted_fmap fst (fun x y => key_le x.1 y.1) key_le); [auto|].
      apply entries_sorted.
    + rewrite entries_perm. apply NoDup_fst_map_to_list.
    + intros k. rewrite list_elem_of_fmap. split.
      * intros ([k' p] & -> & Hin). apply elem_of_entries in Hin. eauto.
      * intros [p Hp]. exists (k, p). split; [reflexivity|].
        apply elem_of_entries. exact Hp.
  - intros tr. apply beat_no_null, Hnn.
  - intros pid status. unfold Holder.DeliverExitStatus.
    pose proof (deliver_no_null _ pid status Hnn (Containers H)) as Hd.
    destruct (Holder.deliver _ _ pid status) as [[b m]|]; [discriminate | contradiction].
Qed.

Lemma registry_ab_well_named : well_named registry_ab.
Proof.
  intros k p. unfold registry_ab. simpl.
  rewrite lookup_insert. destruct (decide ("b" = k)) as [<-|Hb].
  - intros [= <-]. eauto.
  - rewrite lookup_insert. destruct (decide ("a" = k)) as [<-|Ha].
    + intros [= <-]. eauto.
    + rewrite lookup_empty. discriminate.
Qed.

Lemma List_returns_the_sorted_names_witness :
  (exists l,
     Holder.List registry_ab = Some l /\
     Sorted key_le l /\ NoDup l /\
     forall k, k ∈ l <-> is_Some (Containers registry_ab !! k)) /\
  (forall tr, Holder.Heartbeat registry_ab tr <> None) /\
  (forall pid status, Holder.DeliverExitStatus registry_ab pid status <> None).
Proof.
  apply (List_returns_the_sorted_names registry_ab registry_ab_well_named).
Defined.

Lemma deliver_well_named (l : list (string * option TContainer))
    (pid status : Z) :
  (forall k c, (k, Some c) ∈ l -> Name c = k) ->
  forall m b m',
    (forall k p, m !! k = Some p -> exists c, p = Some c /\ Name c = k) ->
    Holder.deliver l m pid status = Some (b, m') ->
    forall k p, m' !! k = Some p -> exists c, p = Some c /\ Name c = k.
Proof.
  induction l as [|[k0 [c0|]] r IH]; intros Hl m b m' Hm; simpl.
  - intros [= <- <-]. exact Hm.
  - rewrite Container_DeliverExitStatus_claims.
    assert (Hins : forall c1, Name c1 = k0 ->
              forall k p, <[k0 := Some c1]> m !! k = Some p ->
                          exists c, p = Some c /\ Name c = k).
    { intros c1 Hn k p. rewrite lookup_insert.
      destruct (decide (k0 = k)) as [<-|Hne]; [intros [= <-]; eauto | apply Hm]. }
    destruct (claims c0 pid) eqn:Hc.
    + intros [= <- <-]. apply Hins.
      apply claims_true in Hc as (_ & t & Ht & _).
      destruct (exited_fields c0 t status Ht) as (_ & _ & Hn & _).
      rewrite Hn. apply Hl. left.
    + apply IH.
      * intros k c Hin. apply Hl. right. exact Hin.
      * apply Hins. apply Hl. left.
  - discriminate.
Qed.

(** X17: the registry keeps every entry holding a container registered
    under its own name: a successful [Create], any [Restore],
    [DeliverExitStatus] and [Destroy] preserve it. *)
Theorem registry_stays_well_named (h : Host) (H : TContainerHolder) (tr : Trace) :
  well_named H ->
  (forall name,
     (Holder.Create h H tr name).1.1 = Success ->
     well_named (Holder.Create h H tr name).1.2) /\
  (forall name node e H' tr',
     Holder.Restore h H tr name node = Some (e, H', tr') -> well_named H') /\
  (forall pid status b H',
     Holder.DeliverExitStatus H pid status = Some (b, H') -> well_named H') /\
  (forall name H' tr',
     Holder.Destroy h H tr name = Some (H', tr') -> well_named H').
Proof.
  intros Hwn. split; [|split; [|split]].
  - intros name. unfold Holder.Create, Holder.index, Container.Create, external.
    destruct (negb (Holder.ValidName name)); [discriminate|].
    destruct (Containers H !! name) as [[c|]|] eqn:Hl; simpl; try discriminate.
    + exfalso. destruct (Hwn name None Hl) as (c & Hc & _). discriminate Hc.
    + destruct (is_error (spec_Create h tr name)) eqn:E; simpl.
      * intros He. rewrite He in E. discriminate E.
      * intros _ k p. simpl. rewrite insert_insert_eq, lookup_insert.
        destruct (decide (name = k)) as [<-|Hne]; [intros [= <-]; eauto | apply Hwn].
  - intros name node e H' tr'. unfold Holder.Restore.
    destruct (Container.Restore h (new_TContainer name) tr node)
      as [[[e0 c0] tr0]|] eqn:Hr; [|discriminate].
    apply Restore_Name in Hr. simpl in Hr.
    destruct (is_error e0).
    { destruct (Container.Destroy h c0 tr0); [|discriminate].
      intros [= _ <- _]. exact Hwn. }
    intros Hres.
    assert (HH : H' = {| Containers := <[name := Some c0]> (Containers H) |}).
    { destruct (Containers H !! name) as [[old|]|].
      - destruct (Container.Destroy h old tr0); [|discriminate].
        injection Hres as _ <- _. reflexivity.
      - injection Hres as _ <- _. reflexivity.
      - injection Hres as _ <- _. reflexivity. }
    subst H'. intros k p. simpl. rewrite lookup_insert.
    destruct (decide (name = k)) as [<-|Hne]; [intros [= <-]; eauto | apply Hwn].
  - intros pid status b H'. unfold Holder.DeliverExitStatus.
    destruct (Holder.deliver _ _ pid status) as [[b0 m]|] eqn:Hd; [|discriminate].
    intros [= <- <-]. intros k p. simpl.
    eapply deliver_well_named; [|exact Hwn|exact Hd].
    intros k0 c Hin. apply elem_of_entries in Hin.
    destruct (Hwn _ _ Hin) as (c' & [= <-] & Hn). exact Hn.
  - intros name H' tr' Hd. apply Destroy_registry in Hd. subst H'.
    destruct (String.eqb name ROOT_CONTAINER); [exact Hwn|].
    intros k p. simpl. rewrite lookup_delete.
    destruct (decide (name = k)); [discriminate | apply Hwn].
Qed.

Lemma registry_stays_well_named_witness :
  well_named (Holder.Create (host_ok []) registry_ab [] "c").1.2.
Proof.
  apply (registry_stays_well_named (host_ok []) registry_ab []
           registry_ab_well_named).
  reflexivity.
Defined.

(** * Properties of paths and mount records *)

Lemma substring_all (s : string) : substring 0 (String.length s) s = s.
Proof. induction s as [|c s IH]; simpl; [reflexivity | rewrite IH; reflexivity]. Qed.

Lemma substring_prefix (P t : string) :
  substring 0 (String.length P) (P +:+ t) = P.
Proof. induction P as [|c P IH]; simpl; [destruct t|rewrite IH]; reflexivity. Qed.

Lemma length_app (P t : string) :
  String.length (P +:+ t) = (String.length P + String.length t)%nat.
Proof. induction P as [|c P IH]; simpl; [reflexivity | rewrite IH; reflexivity]. Qed.

Lemma prefix_split (P path : string) :
  substring 0 (String.length P) path = P ->
  exists t, path = P +:+ t.
Proof.
  revert path. induction P as [|c P IH]; intros path; simpl.
  - exists path. reflexivity.
  - destruct path as [|d path]; [discriminate|].
    intros [= -> H]. destruct (IH path H) as (t & ->).
    exists t. reflexivity.
Qed.

Lemma get_after_prefix (P t : string) :
  get (String.length P) (P +:+ t) = get 0 t.
Proof. induction P as [|c P IH]; simpl; [reflexivity | exact IH]. Qed.

Lemma substring_after_prefix (P t : string) (n m : nat) :
  substring (String.length P + n) m (P +:+ t) = substring n m t.
Proof. induction P as [|c P IH]; simpl; [reflexivity | exact IH]. Qed.

Lemma substr_from_prefix (P t : string) :
  substr_from (P +:+ t) (String.length P) = t.
Proof.
  unfold substr_from. rewrite length_app.
  replace (String.length P + String.length t - String.length P)%nat
    with (String.length t) by lia.
  rewrite <- (Nat.add_0_r (String.length P)) at 1.
  rewrite substring_after_prefix. apply substring_all.
Qed.

Lemma substr_from_prefix_1 (P t : string) (c : ascii) :
  substr_from (P +:+ String c t) (String.length P + 1) = t.
Proof.
  unfold substr_from. rewrite length_app. simpl.
  replace (String.length P + S (String.length t) - (String.length P + 1))%nat
    with (String.length t) by lia.
  rewrite substring_after_prefix. simpl. apply substring_all.
Qed.

Lemma app_empty_r (P : string) : P +:+ "" = P.
Proof.
  induction P as [|c P IH]; [reflexivity|].
  change (String c (P +:+ "") = String c P). rewrite IH. reflexivity.
Qed.

Lemma to_unsigned_small (n : nat) :
  (N.of_nat n < 2 ^ 32)%N -> to_unsigned n = n.
Proof.
  intros H. unfold to_unsigned. rewrite N.mod_small by exact H.
  apply Nat2N.id.
Qed.

(** X18: [InnerPath] of a base other than the empty path and "/" (and
    shorter than 2^32 - 1 characters) answers by components.  For the base
    itself it gives "/" or "."; for the base followed by "/" and a rest it
    gives "/" and the rest, or the rest alone, so that a trailing "/" alone
    gives the empty path in the relative form; for any other path, a
    sibling that merely extends the last component included, it gives the
    empty path. *)
Theorem InnerPath_by_components (Path path : string) (absolute : bool) :
  (N.of_nat (String.length Path) < 2 ^ 32 - 1)%N ->
  Path <> "" -> Path <> "/" ->
  (path = Path ->
   TPath.InnerPath Path path absolute = if absolute then "/" else ".") /\
  (forall rest, path = Path +:+ "/" +:+ rest ->
   TPath.InnerPath Path path absolute =
     if absolute then "/" +:+ rest else rest) /\
  (path <> Path -> (forall rest, path <> Path +:+ "/" +:+ rest) ->
   TPath.InnerPath Path path absolute = "").
Proof.
  intros Hlen Hne Hnr.
  assert (Hu : to_unsigned (String.length Path) = String.length Path)
    by (apply to_unsigned_small; lia).
  assert (Hu1 : to_unsigned (String.length Path + 1) = (String.length Path + 1)%nat).
  { apply to_unsigned_small. lia. }
  assert (Hpos : (String.length Path =? 0)%nat = false).
  { apply Nat.eqb_neq. destruct Path; [contradiction | discriminate]. }
  assert (Hslash :
    ((String.length Path =? 1)%nat
     && match get 0 Path with Some c => Ascii.eqb c "/" | None => false end)
    = false).
  { destruct Path as [|c [|d P]]; simpl; try reflexivity.
    destruct (Ascii.eqb_spec c "/") as [->|]; [contradiction | reflexivity]. }
  unfold TPath.InnerPath. rewrite Hu, Hpos, Hslash. simpl. rewrite Hu1.
  split; [|split].
  - intros ->. rewrite substring_all, String.eqb_refl, Nat.eqb_refl. reflexivity.
  - intros rest ->. rewrite substring_prefix, String.eqb_refl. simpl.
    rewrite length_app. simpl.
    replace (_ =? _)%nat with false by (symmetry; apply Nat.eqb_neq; lia).
    rewrite get_after_prefix. simpl.
    destruct absolute.
    + apply substr_from_prefix.
    + apply substr_from_prefix_1.
  - intros Hneq Hno.
    destruct (String.eqb (substring 0 (String.length Path) path) Path) eqn:E;
      [|reflexivity].
    apply String.eqb_eq, prefix_split in E as (t & ->). simpl.
    rewrite length_app.
    destruct t as [|c t].
    { exfalso. apply Hneq, app_empty_r. }
    simpl. replace (_ =? _)%nat with false by (symmetry; apply Nat.eqb_neq; lia).
    rewrite get_after_prefix. simpl.
    destruct (Ascii.eqb_spec c "/") as [->|]; [|reflexivity].
    exfalso. apply (Hno t). reflexivity.
Qed.

Lemma InnerPath_by_components_witness :
  TPath.InnerPath "/root" "/root/foo" true = "/foo" /\
  TPath.InnerPath "/root" "/root/" false = "" /\
  TPath.InnerPath "/root" "/rootfoo" true = "".
Proof.
  assert (Hlen : (N.of_nat (String.length "/root") < 2 ^ 32 - 1)%N)
    by (vm_compute; reflexivity).
  assert (Hne : "/root" <> "") by discriminate.
  assert (Hnr : "/root" <> "/") by discriminate.
  split; [|split].
  - apply (InnerPath_by_components "/root" "/root/foo" true Hlen Hne Hnr).
    reflexivity.
  - apply (proj1 (proj2
             (InnerPath_by_components "/root" "/root/" false Hlen Hne Hnr)) "").
    reflexivity.
  - apply (InnerPath_by_components "/root" "/rootfoo" true Hlen Hne Hnr).
    + discriminate.
    + intros rest. discriminate.
Defined.

(** X19: with the base "/", [InnerPath] gives every absolute path other
    than "/" itself back in the absolute form and without its leading "/"
    in the relative form, "/" or "." for "/" itself, and the empty path for
    a path that is not absolute. *)
Theorem InnerPath_of_root (path : string) (absolute : bool) :
  (path = "/" ->
   TPath.InnerPath "/" path absolute = if absolute then "/" else ".") /\
  (forall rest, rest <> "" -> path = "/" +:+ rest ->
   TPath.InnerPath "/" path absolute = if absolute then path else rest) /\
  (get 0 path <> Some "/"%char -> TPath.InnerPath "/" path absolute = "").
Proof.
  unfold TPath.InnerPath. split; [|split].
  - intros ->. reflexivity.
  - intros rest Hrest ->. destruct rest as [|c rest]; [contradiction|].
    destruct absolute.
    + change (TPath.InnerPath "/" (String "/" (String c rest)) true)
        with (substring 0 (S (S (String.length rest))) (String "/" (String c rest))).
      apply (substring_all (String "/" (String c rest))).
    + change (TPath.InnerPath "/" (String "/" (String c rest)) false)
        with (substring 0 (S (String.length rest)) (String c rest)).
      apply (substring_all (String c rest)).
  - intros Hget. destruct path as [|c path]; [reflexivity|].
    simpl in Hget.
    change (to_unsigned (String.length "/")) with 1%nat. simpl.
    destruct path;
      (destruct (Ascii.eqb_spec c "/") as [->|Hc];
       [exfalso; apply Hget; reflexivity|]);
      simpl; destruct (String.eqb_spec (String c "") "/") as [E|E];
      try (injection E as ->; contradiction); reflexivity.
Qed.

Lemma InnerPath_of_root_witness :
  TPath.InnerPath "/" "/usr/lib" true = "/usr/lib" /\
  TPath.InnerPath "/" "/usr/lib" false = "usr/lib" /\
  TPath.InnerPath "/" "usr" true = "".
Proof.
  split; [|split].
  - apply (proj1 (proj2 (InnerPath_of_root "/usr/lib" true)) "usr/lib");
      [discriminate | reflexivity].
  - apply (proj1 (proj2 (InnerPath_of_root "/usr/lib" false)) "usr/lib");
      [discriminate | reflexivity].
  - apply (InnerPath_of_root "usr" true). discriminate.
Defined.

(** The last occurrence of a character splits the string around it, and
    the part after it is free of the character. *)
Lemma rfind_split (ch : ascii) (s : string) (i : nat) :
  rfind ch s = Some i ->
  s = substring 0 i s +:+ String ch (substr_from s (S i)) /\
  rfind ch (substr_from s (S i)) = None /\
  (i < String.length s)%nat.
Proof.
  revert i. induction s as [|c s IH]; intros i; simpl; [discriminate|].
  destruct (rfind ch s) as [j|] eqn:Hr.
  - intros [= <-]. destruct (IH j eq_refl) as (Hs & Hn & Hl).
    unfold substr_from in *. simpl.
    split; [|split; [exact Hn | lia]].
    change (String c s = String c (substring 0 j s +:+
              String ch (substring (S j) (String.length s - S j) s))).
    rewrite <- Hs. reflexivity.
  - destruct (Ascii.eqb_spec c ch) as [->|]; [|discriminate].
    intros [= <-]. unfold substr_from. simpl. rewrite Nat.sub_0_r, substring_all.
    split; [reflexivity|]. split; [exact Hr | lia].
Qed.

Lemma rfind_None_length_1 (s : string) :
  rfind "/" s <> None -> String.length s = 1%nat -> s = "/".
Proof.
  destruct s as [|c [|d s]]; simpl; intros Hr Hl; try discriminate Hl.
  destruct (Ascii.eqb_spec c "/") as [Hc|Hc];
    [subst c; reflexivity | exfalso; apply Hr; reflexivity].
Qed.

(** X20: [DirNameNormal] and [BaseNameNormal] split a path at its last "/".
    Without a "/" the base name is the path and the directory is "." (empty
    for the empty path).  Otherwise, for a path other than "/", the path is
    the part before the last "/", the "/" and the base name; the base name
    has no "/"; and the directory is that first part, or "/" when the only
    "/" leads.  For "/" both are "/". *)
Theorem DirName_BaseName_split (Path : string) :
  (rfind "/" Path = None ->
   TPath.BaseNameNormal Path = Path /\
   TPath.DirNameNormal Path = if String.eqb Path "" then "" else ".") /\
  (forall sep, rfind "/" Path = Some sep -> Path <> "/" ->
   Path = substring 0 sep Path +:+ "/" +:+ TPath.BaseNameNormal Path /\
   rfind "/" (TPath.BaseNameNormal Path) = None /\
   TPath.DirNameNormal Path =
     if (sep =? 0)%nat then "/" else substring 0 sep Path) /\
  (TPath.BaseNameNormal "/" = "/" /\ TPath.DirNameNormal "/" = "/").
Proof.
  unfold TPath.BaseNameNormal, TPath.DirNameNormal.
  split; [|split; [|split; reflexivity]].
  - intros ->. split; [reflexivity|]. destruct Path; reflexivity.
  - intros sep Hr Hnr. rewrite Hr.
    destruct (String.length Path =? 1)%nat eqn:E1.
    { exfalso. apply Hnr, rfind_None_length_1; [congruence|].
      apply Nat.eqb_eq, E1. }
    destruct (rfind_split _ _ _ Hr) as (Hs & Hn & _).
    rewrite Nat.add_1_r. split; [exact Hs|]. split; [exact Hn|].
    destruct sep; reflexivity.
Qed.

Lemma DirName_BaseName_split_witness :
  "/usr/lib/porto" =
    substring 0 8 "/usr/lib/porto" +:+ "/" +:+ TPath.BaseNameNormal "/usr/lib/porto" /\
  rfind "/" (TPath.BaseNameNormal "/usr/lib/porto") = None /\
  TPath.DirNameNormal "/usr/lib/porto" = "/usr/lib" /\
  TPath.BaseNameNormal "porto" = "porto" /\ TPath.DirNameNormal "porto" = ".".
Proof.
  destruct (DirName_BaseName_split "/usr/lib/porto") as (_ & Hsplit & _).
  destruct (Hsplit 8%nat eq_refl) as (H1 & H2 & H3); [discriminate|].
  destruct (DirName_BaseName_split "porto") as (Hplain & _).
  destruct (Hplain eq_refl) as (H4 & H5).
  split; [exact H1|]. split; [exact H2|]. split; [exact H3|].
  split; [exact H4 | exact H5].
Defined.

(** ** Demangle *)

Lemma Demangle_other (c : ascii) (s : string) :
  c <> "\"%char ->
  TMount.Demangle (String c s) = String c (TMount.Demangle s).
Proof.
  intros Hc. simpl. destruct s as [|a [|b [|d s]]]; try reflexivity.
  destruct (Ascii.eqb_spec c "\") as [->|]; [contradiction | reflexivity].
Qed.

(** X21: [Demangle] undoes the escaping of mountinfo: a field in which
    space, tab, newline and backslash were written as a backslash and three
    octal digits is decoded to the original text. *)
Theorem Demangle_undoes_mangle (s : string) :
  TMount.Demangle (mangle s) = s.
Proof.
  induction s as [|c s IH]; [reflexivity|].
  change (mangle (String c s)) with (mangle_char c +:+ mangle s).
  unfold mangle_char.
  destruct (Ascii.eqb_spec c " ") as [->|H1].
  { change (TMount.Demangle ("\040" +:+ mangle s))
      with (String " " (TMount.Demangle (mangle s))).
    rewrite IH. reflexivity. }
  destruct (Ascii.eqb_spec c "009") as [->|H2].
  { change (TMount.Demangle ("\011" +:+ mangle s))
      with (String "009" (TMount.Demangle (mangle s))).
    rewrite IH. reflexivity. }
  destruct (Ascii.eqb_spec c "010") as [->|H3].
  { change (TMount.Demangle ("\012" +:+ mangle s))
      with (String "010" (TMount.Demangle (mangle s))).
    rewrite IH. reflexivity. }
  destruct (Ascii.eqb_spec c "\") as [->|H4].
  { change (TMount.Demangle ("\134" +:+ mangle s))
      with (String "\" (TMount.Demangle (mangle s))).
    rewrite IH. reflexivity. }
  change (String c "" +:+ mangle s) with (String c (mangle s)).
  rewrite Demangle_other by exact H4. rewrite IH. reflexivity.
Qed.

Lemma octal_backslash : TMount.octal "\" = false.
Proof. reflexivity. Qed.

(** [Demangle] never reads an escape across a backslash: the text before a
    backslash is decoded on its own. *)
Lemma Demangle_before_backslash (n : nat) :
  forall p r : string,
    (String.length p <= n)%nat ->
    TMount.Demangle (p +:+ String "\" r) =
      TMount.Demangle p +:+ TMount.Demangle (String "\" r).
Proof.
  induction n as [|n IH]; intros p r Hn.
  - destruct p; [reflexivity | cbn [String.length] in Hn; lia].
  - destruct p as [|c0 [|a [|b [|c q]]]].
    + reflexivity.
    + change (String c0 "" +:+ String "\" r) with (String c0 (String "\" r)).
      change (TMount.Demangle (String c0 "")) with (String c0 "").
      change (String c0 "" +:+ TMount.Demangle (String "\" r))
        with (String c0 (TMount.Demangle (String "\" r))).
      destruct r as [|x [|y r]]; try reflexivity.
      change (TMount.Demangle (String c0 (String "\" (String x (String y r)))))
        with (if Ascii.eqb c0 "\" && TMount.octal "\" && TMount.octal x
                 && TMount.octal y
              then String (TMount.escaped "\" x y) (TMount.Demangle r)
              else String c0 (TMount.Demangle (String "\" (String x (String y r))))).
      rewrite octal_backslash, andb_false_r. reflexivity.
    + change (String c0 (String a "") +:+ String "\" r)
        with (String c0 (String a (String "\" r))).
      change (TMount.Demangle (String c0 (String a ""))) with (String c0 (String a "")).
      destruct r as [|x r].
      * reflexivity.
      * change (TMount.Demangle (String c0 (String a (String "\" (String x r)))))
          with (if Ascii.eqb c0 "\" && TMount.octal a && TMount.octal "\"
                   && TMount.octal x
                then String (TMount.escaped a "\" x) (TMount.Demangle r)
                else String c0 (TMount.Demangle (String a (String "\" (String x r))))).
        rewrite octal_backslash, andb_false_r. simpl andb. cbv iota.
        change (String a (String "\" (String x r)))
          with (String a "" +:+ String "\" (String x r)).
        rewrite (IH (String a "") (String x r)) by (cbn [String.length] in Hn |- *; lia).
        reflexivity.
    + change (String c0 (String a (String b "")) +:+ String "\" r)
        with (String c0 (String a (String b (String "\" r)))).
      change (TMount.Demangle (String c0 (String a (String b (String "\" r)))))
        with (if Ascii.eqb c0 "\" && TMount.octal a && TMount.octal b
                 && TMount.octal "\"
              then String (TMount.escaped a b "\") (TMount.Demangle r)
              else String c0 (TMount.Demangle (String a (String b (String "\" r))))).
      rewrite octal_backslash, andb_false_r.
      change (String a (String b (String "\" r)))
        with (String a (String b "") +:+ String "\" r).
      rewrite (IH (String a (String b "")) r) by (cbn [String.length] in Hn |- *; lia).
      reflexivity.
    + change (String c0 (String a (String b (String c q))) +:+ String "\" r)
        with (String c0 (String a (String b (String c (q +:+ String "\" r))))).
      change (TMount.Demangle
                (String c0 (String a (String b (String c (q +:+ String "\" r))))))
        with (if Ascii.eqb c0 "\" && TMount.octal a && TMount.octal b
                 && TMount.octal c
              then String (TMount.escaped a b c)
                     (TMount.Demangle (q +:+ String "\" r))
              else String c0
                     (TMount.Demangle
                        (String a (String b (String c (q +:+ String "\" r)))))).
      change (TMount.Demangle (String c0 (String a (String b (String c q)))))
        with (if Ascii.eqb c0 "\" && TMount.octal a && TMount.octal b
                 && TMount.octal c
              then String (TMount.escaped a b c) (TMount.Demangle q)
              else String c0
                     (TMount.Demangle (String a (String b (String c q))))).
      destruct (Ascii.eqb c0 "\" && TMount.octal a && TMount.octal b
                && TMount.octal c).
      * rewrite (IH q r) by (cbn [String.length] in Hn |- *; lia). reflexivity.
      * change (String a (String b (String c (q +:+ String "\" r))))
          with (String a (String b (String c q)) +:+ String "\" r).
        rewrite (IH (String a (String b (String c q))) r) by (cbn [String.length] in Hn |- *; lia).
        reflexivity.
Qed.

(** X22: an escape, a backslash followed by three octal digits, decodes to
    the character the digits spell, modulo 256, wherever it stands in the
    text: the text before it and the text after it are decoded on their
    own.  A text without a backslash is left as it is. *)
Theorem Demangle_decodes_octal (pre rest : string) (a b c : ascii) :
  (TMount.octal a = true -> TMount.octal b = true -> TMount.octal c = true ->
   TMount.Demangle (pre +:+ String "\" (String a (String b (String c rest)))) =
     TMount.Demangle pre +:+
     String (ascii_of_N
               ((64 * (N_of_ascii a - 48) + 8 * (N_of_ascii b - 48)
                 + (N_of_ascii c - 48)) mod 256))
            (TMount.Demangle rest)) /\
  (rfind "\" rest = None -> TMount.Demangle rest = rest).
Proof.
  split.
  - intros Ha Hb Hc.
    rewrite (Demangle_before_backslash (String.length pre) pre _ (le_n _)).
    f_equal. simpl. rewrite Ha, Hb, Hc. simpl. f_equal.
    revert Ha Hb Hc.
    destruct a as [[] [] [] [] [] [] [] []]; try discriminate;
      destruct b as [[] [] [] [] [] [] [] []]; try discriminate;
      destruct c as [[] [] [] [] [] [] [] []]; try discriminate;
      intros _ _ _; vm_compute; reflexivity.
  - induction rest as [|d rest IH]; [reflexivity|].
    intros Hr. simpl in Hr.
    destruct (rfind "\" rest) eqn:E; [discriminate|].
    destruct (Ascii.eqb_spec d "\") as [->|Hd]; [discriminate|].
    rewrite Demangle_other by exact Hd. rewrite IH by reflexivity. reflexivity.
Qed.

Lemma Demangle_decodes_octal_witness :
  TMount.Demangle "/mnt/my\040disk" = "/mnt/my disk" /\
  TMount.Demangle "/mnt/a\\040b" = "/mnt/a\ b" /\
  TMount.Demangle "/mnt/plain" = "/mnt/plain".
Proof.
  split; [|split].
  - exact (proj1 (Demangle_decodes_octal "/mnt/my" "disk" "0" "4" "0")
             eq_refl eq_refl eq_refl).
  - exact (proj1 (Demangle_decodes_octal "/mnt/a\" "b" "0" "4" "0")
             eq_refl eq_refl eq_refl).
  - apply (Demangle_decodes_octal "" "/mnt/plain" "0" "0" "0"). reflexivity.
Defined.

(** ** WaitDeadline *)

(** The sleep of [WaitDeadline] while the deadline has not passed. *)
Lemma WaitDeadline_pending (now deadline wait : Z) :
  0 <= now < 2 ^ 64 -> 0 <= deadline < 2 ^ 64 -> 0 <= wait < 2 ^ 64 ->
  deadline <> 0 -> now <= deadline -> deadline - now < 2 ^ 63 ->
  WaitDeadline now deadline wait =
    (false,
     if Z.min wait (deadline - now) =? 0 then None
     else Some ((Z.min wait (deadline - now) * 1000) mod 2 ^ 32)).
Proof.
  unfold WaitDeadline, int64, uint64, useconds.
  change (2 ^ 64) with 18446744073709551616.
  change (2 ^ 63) with 9223372036854775808.
  change (2 ^ 32) with 4294967296.
  intros Hnow Hdl Hwait Hnz Hle Hnear.
  assert (Htrunc : forall z,
            (z mod 18446744073709551616) mod 4294967296 = z mod 4294967296).
  { intros z. apply Z.mod_mod_divide. exists 4294967296. reflexivity. }
  replace (deadline =? 0) with false by (symmetry; apply Z.eqb_neq; exact Hnz).
  simpl.
  rewrite !(Z.mod_small (deadline - now)) by lia.
  replace (deadline - now <? 9223372036854775808) with true
    by (symmetry; apply Z.ltb_lt; lia).
  replace (deadline - now <? 0) with false
    by (symmetry; apply Z.ltb_ge; lia).
  destruct (deadline - now <? wait) eqn:E.
  - apply Z.ltb_lt in E.
    assert (Hmin : Z.min wait (deadline - now) = deadline - now) by lia.
    rewrite Hmin.
    destruct (deadline - now =? 0) eqn:E0; simpl; [reflexivity|].
    rewrite Htrunc. reflexivity.
  - apply Z.ltb_ge in E.
    assert (Hmin : Z.min wait (deadline - now) = wait) by lia.
    rewrite Hmin.
    destruct (wait =? 0) eqn:E0; simpl; [reflexivity|].
    rewrite Htrunc. reflexivity.
Qed.

(** X23: [WaitDeadline] returns true without sleeping when no deadline is
    set and once the clock has passed the deadline, by at most 2^63 ms.
    With a deadline that is not yet passed and less than 2^63 ms ahead it
    returns false and, unless the shorter of [wait] and the time left is
    zero, sleeps once: the argument of [usleep] is that time in
    microseconds modulo 2^32, so it is the time itself only as long as that
    is below 2^32 microseconds. *)
Theorem WaitDeadline_sleeps_within_deadline (now deadline wait : Z) :
  0 <= now < 2 ^ 64 -> 0 <= deadline < 2 ^ 64 -> 0 <= wait < 2 ^ 64 ->
  (deadline = 0 -> WaitDeadline now deadline wait = (true, None)) /\
  (deadline <> 0 -> deadline < now -> now - deadline <= 2 ^ 63 ->
   WaitDeadline now deadline wait = (true, None)) /\
  (deadline <> 0 -> now <= deadline -> deadline - now < 2 ^ 63 ->
   WaitDeadline now deadline wait =
     (false,
      if Z.min wait (deadline - now) =? 0 then None
      else Some ((Z.min wait (deadline - now) * 1000) mod 2 ^ 32))) /\
  (deadline <> 0 -> now <= deadline -> deadline - now < 2 ^ 63 ->
   0 < Z.min wait (deadline - now) ->
   Z.min wait (deadline - now) * 1000 < 2 ^ 32 ->
   WaitDeadline now deadline wait =
     (false, Some (Z.min wait (deadline - now) * 1000))).
Proof.
  intros Hnow Hdl Hwait. split; [|split; [|split]].
  - intros ->. reflexivity.
  - unfold WaitDeadline, int64, uint64, useconds.
    change (2 ^ 64) with 18446744073709551616 in *.
    change (2 ^ 63) with 9223372036854775808.
    intros Hnz Hlt Hfar.
    replace (deadline =? 0) with false by (symmetry; apply Z.eqb_neq; exact Hnz).
    simpl.
    assert (Hm : (deadline - now) mod 18446744073709551616 =
                 deadline - now + 18446744073709551616).
    { symmetry. apply Z.mod_unique with (q := -1); lia. }
    rewrite Hm.
    rewrite (Z.mod_small (deadline - now + 18446744073709551616)) by lia.
    replace (deadline - now + 18446744073709551616 <? 9223372036854775808)
      with false by (symmetry; apply Z.ltb_ge; lia).
    replace (deadline - now + 18446744073709551616 - 18446744073709551616 <? 0)
      with true by (symmetry; apply Z.ltb_lt; lia).
    reflexivity.
  - intros Hnz Hle Hnear. apply WaitDeadline_pending; assumption.
  - intros Hnz Hle Hnear Hpos Hfit.
    rewrite WaitDeadline_pending by assumption.
    replace (Z.min wait (deadline - now) =? 0) with false
      by (symmetry; apply Z.eqb_neq; lia).
    rewrite Z.mod_small; [reflexivity|].
    split; [lia | exact Hfit].
Qed.

Lemma WaitDeadline_sleeps_within_deadline_witness :
  WaitDeadline 1000 1250 100 = (false, Some 100000) /\
  WaitDeadline 1200 1250 100 = (false, Some 50000) /\
  WaitDeadline 1000 10000000 5000000 = (false, Some 705032704) /\
  WaitDeadline 1250 1250 100 = (false, None) /\
  WaitDeadline 1300 1250 100 = (true, None).
Proof.
  split; [|split; [|split; [|split]]].
  - apply (WaitDeadline_sleeps_within_deadline 1000 1250 100); lia.
  - apply (WaitDeadline_sleeps_within_deadline 1200 1250 100); lia.
  - apply (proj1 (proj2 (proj2
             (WaitDeadline_sleeps_within_deadline 1000 10000000 5000000
                ltac:(lia) ltac:(lia) ltac:(lia)))));
      lia.
  - apply (proj1 (proj2 (proj2
             (WaitDeadline_sleeps_within_deadline 1250 1250 100
                ltac:(lia) ltac:(lia) ltac:(lia)))));
      lia.
  - apply (WaitDeadline_sleeps_within_deadline 1300 1250 100); lia.
Defined.

(** * Further properties of the data readback and the leaves *)

(** X24: a failing usage read does not fail [GetData]: on a container that
    is Running, Paused or Dead, ROOT included, [cpu_usage] and
    [memory_usage] always succeed, with the usage of the container's cpuacct
    or memory leaf, or with -1 when the subsystem cannot read it. *)
Theorem usage_error_reads_as_minus_one (h : Host) (c : TContainer) (tr : Trace) :
  State c <> Stopped ->
  Container.GetData h c tr "cpu_usage" =
    (Success,
     Some (let r := ss_Usage h tr (Container.GetLeafCgroup c CpuacctSubsystem) in
           if is_error r.1 then "-1" else to_string r.2), c) /\
  Container.GetData h c tr "memory_usage" =
    (Success,
     Some (let r := ss_Usage h tr (Container.GetLeafCgroup c MemorySubsystem) in
           if is_error r.1 then "-1" else to_string r.2), c).
Proof.
  intros Hs. unfold Container.GetData.
  assert (Hin : bool_decide (State c ∈ [Running; Paused; Dead]) = true).
  { apply bool_decide_eq_true. destruct (State c); [contradiction|..].
    - do 2 right. left.
    - left.
    - right. left. }
  split.
  - change (Container.DataSpec !! "cpu_usage") with
      (Some {| Container.Description := "return consumed CPU time in nanoseconds";
               Container.RootValid := true;
               Container.Handler := Container.TData.CpuUsage;
               Container.Valid := [Running; Paused; Dead] |}).
    simpl. rewrite andb_false_r, Hin. simpl.
    unfold Container.TData.CpuUsage. destruct (ss_Usage h tr _). reflexivity.
  - change (Container.DataSpec !! "memory_usage") with
      (Some {| Container.Description := "return consumed memory in bytes";
               Container.RootValid := true;
               Container.Handler := Container.TData.MemUsage;
               Container.Valid := [Running; Paused; Dead] |}).
    simpl. rewrite andb_false_r, Hin. simpl.
    unfold Container.TData.MemUsage. destruct (ss_Usage h tr _). reflexivity.
Qed.

Lemma usage_error_reads_as_minus_one_witness :
  let h := with_ss_Usage (host_ok [42]) (fun _ _ => (Failure Unknown "read", 0)) in
  Container.GetData h (running42 "a") [] "cpu_usage" =
    (Success, Some "-1", running42 "a") /\
  Container.GetData (host_ok [42]) (running42 "a") [] "memory_usage" =
    (Success, Some "7", running42 "a").
Proof.
  split.
  - apply (usage_error_reads_as_minus_one
             (with_ss_Usage (host_ok [42]) (fun _ _ => (Failure Unknown "read", 0)))
             (running42 "a") []). discriminate.
  - apply (usage_error_reads_as_minus_one (host_ok [42]) (running42 "a") []).
    discriminate.
Defined.

(** X25: containers with different names never share a leaf.  As long as a
    subsystem is not bound in LeafCgroups, the leaf [GetLeafCgroup] computes
    is [porto] for ROOT and [porto/<name>] for any other container, in the
    subsystem asked for, so two containers get the same leaf only if they
    have the same name. *)
Theorem leaves_are_separate (c1 c2 : TContainer) (s : TSubsystem) :
  LeafCgroups c1 !! s = None -> LeafCgroups c2 !! s = None ->
  (Container.GetLeafCgroup c1 s =
     {| CgSubsystem := s;
        CgPath := if Container.IsRoot c1 then [PORTO_ROOT_CGROUP]
                  else [PORTO_ROOT_CGROUP; Name c1] |}) /\
  (Container.GetLeafCgroup c1 s = Container.GetLeafCgroup c2 s ->
   Name c1 = Name c2).
Proof.
  intros H1 H2. unfold Container.GetLeafCgroup, Container.IsRoot.
  rewrite H1, H2. split.
  - destruct (String.eqb (Name c1) ROOT_CONTAINER); reflexivity.
  - destruct (String.eqb_spec (Name c1) ROOT_CONTAINER) as [E1|E1];
      destruct (String.eqb_spec (Name c2) ROOT_CONTAINER) as [E2|E2];
      unfold GetChild, GetRootCgroup; simpl; intros Hp; congruence.
Qed.

Lemma leaves_are_separate_witness :
  Container.GetLeafCgroup (new_TContainer "a") FreezerSubsystem =
    {| CgSubsystem := FreezerSubsystem; CgPath := ["porto"; "a"] |} /\
  Container.GetLeafCgroup root FreezerSubsystem =
    {| CgSubsystem := FreezerSubsystem; CgPath := ["porto"] |}.
Proof.
  split.
  - apply (leaves_are_separate (new_TContainer "a") root FreezerSubsystem);
      reflexivity.
  - apply (leaves_are_separate root (new_TContainer "a") FreezerSubsystem);
      reflexivity.
Defined.

(** ** The destructor *)

(** X26: the destructor of a Paused container other than ROOT first resumes
    it.  When the unfreeze works and the task is running it then stops the
    container: [KillAll], then the acknowledgement of the task's pid.  When
    the unfreeze fails the container stays Paused, [Stop] rejects it, and
    the destructor ends without sending any signal. *)
Theorem destructor_of_Paused (h : Host) (c : TContainer) (tr : Trace)
    (t : TTask) :
  let cg := Container.GetLeafCgroup c FreezerSubsystem in
  Container.IsRoot c = false ->
  State c = Paused ->
  Task c = Some t ->
  (is_error (ss_Unfreeze h tr cg) = false -> IsRunning t = true ->
   Container.Destroy h c tr =
     Some ((Container.KillAll h (set_State c Running) (tr ++ [EvUnfreeze cg])).2
             ++ [EvAckExitStatus (Pid t)])) /\
  (is_error (ss_Unfreeze h tr cg) = true ->
   Container.Destroy h c tr = Some (tr ++ [EvUnfreeze cg])).
Proof.
  intros cg Hroot Hs Ht.
  assert (Hrec : Container.reconcile c = c)
    by (apply reconcile_fresh; rewrite Hs; discriminate).
  unfold Container.Destroy, Container.Resume, Container.CheckState, external.
  rewrite Hs, Hrec, Hs. simpl. fold cg. split.
  - intros Hok Hrun. rewrite Hok.
    rewrite (Stop_always_stops h (set_State c Running) (tr ++ [EvUnfreeze cg]) t);
      auto.
  - intros Herr. rewrite Herr.
    unfold Container.Stop, Container.CheckState.
    rewrite Hroot, Hrec, Hs. simpl. rewrite Hrec, Hs. reflexivity.
Qed.

Lemma destructor_of_Paused_witness :
  let cg := Container.GetLeafCgroup (paused42 "p") FreezerSubsystem in
  Container.Destroy (host_ok [42]) (paused42 "p") [] =
    Some [EvUnfreeze cg; EvKill cg SIGTERM; EvSleepWhile cg; EvFreeze cg;
          EvKill cg SIGKILL; EvUnfreeze cg; EvAckExitStatus 42].
Proof.
  apply (destructor_of_Paused (host_ok [42]) (paused42 "p") [] task42);
    reflexivity.
Defined.

(** * Further properties of Restore and of names *)

Lemma Start_from_Stopped_state (h : Host) (c c' : TContainer) (tr tr' : Trace)
    (e : TError) :
  State c = Stopped ->
  Container.Start h c tr = Some (e, c', tr') ->
  State c' = Stopped \/ State c' = Running.
Proof.
  intros Hs. rewrite Start_from_Stopped by exact Hs.
  unfold Container.Start_gated.
  rewrite CheckState_Stopped by exact Hs. simpl.
  destruct (Container.PrepareCgroups h _ tr) as [[e1 c1] tr1] eqn:Hp.
  apply PrepareCgroups_inv in Hp as (_ & Hs1 & _ & _ & _ & _). simpl in Hs1.
  destruct (is_error e1). { intros [= <- <- <-]. left. congruence. }
  destruct (Container.IsRoot c1). { intros [= <- <- <-]. right. reflexivity. }
  destruct (_ =? _)%nat. { intros [= <- <- <-]. left. congruence. }
  unfold Container.PrepareTask.
  destruct (is_error (taskenv_Prepare h tr1 _)) eqn:Et; rewrite ?Et.
  { intros [= <- <- <-]. left. congruence. }
  simpl. unfold external. destruct (task_Start h tr1 _) as [e2 t2].
  destruct (is_error e2); intros [= <- <- <-]; simpl;
    [left; congruence | right; reflexivity].
Qed.

(** The state in which [Restore] ends. *)
Lemma Restore_final_state (h : Host) (c c' : TContainer)
    (tr tr' : Trace) (e : TError) (node : TNode) :
  is_error (spec_Restore h tr (Name c) node).1 = false ->
  Container.Restore h c tr node = Some (e, c', tr') ->
  (State c' = Stopped \/ State c' = Running) /\
  (is_error e = true -> State c' = Stopped).
Proof.
  unfold Container.Restore.
  destruct (spec_Restore h tr (Name c) node) as [e0 spec]. simpl.
  intros ->.
  destruct (let '(error, pidStr) := Spec_GetInternal _ _ in _) as [pid|].
  - destruct (Container.PrepareCgroups h _ tr) as [[e1 c1] tr1] eqn:Hp.
    apply PrepareCgroups_inv in Hp as (_ & Hs1 & _ & _ & _ & _). simpl in Hs1.
    destruct (is_error e1). { intros [= <- <- <-]. auto. }
    unfold Container.PrepareTask.
    destruct (is_error (taskenv_Prepare h tr1 _)) eqn:Et; rewrite ?Et.
    { intros [= <- <- <-]. auto. }
    simpl. unfold external. destruct (task_Restore h tr1 _ _) as [e2 t2].
    destruct (is_error e2) eqn:E2.
    + destruct (Container.KillAll h _ _). intros [= <- <- <-]. simpl. auto.
    + destruct (IsRunning t2); simpl; intros [= <- <- <-]; simpl;
        (split; [auto | discriminate]).
  - destruct (Container.IsAlive h _ tr).
    + destruct (Container.KillAll h _ tr) as [e1 tr1]. intros Hstart.
      split.
      * eapply Start_from_Stopped_state; [|exact Hstart]. reflexivity.
      * eapply failed_Start_stays_Stopped; [|exact Hstart]. reflexivity.
    + destruct (Container.KillAll h _ tr). intros [= <- <- <-].
      split; [left; reflexivity | discriminate].
Qed.

(** X27: once the Spec has been read, [Restore] ends with the container
    Stopped or Running, never Paused or Dead, whatever state it entered in;
    and whenever it returns an error the container is Stopped. *)
Theorem Restore_ends_Stopped_or_Running (h : Host) (c c' : TContainer)
    (tr tr' : Trace) (e : TError) (node : TNode) :
  is_error (spec_Restore h tr (Name c) node).1 = false ->
  Container.Restore h c tr node = Some (e, c', tr') ->
  (State c' = Stopped \/ State c' = Running) /\
  (is_error e = true -> State c' = Stopped).
Proof.
  intros Hspec Hr.
  destruct (Restore_final_state _ _ _ _ _ _ _ Hspec Hr) as (Hstate & Herr).
  split; [exact Hstate | exact Herr].
Qed.

Lemma Restore_ends_Stopped_or_Running_witness :
  exists e c' tr',
    Container.Restore (host_ok [42]) (paused42 "f") [] node42 = Some (e, c', tr') /\
    (State c' = Stopped \/ State c' = Running) /\
    (is_error e = true -> State c' = Stopped).
Proof.
  destruct (Container.Restore (host_ok [42]) (paused42 "f") [] node42)
    as [[[e c'] tr']|] eqn:Hr; [|discriminate Hr].
  exists e, c', tr'. split; [reflexivity|].
  apply (Restore_ends_Stopped_or_Running (host_ok [42]) (paused42 "f") c' [] tr'
           e node42); [reflexivity | exact Hr].
Defined.

(** X28: the registry's [Restore] touches only the entry of the name.  When
    the container cannot be restored the registry is returned as it was;
    otherwise the result is success and the restored container, which
    carries the name, stands under it, replacing whatever stood there. *)
Theorem Holder_Restore_registers (h : Host) (H H' : TContainerHolder)
    (tr tr' : Trace) (e : TError) (name : string) (node : TNode) :
  Holder.Restore h H tr name node = Some (e, H', tr') ->
  (forall k, k <> name -> Containers H' !! k = Containers H !! k) /\
  (is_error e = true -> H' = H) /\
  (is_error e = false ->
   e = Success /\
   exists c, Holder.Get H' name = Some c /\ Name c = name /\
             (State c = Stopped \/ State c = Running)).
Proof.
  unfold Holder.Restore.
  destruct (Container.Restore h (new_TContainer name) tr node)
    as [[[e0 c0] tr0]|] eqn:Hr; [|discriminate].
  pose proof (Restore_Name _ _ _ _ _ _ _ Hr) as Hn. simpl in Hn.
  destruct (is_error e0) eqn:E0.
  { destruct (Container.Destroy h c0 tr0); [|discriminate].
    intros [= <- <- _]. split; [reflexivity|]. split; [reflexivity|].
    intros He. rewrite He in E0. discriminate E0. }
  intros Hres.
  assert (HH : e = Success /\
               H' = {| Containers := <[name := Some c0]> (Containers H) |}).
  { destruct (Containers H !! name) as [[old|]|].
    - destruct (Container.Destroy h old tr0); [|discriminate].
      injection Hres as <- <- _. auto.
    - injection Hres as <- <- _. auto.
    - injection Hres as <- <- _. auto. }
  destruct HH as (-> & ->). split; [|split].
  - intros k Hk. simpl. apply lookup_insert_ne. congruence.
  - discriminate.
  - intros _. split; [reflexivity|]. exists c0.
    unfold Holder.Get. simpl. rewrite lookup_insert_eq.
    split; [reflexivity|]. split; [exact Hn|].
    destruct (is_error (spec_Restore h tr name node).1) eqn:Es.
    + exfalso. revert Hr. unfold Container.Restore. simpl.
      destruct (spec_Restore h tr name node) as [e1 spec1]. simpl in Es.
      rewrite Es. intros [= <- _ _]. congruence.
    + destruct (Restore_final_state h (new_TContainer name) c0 tr tr0
                  e0 node Es Hr) as (Hst & _). exact Hst.
Qed.

Lemma Holder_Restore_registers_witness :
  exists H' tr',
    Holder.Restore (host_ok [42]) registry_ab [] "f" node42 =
      Some (Success, H', tr') /\
    (forall k, k <> "f" -> Containers H' !! k = Containers registry_ab !! k) /\
    exists c, Holder.Get H' "f" = Some c /\ Name c = "f" /\
              (State c = Stopped \/ State c = Running).
Proof.
  destruct (Holder.Restore (host_ok [42]) registry_ab [] "f" node42)
    as [[[e H'] tr']|] eqn:Hr; [|discriminate Hr].
  assert (He : e = Success) by (vm_compute in Hr; congruence).
  subst e. exists H', tr'. split; [reflexivity|].
  destruct (Holder_Restore_registers _ _ _ _ _ _ _ _ Hr) as (Hframe & _ & Hok).
  split; [exact Hframe|]. destruct (Hok eq_refl) as (_ & Hc). exact Hc.
Defined.

Lemma rfind_None_not_elem (ch : ascii) (s : string) :
  ch ∉ list_ascii_of_string s -> rfind ch s = None.
Proof.
  induction s as [|c s IH]; simpl; [reflexivity|].
  intros Hn. rewrite IH by (intros Hin; apply Hn; right; exact Hin).
  destruct (Ascii.eqb_spec c ch) as [->|]; [|reflexivity].
  exfalso. apply Hn. left.
Qed.

(** X29: a valid name other than ROOT is a single path component: it is not
    empty and contains neither "/" nor ".", so the leaf [porto/<name>] lies
    directly below [porto]. *)
Theorem valid_name_is_one_component (name : string) :
  Holder.ValidName name = true ->
  name <> ROOT_CONTAINER ->
  name <> "" /\ rfind "/" name = None /\ rfind "." name = None /\
  (String.length name <= 128)%nat.
Proof.
  intros Hv Hnr. apply ValidName_well_formed in Hv as [Hr | (Hne & Hlen & Hall)];
    [contradiction|].
  split; [exact Hne|]. split; [|split; [|exact Hlen]].
  - apply rfind_None_not_elem. intros Hin. apply Hall in Hin.
    apply (bool_decide_eq_false_1 _) in Hin; [exact Hin|].
    vm_compute. reflexivity.
  - apply rfind_None_not_elem. intros Hin. apply Hall in Hin.
    apply (bool_decide_eq_false_1 _) in Hin; [exact Hin|].
    vm_compute. reflexivity.
Qed.

Lemma valid_name_is_one_component_witness :
  "c_3" <> "" /\ rfind "/" "c_3" = None /\ rfind "." "c_3" = None /\
  (String.length "c_3" <= 128)%nat.
Proof.
  apply (valid_name_is_one_component "c_3"); [reflexivity | discriminate].
Defined.

